(** * Feed health monitor: the CRE workflow and its properties

    The repository holds two variants of one cron-triggered handler,
    [onCronTrigger]: [my-workflow/main.ts] and a second, shorter file.
    Both validate the configuration with a zod schema, resolve the
    network, dispatch three read calls against a Chainlink aggregator,
    decode the replies, compute price and staleness in JavaScript
    numbers, classify the feed and return a one-line summary.

    JavaScript numbers are IEEE-754 binary64 values: they are modelled by
    [spec_float] of the standard library at precision 53 and maximal
    exponent 1024, with its round-to-nearest-even operations. *)

From Stdlib Require Import ZArith List String Ascii Bool Lia QArith Qabs.
From Stdlib Require Import SpecFloat.
Import ListNotations.

Open Scope string_scope.
Open Scope Z_scope.

(* ================================================================== *)
(** * ECMAScript numbers *)
(* ================================================================== *)

Module JS.

Definition number := spec_float.

Definition prec : Z := 53.
Definition emax : Z := 1024.

Definition NaN : number := S754_nan.
Definition Infinity : number := S754_infinity false.

(** Arithmetic and comparison operators of the language on numbers. *)
Definition mul (x y : number) : number := SFmul prec emax x y.
Definition div (x y : number) : number := SFdiv prec emax x y.
Definition sub (x y : number) : number := SFsub prec emax x y.
Definition lt (x y : number) : bool := SFltb x y.
Definition le (x y : number) : bool := SFleb x y.
Definition eq (x y : number) : bool := SFeqb x y.

(** A number is well formed when it is a binary64 value in canonical form. *)
Definition valid (x : number) : bool := valid_binary prec emax x.

(** [Number(b)] for a bigint [b]: the nearest binary64 value, ties to even. *)
Definition Number_of_bigint (b : Z) : number := binary_normalize prec emax b 0 false.

(** An integer literal of the source text, such as [3], [1000] or [60000]. *)
Definition lit (z : Z) : number := Number_of_bigint z.

(** [Math.pow(10, d)] and [10 ** d] for a non-negative integer [d].  The
    language leaves the result implementation-approximated; the model takes
    the correctly rounded power, which is the exact one up to [d = 22]. *)
Definition pow10 (d : N) : number := Number_of_bigint (10 ^ Z.of_N d).

Definition is_finite (x : number) : bool :=
  match x with
  | S754_zero _ | S754_finite _ _ _ => true
  | _ => false
  end.

(** The mathematical value of a finite number, as a rational. *)
Definition to_Q (x : number) : option Q :=
  match x with
  | S754_zero _ => Some 0%Q
  | S754_finite s m e =>
      let v := if 0 <=? e then inject_Z (Zpos m * 2 ^ e)
               else Qmake (Zpos m) (Z.to_pos (2 ^ (- e))) in
      Some (if s then Qopp v else v)
  | _ => None
  end.

(** ** Decimal rendering of integers *)

Definition digit_char (d : Z) : ascii := ascii_of_nat (48 + Z.to_nat d).

Fixpoint decimal_aux (fuel : nat) (n : Z) (acc : string) : string :=
  match fuel with
  | O => acc
  | S k =>
      let acc' := String (digit_char (n mod 10)) acc in
      if n <? 10 then acc' else decimal_aux k (n / 10) acc'
  end.

(** The decimal digits of a natural number, most significant first. *)
Definition decimal (n : Z) : string :=
  decimal_aux (S (Z.to_nat (Z.log2 n))) n "".

Fixpoint zeros (k : nat) : string :=
  match k with
  | O => ""
  | S k' => String "0" (zeros k')
  end.

(** ** Number::toString for large magnitudes

    [Number_toString_large x] renders a finite [x >= 10^21]: the shortest
    digit string [s] of [k] digits with [s * 10^(n-k)] reading back as [x],
    in exponent notation.  [X] is the (integral) value of [x] and [n] its
    number of decimal digits. *)

Definition reads_back (x : number) (v : Z) : bool := eq (Number_of_bigint v) x.

Fixpoint shortest_search (fuel : nat) (k : Z) (x : number) (X n : Z) : Z * Z :=
  match fuel with
  | O => (X, n)
  | S fuel' =>
      let scale := 10 ^ (n - k) in
      let lo := X / scale in
      let hi := lo + 1 in
      let ok_lo := reads_back x (lo * scale) in
      let ok_hi := reads_back x (hi * scale) in
      let d_lo := X - lo * scale in
      let d_hi := hi * scale - X in
      if ok_lo && ok_hi then
        if d_lo <? d_hi then (lo, k)
        else if d_hi <? d_lo then (hi, k)
        else if Z.even lo then (lo, k) else (hi, k)
      else if ok_lo then (lo, k)
      else if ok_hi then (hi, k)
      else shortest_search fuel' (k + 1) x X n
  end.

Definition integral_value (m : positive) (e : Z) : Z :=
  if 0 <=? e then Zpos m * 2 ^ e else Zpos m / 2 ^ (- e).

Definition Number_toString_large (m : positive) (e : Z) : string :=
  let x := S754_finite false m e in
  let X := integral_value m e in
  let n := Z.of_nat (String.length (decimal X)) in
  let '(s, k) := shortest_search 17 1 x X n in
  let carry := s =? 10 ^ k in
  let digits := if carry then "1" else decimal s in
  let expo := if carry then n else n - 1 in
  match digits with
  | EmptyString => ""
  | String d EmptyString => String d ("e+" ++ decimal expo)
  | String d rest => String d ("." ++ rest ++ "e+" ++ decimal expo)
  end.

(** ** Number.prototype.toFixed *)

(** The integer [n] for which [n / 10^f - m * 2^e] is closest to zero, the
    larger one when there are two. *)
Definition scaled_nearest (m : positive) (e : Z) (f : nat) : Z :=
  if 0 <=? e then Zpos m * 2 ^ e * 10 ^ Z.of_nat f
  else (2 * Zpos m * 10 ^ Z.of_nat f + 2 ^ (- e)) / 2 ^ (1 - e).

(** [m * 2^e >= 10^21]. *)
Definition ge_1e21 (m : positive) (e : Z) : bool :=
  if 0 <=? e then 10 ^ 21 <=? Zpos m * 2 ^ e
  else 10 ^ 21 * 2 ^ (- e) <=? Zpos m.

(** The first [n] characters of a string, and the others. *)
Fixpoint take (n : nat) (s : string) : string :=
  match n, s with
  | S n', String c rest => String c (take n' rest)
  | _, _ => ""
  end.

Fixpoint drop (n : nat) (s : string) : string :=
  match n, s with
  | S n', String _ rest => drop n' rest
  | _, _ => s
  end.

(** The digits of [n] with a point before the last [f] of them, padded
    with leading zeros to [f + 1] digits. *)
Definition fixed_digits (n : Z) (f : nat) : string :=
  let m := decimal n in
  let m := zeros (f + 1 - String.length m) ++ m in
  let k := String.length m in
  match f with
  | O => m
  | _ => take (k - f) m ++ "." ++ drop (k - f) m
  end.

Definition toFixed (x : number) (f : nat) : string :=
  match x with
  | S754_nan => "NaN"
  | S754_infinity false => "Infinity"
  | S754_infinity true => "-Infinity"
  | S754_zero _ => fixed_digits 0 f
  | S754_finite s m e =>
      (if s then "-" else "") ++
      (if ge_1e21 m e then Number_toString_large m e
       else fixed_digits (scaled_nearest m e f) f)
  end.

(** ** Date objects *)

(** A Date holds a time value: an integral number of milliseconds since
    the epoch, or NaN for an invalid date. *)
Record Date := { timeValue : number }.

Definition maxTime : number := lit 8640000000000000.

(** Truncation of a finite number towards zero. *)
Definition truncate (x : number) : Z :=
  match x with
  | S754_finite s m e => cond_Zopp s (integral_value m e)
  | _ => 0
  end.

Definition TimeClip (t : number) : number :=
  if negb (is_finite t) then NaN
  else if lt maxTime (SFabs t) then NaN
  else Number_of_bigint (truncate t).

(** [new Date(v)] for a number [v]. *)
Definition new_Date (v : number) : Date := {| timeValue := TimeClip v |}.

Definition getTime (d : Date) : number := timeValue d.

(** [d.toISOString()] throws a RangeError on a time value that is not
    finite ([None]); otherwise the ISO-8601 text is determined by the time
    value, which stands for it here. *)
Definition toISOString (d : Date) : option number :=
  if is_finite (timeValue d) then Some (timeValue d) else None.

End JS.

(* ================================================================== *)
(** * Configuration and its zod schema *)
(* ================================================================== *)

Module Zod.

(** A JavaScript value as found in [runtime.config]. *)
Inductive value :=
| VUndefined
| VNull
| VBoolean (b : bool)
| VNumber (x : JS.number)
| VString (s : string)
| VObject.

(** [runtime.config] before validation: the six properties read by the
    schema ([VUndefined] for a missing one). *)
Record RawConfig := {
  raw_schedule : value;
  raw_feedAddress : value;
  raw_feedName : value;
  raw_stalenessThresholdMinutes : value;
  raw_chainSelectorName : value;
  raw_isTestnet : value
}.

(** The type [Config] of both files. *)
Record Config := {
  schedule : string;
  feedAddress : string;
  feedName : string;
  stalenessThresholdMinutes : JS.number;
  chainSelectorName : string;
  isTestnet : bool
}.

(** [z.string()] *)
Definition z_string (v : value) : option string :=
  match v with
  | VString s => Some s
  | _ => None
  end.

(** The character class [[a-fA-F0-9]]. *)
Definition is_hex_digit (c : ascii) : bool :=
  let n := nat_of_ascii c in
  ((97 <=? n) && (n <=? 102) || (65 <=? n) && (n <=? 70) || (48 <=? n) && (n <=? 57))%nat.

Fixpoint all_hex (s : string) : bool :=
  match s with
  | EmptyString => true
  | String c rest => is_hex_digit c && all_hex rest
  end.

(** [/^0x[a-fA-F0-9]{40}$/.test(s)] *)
Definition address_regex (s : string) : bool :=
  match s with
  | String c0 (String c1 rest) =>
      Ascii.eqb c0 "0" && Ascii.eqb c1 "x"
      && (String.length rest =? 40)%nat && all_hex rest
  | _ => false
  end.

(** [z.string().regex(/^0x[a-fA-F0-9]{40}$/)] *)
Definition z_string_regex (v : value) : option string :=
  match v with
  | VString s => if address_regex s then Some s else None
  | _ => None
  end.

(** [z.number().positive()]: a number that is not NaN and is greater than
    zero.  Infinity passes, as in zod 3, which the SDK depends on. *)
Definition z_number_positive (v : value) : option JS.number :=
  match v with
  | VNumber x => if JS.lt (JS.lit 0) x then Some x else None
  | _ => None
  end.

(** [z.boolean()] *)
Definition z_boolean (v : value) : option bool :=
  match v with
  | VBoolean b => Some b
  | _ => None
  end.

Definition issue {A : Type} (path : string) (r : option A) : list string :=
  match r with
  | Some _ => []
  | None => [path]
  end.

(** [configSchema.parse(config)]: the typed configuration, or the paths of
    the properties that failed, in schema order (the issues of the
    ZodError). *)
Definition configSchema_parse (c : RawConfig) : list string + Config :=
  let s := z_string (raw_schedule c) in
  let a := z_string_regex (raw_feedAddress c) in
  let n := z_string (raw_feedName c) in
  let t := z_number_positive (raw_stalenessThresholdMinutes c) in
  let k := z_string (raw_chainSelectorName c) in
  let b := z_boolean (raw_isTestnet c) in
  match s, a, n, t, k, b with
  | Some s', Some a', Some n', Some t', Some k', Some b' =>
      inr {| schedule := s'; feedAddress := a'; feedName := n';
             stalenessThresholdMinutes := t'; chainSelectorName := k';
             isTestnet := b' |}
  | _, _, _, _, _, _ =>
      inl (issue "schedule" s ++ issue "feedAddress" a ++ issue "feedName" n
           ++ issue "stalenessThresholdMinutes" t
           ++ issue "chainSelectorName" k ++ issue "isTestnet" b)%list
  end.

End Zod.

(* ================================================================== *)
(** * The runtime: host capabilities, errors, log *)
(* ================================================================== *)

Module Runtime.

Import Zod.

(** The three functions of the aggregator interface the workflow reads. *)
Inductive AbiFunction := description | decimals | latestRoundData.

(** The decoded tuple of [latestRoundData()]. *)
Record RoundData := {
  roundId : Z;
  answer : Z;
  startedAt : Z;
  updatedAt : Z;
  answeredInRound : Z
}.

(** What [decodeFunctionResult] yields under the ABI of each function. *)
Definition abi_output (f : AbiFunction) : Type :=
  match f with
  | description => string
  | decimals => N
  | latestRoundData => RoundData
  end.

(** [encodeFunctionData({abi, functionName})] for a function without
    arguments: its selector, which the function name determines. *)
Inductive calldata := Selector (f : AbiFunction).

Definition encodeFunctionData (f : AbiFunction) : calldata := Selector f.

Definition selected (d : calldata) : AbiFunction :=
  match d with Selector f => f end.

Inductive BlockNumber :=
| LAST_FINALIZED_BLOCK_NUMBER
| LATEST_BLOCK_NUMBER
| BlockAt (n : Z).

Definition zeroAddress : string := "0x0000000000000000000000000000000000000000".

(** The message built by [encodeCallMsg]. *)
Record CallMsg := { from : string; to : string; data : calldata }.

Definition encodeCallMsg (f t : string) (d : calldata) : CallMsg :=
  {| from := f; to := t; data := d |}.

(** The argument of [evmClient.callContract]. *)
Record CallRequest := { call : CallMsg; blockNumber : BlockNumber }.

(** The bytes of a response are represented by what [decodeFunctionResult]
    makes of them under the ABI of the function called: [None] when they
    do not match it. *)
Definition raw (A : Type) : Type := option A.

(** The outcome of awaiting a call with [.result()]. *)
Inductive reply (A : Type) :=
| CallFailed
| CallData (r : raw A).
Arguments CallFailed {A}.
Arguments CallData {A} r.

(** What the handler is given: the configuration, the SDK's network table,
    the read capability (per chain selector and request) and the clock, in
    milliseconds since the epoch. *)
Record Host := {
  config : RawConfig;
  getNetwork : string -> string -> bool -> option Z;
  callContract : Z -> forall q : CallRequest, reply (abi_output (selected (data (call q))));
  clock : Z
}.

Inductive Error :=
| ConfigurationError (issues : list string)
| NetworkResolutionError (name : string)
| CallFailureError (f : AbiFunction)
| DecodeError (f : AbiFunction)
| RangeError.

Inductive ReportField :=
| RFeed (text : string)
| RPrice (text : string)
| RRoundId (id : Z)
| RUpdated (iso : JS.number)
| RStaleness (text : string)
| RStatus (status : string).

(** The lines passed to [runtime.log].  [LReport i f] is a line of the
    report, indented by [i] spaces. *)
Inductive LogLine :=
| LRule
| LTitle (name : string)
| LStep1
| LStep2
| LFeed (text : string)
| LDecimals (d : N)
| LReport (indent : nat) (f : ReportField)
| LSummary (s : string)
| LError (e : Error).

(** The effects of one run: the lines logged, the calls dispatched, both in
    order, and (a ghost field) the status once it has been assigned. *)
Record State := {
  log : list LogLine;
  calls : list CallRequest;
  status : option string
}.

Definition initial : State := {| log := []; calls := []; status := None |}.

(** A computation that may throw. *)
Definition M (A : Type) : Type := State -> (Error + A) * State.

Definition ret {A : Type} (a : A) : M A := fun st => (inr a, st).

Definition bind {A B : Type} (c : M A) (k : A -> M B) : M B :=
  fun st =>
    match c st with
    | (inl e, st') => (inl e, st')
    | (inr a, st') => k a st'
    end.

Definition throw {A : Type} (e : Error) : M A := fun st => (inl e, st).

(** [try { c } catch (error) { h error }] *)
Definition try_catch {A : Type} (c : M A) (h : Error -> M A) : M A :=
  fun st =>
    match c st with
    | (inl e, st') => h e st'
    | r => r
    end.

Definition runtime_log (l : LogLine) : M unit :=
  fun st => (inr tt, {| log := log st ++ [l]; calls := calls st; status := status st |}).

Definition assign_status (s : string) : M unit :=
  fun st => (inr tt, {| log := log st; calls := calls st; status := Some s |}).

(** [evmClient.callContract(runtime, q)]: the request is recorded and the
    pending reply returned; nothing is thrown before [.result()]. *)
Definition evmClient_callContract (h : Host) (selector : Z) (q : CallRequest)
  : M (reply (abi_output (selected (data (call q))))) :=
  fun st => (inr (callContract h selector q),
             {| log := log st; calls := calls st ++ [q]; status := status st |}).

(** [promise.result()] *)
Definition result {A : Type} (f : AbiFunction) (p : reply A) : M (raw A) :=
  match p with
  | CallFailed => throw (CallFailureError f)
  | CallData r => ret r
  end.

(** [decodeFunctionResult({abi, functionName, data})] *)
Definition decodeFunctionResult {A : Type} (f : AbiFunction) (r : raw A) : M A :=
  match r with
  | Some v => ret v
  | None => throw (DecodeError f)
  end.

(** [configSchema.parse] as a step of the handler. *)
Definition parse (c : RawConfig) : M Config :=
  match configSchema_parse c with
  | inl issues => throw (ConfigurationError issues)
  | inr cfg => ret cfg
  end.

Definition Date_toISOString (d : JS.Date) : M JS.number :=
  match JS.toISOString d with
  | Some iso => ret iso
  | None => throw RangeError
  end.

(** [Date.now()], and the time value of [new Date()]. *)
Definition Date_now (h : Host) : JS.number := JS.Number_of_bigint (clock h).

End Runtime.

Declare Scope run_scope.
Delimit Scope run_scope with run.
Notation "x <- c ;; k" := (Runtime.bind c (fun x => k))
  (at level 61, c at next level, right associativity) : run_scope.
Notation "c ;;; k" := (Runtime.bind c (fun _ => k))
  (at level 61, right associativity) : run_scope.

(* ================================================================== *)
(** * my-workflow/main.ts *)
(* ================================================================== *)

Module MyWorkflow.

Import Zod Runtime.
Local Open Scope run_scope.

(** [Number(answer) / Math.pow(10, decimals)] *)
Definition price (answer : Z) (decimals : N) : JS.number :=
  JS.div (JS.Number_of_bigint answer) (JS.pow10 decimals).

(** [new Date(Number(updatedAt) * 1000)] *)
Definition updatedAtDate (updatedAt : Z) : JS.Date :=
  JS.new_Date (JS.mul (JS.Number_of_bigint updatedAt) (JS.lit 1000)).

(** [stalenessMs / 60000] with [stalenessMs = now.getTime() - updatedAtDate.getTime()] *)
Definition stalenessMinutes (now : JS.number) (updated : JS.Date) : JS.number :=
  let stalenessMs := JS.sub now (JS.getTime updated) in
  JS.div stalenessMs (JS.lit 60000).

(** The [if / else if / else] that assigns [status]. *)
Definition classify (stalenessMinutes thresholdMinutes : JS.number) : string :=
  if JS.lt stalenessMinutes thresholdMinutes then "OK"
  else if JS.lt stalenessMinutes (JS.mul thresholdMinutes (JS.lit 3)) then "WARN"
  else "FAIL".

Definition summary (feedName status : string) (price stalenessMinutes : JS.number) : string :=
  feedName ++ ": " ++ status ++ " (" ++ JS.toFixed price 2 ++ ", "
    ++ JS.toFixed stalenessMinutes 1 ++ "m stale)".

Definition request (feedAddr : string) (d : calldata) : CallRequest :=
  {| call := encodeCallMsg zeroAddress feedAddr d;
     blockNumber := LAST_FINALIZED_BLOCK_NUMBER |}.

Definition body (h : Host) : M string :=
  cfg <- parse (config h) ;;
  runtime_log LRule ;;;
  runtime_log (LTitle (feedName cfg)) ;;;
  runtime_log LRule ;;;
  match getNetwork h "evm" (chainSelectorName cfg) (isTestnet cfg) with
  | None => throw (NetworkResolutionError (chainSelectorName cfg))
  | Some selector =>
      let feedAddr := feedAddress cfg in
      runtime_log LStep1 ;;;
      let descCallData := encodeFunctionData description in
      let decimalsCallData := encodeFunctionData decimals in
      let roundCallData := encodeFunctionData latestRoundData in
      descPromise <- evmClient_callContract h selector (request feedAddr descCallData) ;;
      decimalsPromise <- evmClient_callContract h selector (request feedAddr decimalsCallData) ;;
      roundPromise <- evmClient_callContract h selector (request feedAddr roundCallData) ;;
      runtime_log LStep2 ;;;
      descResult <- result description descPromise ;;
      decimalsResult <- result decimals decimalsPromise ;;
      roundResult <- result latestRoundData roundPromise ;;
      desc <- decodeFunctionResult description descResult ;;
      runtime_log (LFeed desc) ;;;
      dec <- decodeFunctionResult decimals decimalsResult ;;
      runtime_log (LDecimals dec) ;;;
      round <- decodeFunctionResult latestRoundData roundResult ;;
      let price := price (answer round) dec in
      let updatedAtDate := updatedAtDate (updatedAt round) in
      let now := Date_now h in
      let stalenessMinutes := stalenessMinutes now updatedAtDate in
      let thresholdMinutes := stalenessThresholdMinutes cfg in
      let status := classify stalenessMinutes thresholdMinutes in
      assign_status status ;;;
      runtime_log LRule ;;;
      runtime_log (LReport 2 (RFeed desc)) ;;;
      runtime_log (LReport 2 (RPrice (JS.toFixed price 2))) ;;;
      runtime_log (LReport 2 (RRoundId (roundId round))) ;;;
      iso <- Date_toISOString updatedAtDate ;;
      runtime_log (LReport 2 (RUpdated iso)) ;;;
      runtime_log (LReport 2 (RStaleness (JS.toFixed stalenessMinutes 1))) ;;;
      runtime_log (LReport 2 (RStatus status)) ;;;
      runtime_log LRule ;;;
      let summary := summary (feedName cfg) status price stalenessMinutes in
      runtime_log (LSummary summary) ;;;
      ret summary
  end.

(** The handler: the body inside [try], and the [catch] that logs the
    error and throws it again. *)
Definition onCronTrigger (h : Host) : M string :=
  try_catch (body h) (fun error => runtime_log (LError error) ;;; throw error).

End MyWorkflow.

(* ================================================================== *)
(** * The second variant of the handler *)
(* ================================================================== *)

Module Part000.

Import Zod Runtime.
Local Open Scope run_scope.

(** [Number(answer) / 10 ** decimals] *)
Definition price (answer : Z) (decimals : N) : JS.number :=
  JS.div (JS.Number_of_bigint answer) (JS.pow10 decimals).

(** [new Date(Number(updatedAt) * 1000)] *)
Definition updatedAtDate (updatedAt : Z) : JS.Date :=
  JS.new_Date (JS.mul (JS.Number_of_bigint updatedAt) (JS.lit 1000)).

(** [(Date.now() - updatedAtDate.getTime()) / 60000] *)
Definition stalenessMinutes (now : JS.number) (updated : JS.Date) : JS.number :=
  JS.div (JS.sub now (JS.getTime updated)) (JS.lit 60000).

(** The nested conditional expression that initialises [status]. *)
Definition classify (stalenessMinutes threshold : JS.number) : string :=
  if JS.lt stalenessMinutes threshold then "OK"
  else if JS.lt stalenessMinutes (JS.mul threshold (JS.lit 3)) then "WARN"
  else "FAIL".

Definition summary (feedName status : string) (price stalenessMinutes : JS.number) : string :=
  feedName ++ ": " ++ status ++ " ($" ++ JS.toFixed price 2 ++ ", "
    ++ JS.toFixed stalenessMinutes 1 ++ "m)".

Definition request (feedAddr : string) (d : calldata) : CallRequest :=
  {| call := encodeCallMsg zeroAddress feedAddr d;
     blockNumber := LAST_FINALIZED_BLOCK_NUMBER |}.

Definition onCronTrigger (h : Host) : M string :=
  cfg <- parse (config h) ;;
  runtime_log (LTitle (feedName cfg)) ;;;
  match getNetwork h "evm" (chainSelectorName cfg) (isTestnet cfg) with
  | None => throw (NetworkResolutionError (chainSelectorName cfg))
  | Some selector =>
      let feedAddr := feedAddress cfg in
      let descData := encodeFunctionData description in
      let decimalsData := encodeFunctionData decimals in
      let roundData := encodeFunctionData latestRoundData in
      descPromise <- evmClient_callContract h selector (request feedAddr descData) ;;
      decimalsPromise <- evmClient_callContract h selector (request feedAddr decimalsData) ;;
      roundPromise <- evmClient_callContract h selector (request feedAddr roundData) ;;
      descResult <- result description descPromise ;;
      desc <- decodeFunctionResult description descResult ;;
      decimalsResult <- result decimals decimalsPromise ;;
      dec <- decodeFunctionResult decimals decimalsResult ;;
      roundResult <- result latestRoundData roundPromise ;;
      round <- decodeFunctionResult latestRoundData roundResult ;;
      let price := price (answer round) dec in
      let updatedAtDate := updatedAtDate (updatedAt round) in
      let stalenessMinutes := stalenessMinutes (Date_now h) updatedAtDate in
      let threshold := stalenessThresholdMinutes cfg in
      let status := classify stalenessMinutes threshold in
      assign_status status ;;;
      runtime_log (LReport 0 (RFeed desc)) ;;;
      runtime_log (LReport 0 (RPrice (JS.toFixed price 2))) ;;;
      runtime_log (LReport 0 (RRoundId (roundId round))) ;;;
      iso <- Date_toISOString updatedAtDate ;;
      runtime_log (LReport 0 (RUpdated iso)) ;;;
      runtime_log (LReport 0 (RStaleness (JS.toFixed stalenessMinutes 1))) ;;;
      runtime_log (LReport 0 (RStatus status)) ;;;
      ret (summary (feedName cfg) status price stalenessMinutes)
  end.

End Part000.

(* ================================================================== *)
(** * Sample runs *)
(* ================================================================== *)

Module Samples.

Import Zod Runtime.

Definition goodConfig : RawConfig := {|
  raw_schedule := VString "0 */10 * * * *";
  raw_feedAddress := VString "0x71041dddad3595F9CEd3DcCFBe3D1F4b0a16Bb70";
  raw_feedName := VString "ETH/USD";
  raw_stalenessThresholdMinutes := VNumber (JS.lit 10);
  raw_chainSelectorName := VString "ethereum-mainnet-base-1";
  raw_isTestnet := VBoolean false
|}.

Definition baseSelector : Z := 15971525489660198786.

Definition knownNetworks (family name : string) (testnet : bool) : option Z :=
  if String.eqb family "evm" && String.eqb name "ethereum-mainnet-base-1" && negb testnet
  then Some baseSelector else None.

(** A feed answering every request: [desc], [dec] decimals and round [r]. *)
Definition feed (desc : string) (dec : N) (r : RoundData)
  (_ : Z) (q : CallRequest) : reply (abi_output (selected (data (call q)))) :=
  match selected (data (call q)) as f return reply (abi_output f) with
  | description => CallData (Some desc)
  | decimals => CallData (Some dec)
  | latestRoundData => CallData (Some r)
  end.

Definition nowMs : Z := 1700000000000.

(** The round of the end-to-end scenarios: answer 2000.00000000, updated
    [age] minutes before [nowMs]. *)
Definition roundAged (age : Z) : RoundData := {|
  roundId := 18446744073709551900;
  answer := 200000000000;
  startedAt := 1700000000 - age * 60;
  updatedAt := 1700000000 - age * 60;
  answeredInRound := 18446744073709551900
|}.

Definition hostAged (age : Z) : Host := {|
  config := goodConfig;
  getNetwork := knownNetworks;
  callContract := feed "ETH / USD" 8 (roundAged age);
  clock := nowMs
|}.

(** Scenario 4: a feed address that is not hexadecimal. *)
Definition badAddressConfig : RawConfig := {|
  raw_schedule := VString "0 */10 * * * *";
  raw_feedAddress := VString "0xZZZZZZZZZZZZZZZZZZZZZZZZZZZZZZZZZZZZZZZZ";
  raw_feedName := VString "ETH/USD";
  raw_stalenessThresholdMinutes := VNumber (JS.lit 10);
  raw_chainSelectorName := VString "ethereum-mainnet-base-1";
  raw_isTestnet := VBoolean false
|}.

Definition hostBadAddress : Host := {|
  config := badAddressConfig;
  getNetwork := knownNetworks;
  callContract := feed "ETH / USD" 8 (roundAged 5);
  clock := nowMs
|}.

(** A configuration whose three names are empty strings. *)
Definition emptyNamesConfig : RawConfig := {|
  raw_schedule := VString "";
  raw_feedAddress := VString "0x71041dddad3595F9CEd3DcCFBe3D1F4b0a16Bb70";
  raw_feedName := VString "";
  raw_stalenessThresholdMinutes := VNumber (JS.lit 10);
  raw_chainSelectorName := VString "";
  raw_isTestnet := VBoolean false
|}.

Definition hostEmptyNames : Host := {|
  config := emptyNamesConfig;
  getNetwork := knownNetworks;
  callContract := feed "ETH / USD" 8 (roundAged 5);
  clock := nowMs
|}.

(** An empty schedule and feed name, on a known network. *)
Definition hostEmptySchedule : Host := {|
  config := {|
    raw_schedule := VString "";
    raw_feedAddress := VString "0x71041dddad3595F9CEd3DcCFBe3D1F4b0a16Bb70";
    raw_feedName := VString "";
    raw_stalenessThresholdMinutes := VNumber (JS.lit 10);
    raw_chainSelectorName := VString "ethereum-mainnet-base-1";
    raw_isTestnet := VBoolean false
  |};
  getNetwork := knownNetworks;
  callContract := feed "ETH / USD" 8 (roundAged 5);
  clock := nowMs
|}.

(** A schedule that is not a string. *)
Definition hostNoSchedule : Host := {|
  config := {|
    raw_schedule := VUndefined;
    raw_feedAddress := VString "0x71041dddad3595F9CEd3DcCFBe3D1F4b0a16Bb70";
    raw_feedName := VString "ETH/USD";
    raw_stalenessThresholdMinutes := VNumber (JS.lit 10);
    raw_chainSelectorName := VString "ethereum-mainnet-base-1";
    raw_isTestnet := VBoolean false
  |};
  getNetwork := knownNetworks;
  callContract := feed "ETH / USD" 8 (roundAged 5);
  clock := nowMs
|}.

(** A feed whose [decimals()] call fails. *)
Definition hostDecimalsDown : Host := {|
  config := goodConfig;
  getNetwork := knownNetworks;
  callContract := fun _ q =>
    match selected (data (call q)) as f return reply (abi_output f) with
    | description => CallData (Some "ETH / USD")
    | decimals => CallFailed
    | latestRoundData => CallData (Some (roundAged 5))
    end;
  clock := nowMs
|}.

(** A round updated at second [10^13], past the last representable date. *)
Definition roundFarFuture : RoundData := {|
  roundId := 18446744073709551900;
  answer := 200000000000;
  startedAt := 10 ^ 13;
  updatedAt := 10 ^ 13;
  answeredInRound := 18446744073709551900
|}.

Definition hostFarFuture : Host := {|
  config := goodConfig;
  getNetwork := knownNetworks;
  callContract := feed "ETH / USD" 8 roundFarFuture;
  clock := nowMs
|}.

(** A feed whose answer is [10^21] with no decimals: a price of [10^21]. *)
Definition hostHugePrice : Host := {|
  config := goodConfig;
  getNetwork := knownNetworks;
  callContract := feed "ETH / USD" 0
    {| roundId := 1; answer := 10 ^ 21; startedAt := 1700000000 - 300;
       updatedAt := 1700000000 - 300; answeredInRound := 1 |};
  clock := nowMs
|}.

End Samples.

(* ================================================================== *)
(** * Vocabulary of the properties *)
(* ================================================================== *)

Import Zod Runtime.

(** The reply of the host to the request both handlers build for function
    [f] of the feed at [addr]. *)
Definition responds (h : Host) (selector : Z) (addr : string) (f : AbiFunction)
  : reply (abi_output f) :=
  callContract h selector
    {| call := encodeCallMsg zeroAddress addr (encodeFunctionData f);
       blockNumber := LAST_FINALIZED_BLOCK_NUMBER |}.

(** A request pinned to the last finalized block. *)
Definition pinned (q : CallRequest) : Prop :=
  blockNumber q = LAST_FINALIZED_BLOCK_NUMBER.

(** The three requests of one evaluation, in dispatch order. *)
Definition three_reads (addr : string) : list CallRequest :=
  map (fun f => {| call := encodeCallMsg zeroAddress addr (encodeFunctionData f);
                   blockNumber := LAST_FINALIZED_BLOCK_NUMBER |})
      [description; decimals; latestRoundData].

(** A log line that shows neither price nor status. *)
Definition silent (l : LogLine) : Prop :=
  match l with
  | LReport _ (RPrice _) | LReport _ (RStatus _) | LSummary _ => False
  | _ => True
  end.

Definition is_string (v : value) : bool :=
  match v with
  | VString _ => true
  | _ => false
  end.

(** The pattern [^0x[a-fA-F0-9]{40}$], read as a statement. *)
Definition hex_alphabet : list ascii :=
  list_ascii_of_string "0123456789abcdefABCDEF".

Definition hex_char (c : ascii) : Prop := In c hex_alphabet.

Definition matches_address_pattern (s : string) : Prop :=
  exists body,
    s = "0x" ++ body /\ String.length body = 40%nat /\
    forall c, In c (list_ascii_of_string body) -> hex_char c.

(** A feed address that is not a string matching the pattern. *)
Definition bad_address (v : value) : Prop :=
  forall s, v = VString s -> ~ matches_address_pattern s.

(** A threshold that is not a number greater than zero. *)
Definition bad_threshold (v : value) : Prop :=
  forall x, v = VNumber x -> JS.lt (JS.lit 0) x = false.

Definition is_digit (c : ascii) : bool :=
  let n := nat_of_ascii c in ((48 <=? n) && (n <=? 57))%nat.

Fixpoint all_digits (s : string) : bool :=
  match s with
  | EmptyString => true
  | String c rest => is_digit c && all_digits rest
  end.

(** A decimal numeral with exactly [f] digits after the point. *)
Definition fixed_point (f : nat) (s : string) : Prop :=
  exists sign whole frac,
    s = sign ++ whole ++ "." ++ frac /\
    (sign = "" \/ sign = "-") /\
    (1 <= String.length whole)%nat /\ all_digits whole = true /\
    String.length frac = f /\ all_digits frac = true.

Fixpoint has_char (c : ascii) (s : string) : bool :=
  match s with
  | EmptyString => false
  | String c' rest => Ascii.eqb c c' || has_char c rest
  end.

(** A finite number of magnitude below [10^21]. *)
Definition small (x : JS.number) : Prop :=
  exists q, JS.to_Q x = Some q /\ (Qabs q < inject_Z (10 ^ 21))%Q.


(** The summary line as the specification words it:
    ["<feedName>: <status> ($<price>, <stalenessMinutes>m)"], with the price
    to two and the staleness to one decimal place. *)
Definition summary_shape (feedName status : string) (price stalenessMinutes : JS.number)
  : string :=
  feedName ++ ": " ++ status ++ " ($" ++ JS.toFixed price 2 ++ ", "
    ++ JS.toFixed stalenessMinutes 1 ++ "m)".

(** The last two characters of a string. *)
Definition last2 (s : string) : string := JS.drop (String.length s - 2) s.

(** The feed name, status, price and staleness that a run of host [h]
    reaches when its configuration is valid, its network known and its
    three replies decode. *)
Definition assessed (h : Host) (name st : string) (price stale : JS.number) : Prop :=
  exists cfg selector dec round,
    configSchema_parse (config h) = inr cfg /\
    getNetwork h "evm" (chainSelectorName cfg) (isTestnet cfg) = Some selector /\
    responds h selector (feedAddress cfg) decimals = CallData (Some dec) /\
    responds h selector (feedAddress cfg) latestRoundData = CallData (Some round) /\
    name = feedName cfg /\
    price = MyWorkflow.price (answer round) dec /\
    stale = MyWorkflow.stalenessMinutes (Date_now h)
              (MyWorkflow.updatedAtDate (updatedAt round)) /\
    st = MyWorkflow.classify stale (stalenessThresholdMinutes cfg).

(** A number that is zero, or finite with exponent at least [lo], at most
    53 digits of mantissa and magnitude below [2^hi]. *)
Definition within (x : JS.number) (lo hi : Z) : Prop :=
  match x with
  | S754_zero _ => True
  | S754_finite _ m e =>
      lo <= e /\ Zpos (digits2_pos m) + e <= hi /\ Zpos (digits2_pos m) <= 53
  | _ => False
  end.

(** A mantissa of at most 53 digits. *)
Definition mantissa_ok (x : JS.number) : Prop :=
  match x with
  | S754_finite _ m _ => Zpos (digits2_pos m) <= 53
  | _ => True
  end.

(** The order of the comparison of numbers, as a lexicographic key. *)
Definition key (x : JS.number) : option (Z * Z * Z) :=
  match x with
  | S754_nan => None
  | S754_infinity true => Some (-2, 0, 0)
  | S754_infinity false => Some (2, 0, 0)
  | S754_zero _ => Some (0, 0, 0)
  | S754_finite true m e => Some (-1, - e, Zneg m)
  | S754_finite false m e => Some (1, e, Zpos m)
  end.

Definition key_le (a b : Z * Z * Z) : Prop :=
  let '(a1, a2, a3) := a in
  let '(b1, b2, b3) := b in
  a1 < b1 \/ (a1 = b1 /\ (a2 < b2 \/ (a2 = b2 /\ a3 <= b3))).

(* ================================================================== *)
(** * Vocabulary of further properties *)
(* ================================================================== *)

(** The configuration of [h] is valid and its network known. *)
Definition connected (h : Host) (cfg : Config) (selector : Z) : Prop :=
  configSchema_parse (config h) = inr cfg /\
  getNetwork h "evm" (chainSelectorName cfg) (isTestnet cfg) = Some selector.

(** Moreover the three reads resolved and decoded. *)
Definition decoded (h : Host) (cfg : Config) (selector : Z)
  (desc : string) (dec : N) (round : RoundData) : Prop :=
  connected h cfg selector /\
  responds h selector (feedAddress cfg) description = CallData (Some desc) /\
  responds h selector (feedAddress cfg) decimals = CallData (Some dec) /\
  responds h selector (feedAddress cfg) latestRoundData = CallData (Some round).

(** The six lines of the report, indented by [i] spaces. *)
Definition report (i : nat) (desc priceText : string) (id : Z) (iso : JS.number)
  (staleText st : string) : list LogLine :=
  [LReport i (RFeed desc); LReport i (RPrice priceText); LReport i (RRoundId id);
   LReport i (RUpdated iso); LReport i (RStaleness staleText); LReport i (RStatus st)].

Definition is_report (l : LogLine) : bool :=
  match l with
  | LReport _ _ => true
  | _ => false
  end.

Definition unindent (l : LogLine) : LogLine :=
  match l with
  | LReport _ f => LReport 0 f
  | _ => l
  end.

Definition is_error_line (l : LogLine) : bool :=
  match l with
  | LError _ => true
  | _ => false
  end.

(** OK before WARN before FAIL. *)
Definition status_rank (st : string) : nat :=
  if String.eqb st "OK" then 0 else if String.eqb st "WARN" then 1 else 2.

(** The properties of the schema with their checks, in schema order. *)
Definition schema_checks : list (string * (RawConfig -> bool)) :=
  [("schedule", fun c => is_string (raw_schedule c));
   ("feedAddress", fun c => match raw_feedAddress c with
                            | VString s => address_regex s
                            | _ => false
                            end);
   ("feedName", fun c => is_string (raw_feedName c));
   ("stalenessThresholdMinutes",
      fun c => match raw_stalenessThresholdMinutes c with
               | VNumber x => JS.lt (JS.lit 0) x
               | _ => false
               end);
   ("chainSelectorName", fun c => is_string (raw_chainSelectorName c));
   ("isTestnet", fun c => match raw_isTestnet c with
                          | VBoolean _ => true
                          | _ => false
                          end)].

(** A configuration as it is once typed, read back as raw values. *)
Definition untyped (cfg : Config) : RawConfig :=
  {| raw_schedule := VString (schedule cfg);
     raw_feedAddress := VString (feedAddress cfg);
     raw_feedName := VString (feedName cfg);
     raw_stalenessThresholdMinutes := VNumber (stalenessThresholdMinutes cfg);
     raw_chainSelectorName := VString (chainSelectorName cfg);
     raw_isTestnet := VBoolean (isTestnet cfg) |}.

(** The binary64 form of the integer [v] of at most 53 bits, with sign [s]:
    the mantissa is [v] scaled to 53 bits. *)
Definition exact_form (s : bool) (v : positive) : JS.number :=
  S754_finite s (Z.to_pos (Zpos v * 2 ^ (53 - Zpos (digits2_pos v))))
    (Zpos (digits2_pos v) - 53).

(** A number at or above [2^(k-1)]: positive infinity, or positive with
    binade at least [k] and a mantissa of at most 53 digits. *)
Definition at_least (x : JS.number) (k : Z) : Prop :=
  match x with
  | S754_infinity false => True
  | S754_finite false m e => k <= Zpos (digits2_pos m) + e /\ Zpos (digits2_pos m) <= 53
  | _ => False
  end.

(** The sign of a finite number: [Some (-1)], [Some 0] or [Some 1]; [None]
    for NaN and the infinities. *)
Definition signum (x : JS.number) : option Z :=
  match x with
  | S754_zero _ => Some 0
  | S754_finite s _ _ => Some (if s then -1 else 1)
  | _ => None
  end.

(** A number with a full mantissa and an exponent between [lo] and [hi]. *)
Definition normal (x : JS.number) (s : bool) (lo hi : Z) : Prop :=
  match x with
  | S754_finite s' m e => s' = s /\ Zpos (digits2_pos m) = 53 /\ lo <= e <= hi
  | _ => False
  end.

Module Cases.

(** A feed whose description does not decode and whose [decimals()] call
    fails. *)
Definition hostGarbledAndDown : Host := {|
  config := Samples.goodConfig;
  getNetwork := Samples.knownNetworks;
  callContract := fun _ q =>
    match selected (data (call q)) as f return reply (abi_output f) with
    | description => CallData None
    | decimals => CallFailed
    | latestRoundData => CallData (Some (Samples.roundAged 5))
    end;
  clock := Samples.nowMs
|}.

(** A feed whose round does not decode. *)
Definition hostGarbledRound : Host := {|
  config := Samples.goodConfig;
  getNetwork := Samples.knownNetworks;
  callContract := fun _ q =>
    match selected (data (call q)) as f return reply (abi_output f) with
    | description => CallData (Some "ETH / USD")
    | decimals => CallData (Some 8%N)
    | latestRoundData => CallData None
    end;
  clock := Samples.nowMs
|}.

(** A configuration with three offending properties. *)
Definition threeWrong : RawConfig := {|
  raw_schedule := VString "0 */10 * * * *";
  raw_feedAddress := VString "0x71041dddad3595F9CEd3DcCFBe3D1F4b0a16Bb7";
  raw_feedName := VNull;
  raw_stalenessThresholdMinutes := VString "10";
  raw_chainSelectorName := VString "ethereum-mainnet-base-1";
  raw_isTestnet := VBoolean false
|}.

Definition goodTyped : Config := {|
  schedule := "0 */10 * * * *";
  feedAddress := "0x71041dddad3595F9CEd3DcCFBe3D1F4b0a16Bb70";
  feedName := "ETH/USD";
  stalenessThresholdMinutes := JS.lit 10;
  chainSelectorName := "ethereum-mainnet-base-1";
  isTestnet := false
|}.

End Cases.

(* ================================================================== *)
(** * Proof automation *)
(* ================================================================== *)

(** The two directions of the link between a comparison and the keys of
    its operands, once both operands are constructors. *)
Ltac key_yes :=
  intros _; eexists; eexists; split; [reflexivity|split; [reflexivity|simpl; lia]].
Ltac key_no :=
  let a := fresh in let b := fresh in let Ha := fresh in let Hb := fresh in let Hk := fresh in
  intros (a & b & Ha & Hb & Hk); inversion Ha; inversion Hb; subst; simpl in Hk; lia.

(** Expose the steps of both handlers, and identify the computations the
    two files share. *)
Ltac unfold_run :=
  cbv [MyWorkflow.onCronTrigger MyWorkflow.body Part000.onCronTrigger
       MyWorkflow.request Part000.request responds three_reads map
       try_catch bind ret throw runtime_log assign_status evmClient_callContract
       result decodeFunctionResult parse Date_toISOString initial] in *;
  change Part000.updatedAtDate with MyWorkflow.updatedAtDate in *;
  change Part000.stalenessMinutes with MyWorkflow.stalenessMinutes in *;
  change Part000.classify with MyWorkflow.classify in *;
  change Part000.price with MyWorkflow.price in *.

(** One case analysis on what the host decides next: validation, network,
    a reply, the date. *)
Ltac step :=
  match goal with
  | |- context [match configSchema_parse ?c with _ => _ end] =>
      destruct (configSchema_parse c) eqn:?
  | |- context [match getNetwork ?h ?f ?n ?t with _ => _ end] =>
      destruct (getNetwork h f n t) eqn:?
  | |- context [match callContract ?h ?s ?q with _ => _ end] =>
      destruct (callContract h s q) as [|[?|]] eqn:?
  | |- context [match JS.toISOString ?d with _ => _ end] =>
      destruct (JS.toISOString d) eqn:?
  end; cbn [fst snd log calls status app] in *.


(** Rewrite with what is known of the host, then compute. *)
Ltac known :=
  repeat match goal with
  | H : configSchema_parse _ = _ |- _ => rewrite H; cbn [fst snd log calls status app]
  end;
  repeat match goal with
  | H : getNetwork _ _ _ _ = _ |- _ => rewrite H; cbn [fst snd log calls status app]
  end;
  repeat match goal with
  | H : callContract _ _ _ = _
    |- context [match callContract _ _ _ with _ => _ end] =>
      rewrite H; cbn [fst snd log calls status app]
  end;
  repeat match goal with
  | H : JS.toISOString _ = _ |- _ => rewrite H; cbn [fst snd log calls status app]
  end.

(* ================================================================== *)
(** * Facts about numbers *)
(* ================================================================== *)

Lemma iter_pos_nat {A} (f : A -> A) p x : iter_pos f p x = Nat.iter (Pos.to_nat p) f x.
Proof.
  revert x. induction p as [p IH|p IH|]; intros x; cbn [iter_pos].
  - rewrite !IH. rewrite Pos2Nat.inj_xI. 
    replace (S (2 * Pos.to_nat p))%nat with (Pos.to_nat p + (Pos.to_nat p + 1))%nat by lia.
    rewrite !Nat.iter_add. reflexivity.
  - rewrite !IH. rewrite Pos2Nat.inj_xO.
    replace (2 * Pos.to_nat p)%nat with (Pos.to_nat p + Pos.to_nat p)%nat by lia.
    rewrite Nat.iter_add. reflexivity.
  - reflexivity.
Qed.

Lemma shr_1_m mrs : 0 <= shr_m mrs -> shr_m (shr_1 mrs) = shr_m mrs / 2.
Proof.
  destruct mrs as [m r s]. simpl. intros H.
  rewrite <- Z.div2_div.
  destruct m as [|p|p]; [reflexivity| |lia].
  destruct p; reflexivity.
Qed.

Lemma shr_iter_m k : forall mrs, 0 <= shr_m mrs ->
  shr_m (Nat.iter k shr_1 mrs) = shr_m mrs / 2 ^ Z.of_nat k.
Proof.
  induction k as [|k IH]; intros mrs H.
  - simpl. now rewrite Z.div_1_r.
  - assert (Hp : 0 < 2 ^ Z.of_nat k) by (apply Z.pow_pos_nonneg; lia).
    rewrite Nat2Z.inj_succ. rewrite Z.pow_succ_r by apply Nat2Z.is_nonneg.
    rewrite Nat.iter_succ.
    rewrite shr_1_m.
    + rewrite IH by assumption. rewrite Z.div_div by lia. f_equal. lia.
    + rewrite IH by assumption. apply Z.div_pos; assumption.
Qed.

Lemma shr_spec mrs e n : 0 <= shr_m mrs ->
  shr_m (fst (shr mrs e n)) = shr_m mrs / 2 ^ Z.max n 0 /\ snd (shr mrs e n) = e + Z.max n 0.
Proof.
  intros H. destruct n as [|p|p]; simpl.
  - rewrite Z.div_1_r. split; [reflexivity|lia].
  - rewrite iter_pos_nat, shr_iter_m by assumption. rewrite positive_nat_Z. split; reflexivity.
  - rewrite Z.div_1_r. split; [reflexivity|lia].
Qed.

Lemma digits2_bounds p : 2 ^ (Zpos (digits2_pos p) - 1) <= Zpos p < 2 ^ Zpos (digits2_pos p).
Proof.
  induction p as [p IH|p IH|]; simpl digits2_pos.
  - rewrite Pos2Z.inj_succ. replace (Z.succ (Zpos (digits2_pos p)) - 1) with (Z.succ (Zpos (digits2_pos p) - 1)) by lia.
    rewrite !Z.pow_succ_r by lia. lia.
  - rewrite Pos2Z.inj_succ. replace (Z.succ (Zpos (digits2_pos p)) - 1) with (Z.succ (Zpos (digits2_pos p) - 1)) by lia.
    rewrite !Z.pow_succ_r by lia. lia.
  - simpl. lia.
Qed.

Lemma rne_bounds m l : m <= round_nearest_even m l <= m + 1.
Proof.
  destruct l as [|[ | | ]]; simpl; try lia.
  destruct (Z.even m); lia.
Qed.

Lemma shr_fexp_spec m e l : 0 <= m ->
  let n := Z.max (fexp 53 1024 (Zdigits2 m + e) - e) 0 in
  shr_m (fst (shr_fexp 53 1024 m e l)) = m / 2 ^ n /\
  snd (shr_fexp 53 1024 m e l) = e + n.
Proof.
  intros H n. unfold shr_fexp.
  assert (Hm : shr_m (shr_record_of_loc m l) = m) by (destruct l as [|[ | | ]]; reflexivity).
  destruct (shr_spec (shr_record_of_loc m l) e (fexp 53 1024 (Zdigits2 m + e) - e)) as [H1 H2].
  - rewrite Hm; assumption.
  - rewrite Hm in H1. split; assumption.
Qed.

(** The general shape of a rounding: two shifts around one increment. *)
Lemma binary_round_aux_shape s (M : positive) E l :
  let n := Z.max (fexp 53 1024 (Zpos (digits2_pos M) + E) - E) 0 in
  let m' := Zpos M / 2 ^ n in
  let e' := E + n in
  exists m1, m' <= m1 <= m' + 1 /\
    let n2 := Z.max (fexp 53 1024 (Zdigits2 m1 + e') - e') 0 in
    binary_round_aux 53 1024 s (Zpos M) E l =
      match m1 / 2 ^ n2 with
      | Z0 => S754_zero s
      | Zpos m => if e' + n2 <=? 1024 - 53 then S754_finite s m (e' + n2) else S754_infinity s
      | Zneg _ => S754_nan
      end.
Proof.
  intros n m' e'.
  unfold binary_round_aux.
  destruct (shr_fexp_spec (Zpos M) E l) as [H1 H2]; [lia|].
  destruct (shr_fexp 53 1024 (Z.pos M) E l) as [mrs1 e1] eqn:E1.
  simpl fst in H1; simpl snd in H2.
  change (Zdigits2 (Z.pos M)) with (Z.pos (digits2_pos M)) in H1, H2.
  fold n in H1, H2. fold m' in H1. fold e' in H2.
  set (m1 := round_nearest_even (shr_m mrs1) (loc_of_shr_record mrs1)).
  exists m1.
  assert (Hb := rne_bounds (shr_m mrs1) (loc_of_shr_record mrs1)). fold m1 in Hb.
  rewrite H1 in Hb.
  split; [exact Hb|].
  assert (0 <= m').
  { apply Z.div_pos; [lia|]. apply Z.pow_pos_nonneg; lia. }
  destruct (shr_fexp_spec m1 e1 loc_Exact) as [H3 H4]; [lia|].
  destruct (shr_fexp 53 1024 m1 e1 loc_Exact) as [mrs2 e2] eqn:E2.
  simpl fst in H3; simpl snd in H4.
  subst e1.
  cbv zeta. rewrite H3, H4. reflexivity.
Qed.

Lemma fexp_eq x : fexp 53 1024 x = Z.max (x - 53) (-1074).
Proof. reflexivity. Qed.

Lemma pow2_lt_inv a b : 0 <= b -> 2 ^ a < 2 ^ b -> a < b.
Proof. intros Hb H. apply (Z.pow_lt_mono_r_iff 2); [lia|assumption|assumption]. Qed.

Lemma pow2_pos a : 0 <= a -> 0 < 2 ^ a.
Proof. intros. apply Z.pow_pos_nonneg; lia. Qed.

Lemma div_pow2_ge_1 a n k : 0 <= n <= k -> 2 ^ k <= a -> 1 <= a / 2 ^ n.
Proof.
  intros Hn Ha.
  assert (2 ^ n <= 2 ^ k) by (apply Z.pow_le_mono_r; lia).
  apply Z.div_le_lower_bound; [apply pow2_pos; lia|lia].
Qed.

Lemma mul3_gt m e : bounded 53 1024 m e = true ->
  SFltb (S754_finite false m e)
        (SFmul 53 1024 (S754_finite false m e) (S754_finite false 6755399441055744 (-51))) = true.
Proof.
  intros Hb. unfold bounded, canonical_mantissa in Hb.
  apply andb_prop in Hb. destruct Hb as [Hc He].
  apply Z.eqb_eq in Hc. apply Z.leb_le in He. rewrite fexp_eq in Hc.
  cbn [SFmul xorb].
  set (M := (m * 6755399441055744)%positive).
  destruct (binary_round_aux_shape false M (e + -51) loc_Exact) as [m1 [Hm1 Hr]].
  cbv zeta in Hr. rewrite Hr. clear Hr.
  rewrite !fexp_eq. rewrite fexp_eq in Hm1.
  pose proof (digits2_bounds m) as Hd.
  pose proof (digits2_bounds M) as HD.
  assert (HM : Zpos M = Zpos m * 3 * 2 ^ 51).
  { unfold M. rewrite Pos2Z.inj_mul. change (2 ^ 51) with 2251799813685248. lia. }
  set (d := Zpos (digits2_pos m)) in *.
  set (D := Zpos (digits2_pos M)) in *.
  assert (Hdpos : 0 < d) by (unfold d; lia).
  assert (HDpos : 0 < D) by (unfold D; lia).
  assert (HDd : d + 52 <= D).
  { assert (2 ^ (d + 51) < 2 ^ D); [|apply pow2_lt_inv in H; lia].
    replace (d + 51) with ((d - 1) + 52) by lia.
    rewrite Z.pow_add_r by lia. change (2 ^ 52) with 4503599627370496.
    change (2 ^ 51) with 2251799813685248 in HM. lia. }
  set (n := Z.max (Z.max (D + (e + -51) - 53) (-1074) - (e + -51)) 0) in *.
  assert (Hn : 51 <= n <= D - 1) by (unfold n; lia).
  assert (Hm' : 1 <= Zpos M / 2 ^ n).
  { apply (div_pow2_ge_1 _ _ (D - 1)); lia. }
  assert (H51 : n = 51 -> Zpos M / 2 ^ n = Zpos m * 3).
  { intros ->. rewrite HM. apply Z.div_mul. change (2 ^ 51) with 2251799813685248. lia. }
  destruct m1 as [|p1|p1]; try lia.
  pose proof (digits2_bounds p1) as Hd1.
  cbn [Zdigits2].
  set (d1 := Zpos (digits2_pos p1)) in *.
  assert (Hd1pos : 0 < d1) by (unfold d1; lia).
  set (e' := e + -51 + n) in *.
  assert (He' : e <= e') by (unfold e', n; lia).
  set (n2 := Z.max (Z.max (d1 + e' - 53) (-1074) - e') 0) in *.
  assert (Hn2 : 0 <= n2 <= d1 - 1) by (unfold n2; lia).
  assert (Hm'' : 1 <= Zpos p1 / 2 ^ n2).
  { apply (div_pow2_ge_1 _ _ (d1 - 1)); lia. }
  destruct (Zpos p1 / 2 ^ n2) as [|p2|p2] eqn:Ep2; try lia.
  destruct (e' + n2 <=? 1024 - 53); [|reflexivity].
  unfold SFltb, SFcompare.
  destruct (Z.compare_spec e (e' + n2)) as [Heq|Hlt|Hgt]; [|reflexivity|lia].
  assert (n2 = 0) by lia. assert (n = 51) by (unfold e' in *; lia).
  assert (Hp : (m < p2)%positive).
  { rewrite H in Ep2. rewrite Z.div_1_r in Ep2. specialize (H51 H0). lia. }
  apply Pos.compare_lt_iff in Hp. unfold Pos.compare in Hp. rewrite Hp. reflexivity.
Qed.

Lemma SFcompare_antisym x y :
  SFcompare y x = option_map CompOpp (SFcompare x y).
Proof.
  destruct x as [sx|sx| |sx mx ex], y as [sy|sy| |sy my ey]; simpl;
    try (destruct sx; reflexivity); try (destruct sy; reflexivity);
    try (destruct sx, sy; reflexivity); try reflexivity.
  rewrite (Z.compare_antisym ex ey).
  change (Pos.compare_cont Eq my mx) with (Pos.compare my mx).
  change (Pos.compare_cont Eq mx my) with (Pos.compare mx my).
  rewrite (Pos.compare_antisym mx my).
  destruct sx, sy; simpl; try reflexivity;
    destruct (ex ?= ey); simpl; try reflexivity;
    now rewrite CompOpp_involutive.
Qed.

Lemma SFleb_not_gt x y : SFleb x y = true -> SFltb y x = false.
Proof.
  unfold SFleb, SFltb. rewrite (SFcompare_antisym x y).
  destruct (SFcompare x y) as [[ | | ]|]; simpl; congruence.
Qed.

Lemma SFltb_SFleb x y : SFltb x y = true -> SFleb x y = true.
Proof.
  unfold SFleb, SFltb. destruct (SFcompare x y) as [[ | | ]|]; congruence.
Qed.

Lemma SFleb_key x y :
  SFleb x y = true <-> exists a b, key x = Some a /\ key y = Some b /\ key_le a b.
Proof.
  unfold SFleb.
  destruct x as [sx|sx| |sx mx ex], y as [sy|sy| |sy my ey]; simpl;
    try destruct sx; try destruct sy; simpl;
    try change (Pos.compare_cont Eq mx my) with (Pos.compare mx my);
    try (destruct (Z.compare_spec ex ey); destruct (Pos.compare_spec mx my); simpl);
    (split; [try discriminate; key_yes | try reflexivity; key_no]).
Qed.

Lemma SFleb_trans x y z : SFleb x y = true -> SFleb y z = true -> SFleb x z = true.
Proof.
  rewrite !SFleb_key.
  intros (a & b & Ha & Hb & Hab) (b' & c & Hb' & Hc & Hbc).
  rewrite Hb in Hb'. inversion Hb'; subst b'.
  exists a, c. split; [assumption|split; [assumption|]].
  destruct a as [[a1 a2] a3], b as [[b1 b2] b3], c as [[c1 c2] c3].
  simpl in *. lia.
Qed.




Lemma length_app (s1 s2 : string) :
  String.length (s1 ++ s2) = (String.length s1 + String.length s2)%nat.
Proof. induction s1 as [|c s1 IH]; simpl; [reflexivity|now rewrite IH]. Qed.

Lemma all_digits_app (s1 s2 : string) :
  all_digits (s1 ++ s2) = all_digits s1 && all_digits s2.
Proof.
  induction s1 as [|c s1 IH]; simpl; [reflexivity|].
  now rewrite IH, andb_assoc.
Qed.

Lemma digit_char_is_digit d : 0 <= d <= 9 -> is_digit (JS.digit_char d) = true.
Proof.
  intros H.
  assert (Hd : d = 0 \/ d = 1 \/ d = 2 \/ d = 3 \/ d = 4 \/ d = 5 \/ d = 6 \/ d = 7 \/ d = 8 \/ d = 9) by lia.
  repeat (destruct Hd as [Hd|Hd]; [subst d; reflexivity|]). subst d; reflexivity.
Qed.

Lemma decimal_aux_digits fuel : forall n acc,
  all_digits acc = true -> all_digits (JS.decimal_aux fuel n acc) = true.
Proof.
  induction fuel as [|fuel IH]; intros n acc Hacc; cbn [JS.decimal_aux]; [assumption|].
  assert (Hc : all_digits (String (JS.digit_char (n mod 10)) acc) = true).
  { cbn [all_digits]. rewrite Hacc, digit_char_is_digit; [reflexivity|].
    pose proof (Z.mod_pos_bound n 10). lia. }
  destruct (n <? 10); [assumption|]. apply IH. assumption.
Qed.

Lemma decimal_aux_length fuel : forall n acc,
  (String.length acc <= String.length (JS.decimal_aux fuel n acc))%nat.
Proof.
  induction fuel as [|fuel IH]; intros n acc; cbn [JS.decimal_aux]; [lia|].
  destruct (n <? 10); cbn [String.length]; [lia|].
  specialize (IH (n / 10) (String (JS.digit_char (n mod 10)) acc)).
  cbn [String.length] in IH. lia.
Qed.

Lemma decimal_digits n : all_digits (JS.decimal n) = true.
Proof. apply decimal_aux_digits. reflexivity. Qed.

Lemma decimal_length n : (1 <= String.length (JS.decimal n))%nat.
Proof.
  unfold JS.decimal. cbn [JS.decimal_aux].
  destruct (n <? 10); cbn [String.length]; [lia|].
  pose proof (decimal_aux_length (Z.to_nat (Z.log2 n)) (n / 10) (String (JS.digit_char (n mod 10)) "")) as H.
  cbn [String.length] in H. lia.
Qed.

Lemma zeros_digits k : all_digits (JS.zeros k) = true.
Proof. induction k; simpl; [reflexivity|assumption]. Qed.

Lemma zeros_length k : String.length (JS.zeros k) = k.
Proof. induction k; simpl; [reflexivity|now rewrite IHk]. Qed.

Lemma take_drop n : forall s, JS.take n s ++ JS.drop n s = s.
Proof.
  induction n as [|n IH]; intros s; simpl; [reflexivity|].
  destruct s as [|c s]; simpl; [reflexivity|now rewrite IH].
Qed.

Lemma take_length n : forall s, (n <= String.length s)%nat ->
  String.length (JS.take n s) = n.
Proof.
  induction n as [|n IH]; intros s H; simpl; [reflexivity|].
  destruct s as [|c s]; simpl in *; [lia|]. rewrite IH; lia.
Qed.

Lemma fixed_digits_shape n f : (0 < f)%nat ->
  exists whole frac,
    JS.fixed_digits n f = whole ++ "." ++ frac /\
    (1 <= String.length whole)%nat /\ all_digits whole = true /\
    String.length frac = f /\ all_digits frac = true.
Proof.
  intros Hf. unfold JS.fixed_digits.
  set (m := JS.zeros (f + 1 - String.length (JS.decimal n)) ++ JS.decimal n).
  assert (Hm : all_digits m = true).
  { unfold m. now rewrite all_digits_app, zeros_digits, decimal_digits. }
  assert (Hl : (f + 1 <= String.length m)%nat).
  { unfold m. rewrite length_app, zeros_length. pose proof (decimal_length n). lia. }
  destruct f as [|f']; [lia|]. set (f := S f') in *.
  exists (JS.take (String.length m - f) m), (JS.drop (String.length m - f) m).
  pose proof (take_drop (String.length m - f) m) as Htd.
  pose proof (take_length (String.length m - f) m ltac:(lia)) as Htl.
  assert (Hlen : String.length m =
    (String.length (JS.take (String.length m - f) m) + String.length (JS.drop (String.length m - f) m))%nat).
  { rewrite <- length_app, Htd. reflexivity. }
  rewrite <- Htd in Hm. rewrite all_digits_app in Hm. apply andb_prop in Hm.
  destruct Hm as [H1 H2].
  repeat split; try assumption; lia.
Qed.

Lemma small_not_ge s m e : small (S754_finite s m e) -> JS.ge_1e21 m e = false.
Proof.
  intros (q & Hq & Hlt). cbn [JS.to_Q] in Hq. unfold JS.ge_1e21.
  destruct (0 <=? e) eqn:He.
  - apply Z.leb_gt.
    assert (Hnn : 0 <= Z.pos m * 2 ^ e).
    { apply Z.mul_nonneg_nonneg; [lia|apply Z.pow_nonneg; lia]. }
    assert (Hv : Qabs q == inject_Z (Z.pos m * 2 ^ e)).
    { destruct s; inversion Hq; subst q; [rewrite Qabs_opp|]; apply Qabs_pos;
        unfold Qle; cbn [Qnum Qden inject_Z]; lia. }
    rewrite Hv in Hlt. unfold Qlt in Hlt. cbn [Qnum Qden inject_Z] in Hlt. lia.
  - apply Z.leb_gt. apply Z.leb_gt in He.
    assert (Hp : 0 < 2 ^ (- e)) by (apply Z.pow_pos_nonneg; lia).
    assert (Hv : Qabs q == Z.pos m # Z.to_pos (2 ^ (- e))).
    { destruct s; inversion Hq; subst q; [rewrite Qabs_opp|]; apply Qabs_pos;
        unfold Qle; cbn [Qnum Qden]; lia. }
    rewrite Hv in Hlt. unfold Qlt in Hlt. cbn [Qnum Qden inject_Z] in Hlt.
    rewrite Z2Pos.id in Hlt by assumption. lia.
Qed.

Lemma toFixed_fixed_point x f : (0 < f)%nat -> small x -> fixed_point f (JS.toFixed x f).
Proof.
  intros Hf Hs. destruct x as [s|s| |s m e].
  - cbn [JS.toFixed]. destruct (fixed_digits_shape 0 f Hf) as (w & fr & H & H1 & H2 & H3 & H4).
    exists "", w, fr. rewrite H. repeat split; auto.
  - destruct Hs as (q & Hq & _). discriminate.
  - destruct Hs as (q & Hq & _). discriminate.
  - cbn [JS.toFixed]. rewrite (small_not_ge _ _ _ Hs).
    destruct (fixed_digits_shape (JS.scaled_nearest m e f) f Hf) as (w & fr & H & H1 & H2 & H3 & H4).
    exists (if s then "-" else ""), w, fr. rewrite H.
    repeat split; auto. destruct s; auto.
Qed.

(* ================================================================== *)
(** * Magnitudes *)
(* ================================================================== *)

Lemma digits_le_of_lt p k : Zpos p < 2 ^ k -> Zpos (digits2_pos p) <= k.
Proof.
  intros H. pose proof (digits2_bounds p) as [Hlo _].
  destruct (Z_lt_le_dec k 0) as [Hk|Hk].
  - rewrite Z.pow_neg_r in H by assumption. lia.
  - assert (Zpos (digits2_pos p) - 1 < k); [|lia].
    apply pow2_lt_inv; [assumption|lia].
Qed.

Lemma div_pow2_lt a n k : 0 <= n <= k -> a < 2 ^ k -> a / 2 ^ n < 2 ^ (k - n).
Proof.
  intros Hn Ha. apply Z.div_lt_upper_bound; [apply pow2_pos; lia|].
  rewrite <- Z.pow_add_r by lia. replace (n + (k - n)) with k by lia. assumption.
Qed.

(** Rounding keeps a magnitude below [2^(D+E)] below [2^(D+E+1)], and
    never lowers the exponent. *)
Lemma round_within s (M : positive) E l :
  -1074 <= E -> Zpos (digits2_pos M) + E <= 971 ->
  within (binary_round_aux 53 1024 s (Zpos M) E l) E (Zpos (digits2_pos M) + E + 1).
Proof.
  intros HE HK.
  destruct (binary_round_aux_shape s M E l) as [m1 [Hm1 Hr]].
  cbv zeta in Hr. rewrite Hr. clear Hr. rewrite !fexp_eq. rewrite fexp_eq in Hm1.
  pose proof (digits2_bounds M) as HD.
  set (D := Zpos (digits2_pos M)) in *.
  assert (HDpos : 0 < D) by (unfold D; lia).
  set (n := Z.max (Z.max (D + E - 53) (-1074) - E) 0) in *.
  assert (Hn : 0 <= n <= D - 1) by (unfold n; lia).
  assert (Hm' : Zpos M / 2 ^ n < 2 ^ (D - n)) by (apply div_pow2_lt; lia).
  assert (Hm'0 : 0 <= Zpos M / 2 ^ n) by (apply Z.div_pos; [lia|apply pow2_pos; lia]).
  destruct m1 as [|p1|p1]; [rewrite Z.div_0_l; [exact I|]| |lia].
  { apply Z.pow_nonzero; lia. }
  cbn [Zdigits2].
  pose proof (digits2_bounds p1) as Hd1.
  assert (Hd1le : Zpos (digits2_pos p1) <= D - n + 1).
  { apply digits_le_of_lt.
    replace (D - n + 1) with (Z.succ (D - n)) by lia.
    rewrite Z.pow_succ_r by lia. lia. }
  set (d1 := Zpos (digits2_pos p1)) in *.
  assert (Hd1pos : 0 < d1) by (unfold d1; lia).
  set (e' := E + n) in *.
  set (n2 := Z.max (Z.max (d1 + e' - 53) (-1074) - e') 0) in *.
  assert (Hn2 : 0 <= n2 <= d1 - 1 /\ d1 - 53 <= n2) by (unfold n2, e'; lia).
  assert (Hm'' : Zpos p1 / 2 ^ n2 < 2 ^ (d1 - n2)) by (apply div_pow2_lt; lia).
  destruct (Zpos p1 / 2 ^ n2) as [|p2|p2] eqn:Ep2; [exact I| |].
  - apply digits_le_of_lt in Hm''.
    assert (He'' : e' + n2 <= 1024 - 53).
    { pose proof (digits2_bounds p2). assert (0 < Zpos (digits2_pos p2)) by lia.
      unfold e'. lia. }
    apply Z.leb_le in He''. rewrite He''.
    cbn [within]. unfold e' in *. lia.
  - assert (0 <= Zpos p1 / 2 ^ n2) by (apply Z.div_pos; [lia|apply pow2_pos; lia]). lia.
Qed.

Lemma iter_xO_spec d : forall p,
  Zpos (Pos.iter xO p d) = Zpos p * 2 ^ Zpos d /\
  Zpos (digits2_pos (Pos.iter xO p d)) = Zpos (digits2_pos p) + Zpos d.
Proof.
  induction d as [|d IH] using Pos.peano_ind; intros p.
  - cbn [Pos.iter digits2_pos]. rewrite Pos2Z.inj_succ. lia.
  - rewrite Pos.iter_succ. cbn [digits2_pos].
    destruct (IH p) as [H1 H2].
    rewrite (Pos2Z.inj_succ d), Z.pow_succ_r by lia.
    rewrite Pos2Z.inj_xO, Pos2Z.inj_succ, H1, H2. lia.
Qed.

Lemma lt_pow_of_digits p k : Zpos (digits2_pos p) <= k -> Zpos p < 2 ^ k.
Proof.
  intros H. pose proof (digits2_bounds p) as [_ Hp].
  assert (2 ^ Zpos (digits2_pos p) <= 2 ^ k) by (apply Z.pow_le_mono_r; lia).
  lia.
Qed.

(** Alignment keeps the value and its binade and lowers the exponent to the
    smaller of the two. *)
Lemma shl_align_spec mx ex ex' :
  let '(mz, ez) := shl_align mx ex ex' in
  ez = Z.min ex ex' /\
  Zpos mz = Zpos mx * 2 ^ (ex - ez) /\
  Zpos (digits2_pos mz) + ez = Zpos (digits2_pos mx) + ex.
Proof.
  unfold shl_align. destruct (ex' - ex) as [|d|d] eqn:Hd.
  - replace (ex - ex) with 0 by lia. rewrite Z.pow_0_r. lia.
  - replace (ex - ex) with 0 by lia. rewrite Z.pow_0_r. lia.
  - destruct (iter_xO_spec d mx) as [H1 H2].
    rewrite H1, H2. replace (ex - ex') with (Zpos d) by lia. lia.
Qed.

(** Conversion of an integer of magnitude [2^k] at scale [2^e]. *)
Lemma binary_normalize_within z e k :
  -104 <= e -> Z.abs z < 2 ^ k -> k + e <= 900 ->
  within (binary_normalize 53 1024 z e false) (Z.min e (e - 52)) (k + e + 1).
Proof.
  intros He Hz Hk.
  assert (Hround : forall s p, Zpos p < 2 ^ k ->
            within (binary_round 53 1024 s p e) (Z.min e (e - 52)) (k + e + 1)).
  { intros s p Hp. unfold binary_round.
    pose proof (shl_align_spec p e (fexp 53 1024 (Zpos (digits2_pos p) + e))) as Ha.
    destruct (shl_align p e _) as [mz ez].
    destruct Ha as (Hez & Hmz & Hdz). rewrite fexp_eq in Hez.
    pose proof (digits_le_of_lt p k Hp) as Hd.
    pose proof (digits2_bounds p) as Hb.
    assert (0 < Zpos (digits2_pos p)) by lia.
    pose proof (round_within s mz ez loc_Exact ltac:(lia) ltac:(lia)) as Hw.
    destruct (binary_round_aux 53 1024 s (Zpos mz) ez loc_Exact); cbn [within] in *; lia. }
  destruct z as [|p|p]; cbn [binary_normalize]; [exact I| |]; apply Hround; lia.
Qed.

Lemma Number_within z : Z.abs z < 2 ^ 53 -> within (JS.Number_of_bigint z) (-52) 54.
Proof.
  intros H. pose proof (binary_normalize_within z 0 53 ltac:(lia) H ltac:(lia)) as Hw.
  unfold JS.Number_of_bigint, JS.prec, JS.emax.
  destruct (binary_normalize 53 1024 z 0 false); cbn [within] in *; lia.
Qed.

(** The difference of two integers below [2^54]. *)
Lemma sub_within x y :
  within x (-52) 54 -> within y (-52) 54 -> within (JS.sub x y) (-104) 57.
Proof.
  intros Hx Hy. unfold JS.sub, JS.prec, JS.emax.
  destruct x as [sx|sx| |sx mx ex], y as [sy|sy| |sy my ey];
    try contradiction; cbn [SFsub].
  - destruct sx, sy; exact I.
  - cbn [within] in *. lia.
  - cbn [within] in *. lia.
  - pose proof (shl_align_spec mx ex (Z.min ex ey)) as Ha.
    pose proof (shl_align_spec my ey (Z.min ex ey)) as Hb.
    destruct (shl_align mx ex (Z.min ex ey)) as [ax ez1].
    destruct (shl_align my ey (Z.min ex ey)) as [ay ez2].
    destruct Ha as (Ha1 & Ha2 & Ha3), Hb as (Hb1 & Hb2 & Hb3).
    cbn [fst].
    set (ez := Z.min ex ey) in *.
    cbn [within] in Hx, Hy.
    assert (Hez : -52 <= ez /\ ez <= ex /\ ez <= ey) by (unfold ez; lia).
    clearbody ez.
    assert (Hax : Zpos ax < 2 ^ (54 - ez)).
    { apply lt_pow_of_digits. cbn [within] in *. lia. }
    assert (Hay : Zpos ay < 2 ^ (54 - ez)).
    { apply lt_pow_of_digits. cbn [within] in *. lia. }
    assert (Hz : Z.abs (cond_Zopp sx (Zpos ax) - cond_Zopp sy (Zpos ay)) < 2 ^ (55 - ez)).
    { replace (55 - ez) with (Z.succ (54 - ez)) by lia.
      rewrite Z.pow_succ_r by lia. destruct sx, sy; cbn [cond_Zopp]; lia. }
    pose proof (binary_normalize_within _ ez (55 - ez) ltac:(lia) Hz ltac:(lia)) as Hw.
    destruct (binary_normalize 53 1024 _ ez false); cbn [within] in *; lia.
Qed.

Lemma round_mantissa_ok s (M : positive) E l :
  mantissa_ok (binary_round_aux 53 1024 s (Zpos M) E l).
Proof.
  destruct (binary_round_aux_shape s M E l) as [m1 [Hm1 Hr]].
  cbv zeta in Hr. rewrite Hr. clear Hr. rewrite !fexp_eq.
  assert (0 <= Zpos M / 2 ^ Z.max (fexp 53 1024 (Zpos (digits2_pos M) + E) - E) 0).
  { apply Z.div_pos; [lia|apply pow2_pos; lia]. }
  destruct m1 as [|p1|p1]; [rewrite Z.div_0_l; [exact I|apply Z.pow_nonzero; lia]| |lia].
  cbn [Zdigits2]. pose proof (digits2_bounds p1) as Hd1.
  set (d1 := Zpos (digits2_pos p1)) in *.
  set (e' := E + _) in *.
  set (n2 := Z.max (Z.max (d1 + e' - 53) (-1074) - e') 0) in *.
  assert (Hn2 : 0 <= n2 /\ d1 - 53 <= n2) by (unfold n2; lia).
  destruct (Zpos p1 / 2 ^ n2) as [|p2|p2] eqn:Ep2; [exact I| |exact I].
  assert (Hp2 : Zpos p2 < 2 ^ 53).
  { rewrite <- Ep2. destruct (Z_le_gt_dec n2 d1) as [Hle|Hgt].
    - assert (Zpos p1 / 2 ^ n2 < 2 ^ (d1 - n2)) by (apply div_pow2_lt; lia).
      assert (2 ^ (d1 - n2) <= 2 ^ 53) by (apply Z.pow_le_mono_r; lia). lia.
    - assert (2 ^ d1 <= 2 ^ n2) by (apply Z.pow_le_mono_r; lia).
      rewrite Z.div_small by lia. lia. }
  apply digits_le_of_lt in Hp2.
  destruct (e' + n2 <=? 1024 - 53); [exact Hp2|exact I].
Qed.

Lemma mul_mantissa_ok x y : mantissa_ok (JS.mul x y).
Proof.
  unfold JS.mul, JS.prec, JS.emax.
  destruct x as [sx|sx| |sx mx ex], y as [sy|sy| |sy my ey]; cbn [SFmul]; try exact I.
  apply round_mantissa_ok.
Qed.

(** A valid time value is an integer below [2^53] in magnitude. *)
Lemma TimeClip_within t :
  mantissa_ok t -> JS.is_finite (JS.TimeClip t) = true ->
  within (JS.TimeClip t) (-52) 54.
Proof.
  unfold JS.TimeClip.
  destruct t as [s|s| |s m e]; cbn [JS.is_finite negb SFabs mantissa_ok];
    try discriminate.
  - intros _ _. exact I.
  - intros Hm.
    destruct (JS.lt JS.maxTime (S754_finite false m e)) eqn:Hcmp; [discriminate|].
    intros _. apply Number_within.
    pose proof (lt_pow_of_digits m 53 Hm) as Hlt.
    assert (Hi : 0 <= JS.integral_value m e < 2 ^ 53).
    { unfold JS.integral_value.
      change JS.maxTime with (S754_finite false 8640000000000000 0) in Hcmp.
      unfold JS.lt, SFltb in Hcmp. cbn [SFcompare] in Hcmp.
      destruct (Z.compare_spec 0 e) as [He|He|He]; try discriminate.
      - subst e. cbn [Z.leb Z.compare]. rewrite Z.pow_0_r, Z.mul_1_r. lia.
      - assert (Hb : (0 <=? e) = false) by (apply Z.leb_gt; lia). rewrite Hb.
        split; [apply Z.div_pos; [lia|apply pow2_pos; lia]|].
        apply Z.le_lt_trans with (Zpos m); [|assumption].
        apply Z.div_le_upper_bound; [apply pow2_pos; lia|].
        assert (H1 : 1 <= 2 ^ (- e)) by (pose proof (pow2_pos (- e)); lia).
        rewrite <- (Z.mul_1_l (Zpos m)) at 1.
        apply Z.mul_le_mono_nonneg_r; lia. }
    cbn [JS.truncate]. destruct s; cbn [cond_Zopp]; lia.
Qed.

(** Minutes from milliseconds: the quotient by 60000 of a number below
    [2^57] is below [2^43]. *)
Lemma div_60000_within x :
  within x (-104) 57 -> within (JS.div x (JS.lit 60000)) (-173) 43.
Proof.
  change (JS.lit 60000) with (S754_finite false 8246337208320000 (-37)).
  unfold JS.div, JS.prec, JS.emax.
  destruct x as [sx|sx| |sx mx ex]; try contradiction; cbn [SFdiv within].
  - intros _. exact I.
  - intros (Hlo & Hhi & Hd).
    pose proof (digits2_bounds mx) as Hmx.
    set (dx := Zpos (digits2_pos mx)) in *.
    assert (Hdx : 0 < dx) by (unfold dx; lia).
    unfold SFdiv_core_binary. cbn [Zdigits2].
    change (Zpos (digits2_pos 8246337208320000)) with 53.
    fold dx. rewrite fexp_eq.
    replace (Z.min (Z.max (dx + ex - (53 + -37) - 53) (-1074)) (ex - -37))
      with (dx + ex - 69) by lia.
    replace (ex - -37 - (dx + ex - 69)) with (106 - dx) by lia.
    destruct (106 - dx) as [|sp|sp] eqn:Hs; try lia.
    rewrite Z.shiftl_mul_pow2 by lia. rewrite <- Hs.
    assert (Hm'lo : 2 ^ 105 <= Zpos mx * 2 ^ (106 - dx)).
    { replace 105 with ((dx - 1) + (106 - dx)) by lia.
      rewrite Z.pow_add_r by lia.
      apply Z.mul_le_mono_nonneg_r; [apply Z.pow_nonneg; lia|lia]. }
    assert (Hm'hi : Zpos mx * 2 ^ (106 - dx) < 2 ^ 106).
    { replace 106 with (dx + (106 - dx)) at 2 by lia.
      rewrite Z.pow_add_r by lia.
      apply Z.mul_lt_mono_pos_r; [apply pow2_pos; lia|lia]. }
    set (m' := Zpos mx * 2 ^ (106 - dx)) in *.
    assert (Hq : Z.div_eucl m' 8246337208320000
                 = (m' / 8246337208320000, m' mod 8246337208320000)).
    { unfold Z.div, Z.modulo. destruct (Z.div_eucl m' 8246337208320000). reflexivity. }
    rewrite Hq.
    assert (Hqlo : 2 ^ 52 <= m' / 8246337208320000).
    { apply Z.div_le_lower_bound; [lia|].
      change (2 ^ 52) with 4503599627370496.
      change (2 ^ 105) with 40564819207303340847894502572032 in Hm'lo. lia. }
    assert (Hqhi : m' / 8246337208320000 < 2 ^ 54).
    { apply Z.div_lt_upper_bound; [lia|].
      change (2 ^ 54) with 18014398509481984.
      change (2 ^ 106) with 81129638414606681695789005144064 in Hm'hi. lia. }
    destruct (m' / 8246337208320000) as [|q|q] eqn:Eq;
      [change (2 ^ 52) with 4503599627370496 in Hqlo; lia| |lia].
    apply digits_le_of_lt in Hqhi.
    pose proof (round_within (xorb sx false) q (dx + ex - 69)
                  (new_location 8246337208320000 (m' mod 8246337208320000))
                  ltac:(lia) ltac:(lia)) as Hw.
    destruct (binary_round_aux 53 1024 _ _ _ _); cbn [within] in *; lia.
Qed.

Lemma within_small x lo hi : within x lo hi -> hi <= 69 -> small x.
Proof.
  intros Hw Hhi. unfold small.
  assert (H69 : 2 ^ 69 < 10 ^ 21) by reflexivity.
  destruct x as [s|s| |s m e]; try contradiction.
  - exists 0%Q. split; [reflexivity|]. reflexivity.
  - cbn [within] in Hw. destruct Hw as (_ & Hd & _).
    pose proof (lt_pow_of_digits m (hi - e) ltac:(lia)) as Hm.
    assert (Hle : 2 ^ (hi - e) <= 2 ^ (69 - e)) by (apply Z.pow_le_mono_r; lia).
    cbn [JS.to_Q]. eexists. split; [reflexivity|].
    destruct (0 <=? e) eqn:He.
    + apply Z.leb_le in He.
      assert (Hv : Zpos m * 2 ^ e < 2 ^ 69).
      { replace 69 with ((69 - e) + e) by lia. rewrite Z.pow_add_r by lia.
        apply Z.mul_lt_mono_pos_r; [apply pow2_pos; lia|lia]. }
      assert (Hnn : 0 <= Zpos m * 2 ^ e).
      { apply Z.mul_nonneg_nonneg; [lia|apply Z.pow_nonneg; lia]. }
      assert (Ha : Qabs (if s then - inject_Z (Zpos m * 2 ^ e) else inject_Z (Zpos m * 2 ^ e))
                   == inject_Z (Zpos m * 2 ^ e)).
      { destruct s; [rewrite Qabs_opp|]; apply Qabs_pos;
          unfold Qle; cbn [Qnum Qden inject_Z]; lia. }
      rewrite Ha. unfold Qlt. cbn [Qnum Qden inject_Z]. lia.
    + apply Z.leb_gt in He.
      assert (Hp : 0 < 2 ^ (- e)) by (apply pow2_pos; lia).
      assert (Hv : Zpos m < 2 ^ 69 * 2 ^ (- e)).
      { rewrite <- Z.pow_add_r by lia. replace (69 + - e) with (69 - e) by lia. lia. }
      assert (Ha : Qabs (if s then - (Zpos m # Z.to_pos (2 ^ (- e)))
                         else Zpos m # Z.to_pos (2 ^ (- e)))
                   == Zpos m # Z.to_pos (2 ^ (- e))).
      { destruct s; [rewrite Qabs_opp|]; apply Qabs_pos;
          unfold Qle; cbn [Qnum Qden]; lia. }
      rewrite Ha. unfold Qlt. cbn [Qnum Qden inject_Z].
      rewrite Z2Pos.id by assumption.
      apply Z.lt_trans with (2 ^ 69 * 2 ^ (- e)); [lia|].
      apply Z.mul_lt_mono_pos_r; assumption.
Qed.

(** With the clock in the range of dates and a valid date of update, the
    staleness is finite and far below [10^21]. *)
Lemma staleness_small clock u :
  Z.abs clock <= 8640000000000000 ->
  JS.is_finite (JS.timeValue (MyWorkflow.updatedAtDate u)) = true ->
  small (MyWorkflow.stalenessMinutes (JS.Number_of_bigint clock) (MyWorkflow.updatedAtDate u)).
Proof.
  intros Hc Hf. unfold MyWorkflow.stalenessMinutes, JS.getTime.
  apply within_small with (lo := -173) (hi := 43); [|lia].
  apply div_60000_within. apply sub_within.
  - apply Number_within. change (2 ^ 53) with 9007199254740992. lia.
  - unfold MyWorkflow.updatedAtDate, JS.new_Date in *. cbn [JS.timeValue] in *.
    apply TimeClip_within; [apply mul_mantissa_ok|assumption].
Qed.

(* ================================================================== *)
(** * Classification *)
(* ================================================================== *)

Lemma SFltb_irrefl x : SFltb x x = false.
Proof.
  unfold SFltb. pose proof (SFcompare_antisym x x) as H.
  destruct (SFcompare x x) as [[ | | ]|]; simpl in H; congruence.
Qed.

Lemma SFleb_refl x : x <> S754_nan -> SFleb x x = true.
Proof.
  unfold SFleb. destruct x as [s|s| |s m e]; intros H; simpl; try congruence.
  - destruct s; reflexivity.
  - rewrite Z.compare_refl.
    change (Pos.compare_cont Eq m m) with (Pos.compare m m).
    rewrite Pos.compare_refl. destruct s; reflexivity.
Qed.

Lemma SFleb_not_nan_r x y : SFleb x y = true -> y <> S754_nan.
Proof. intros H ->. destruct x; discriminate. Qed.

Lemma SFltb_not_nan_r x y : SFltb x y = true -> y <> S754_nan.
Proof. intros H ->. destruct x; discriminate. Qed.

Lemma lt_nan_l y : JS.lt JS.NaN y = false.
Proof. reflexivity. Qed.

(** A positive threshold is below its triple, strictly so when finite. *)
Lemma triple_above t :
  JS.valid t = true -> JS.lt (JS.lit 0) t = true ->
  JS.le t (JS.mul t (JS.lit 3)) = true /\
  (JS.is_finite t = true -> JS.lt t (JS.mul t (JS.lit 3)) = true).
Proof.
  intros Hv Hpos.
  change (JS.lit 3) with (S754_finite false 6755399441055744 (-51)).
  destruct t as [s|s| |s m e]; try discriminate.
  - destruct s; [discriminate|]. split; [reflexivity|discriminate].
  - destruct s; [discriminate|].
    pose proof (mul3_gt m e Hv) as H. split; [|intros _; exact H].
    apply SFltb_SFleb. exact H.
Qed.

(** The two files classify alike. *)
Lemma classify_same s t : Part000.classify s t = MyWorkflow.classify s t.
Proof. reflexivity. Qed.

(** C1. For a threshold [t > 0] and a staleness [s], the status is OK when
    [s < t], WARN when [t <= s < 3t] and FAIL when [s >= 3t], in both
    files; [3t] is the product the code computes and the comparisons are
    those of the language.  At the boundaries, [s = t] is WARN (for a
    finite [t]; an infinite [t] is its own triple) and [s = 3t] is FAIL. *)
Theorem classification_thresholds (s t : JS.number) :
  JS.valid t = true -> JS.lt (JS.lit 0) t = true ->
  let t3 := JS.mul t (JS.lit 3) in
  (JS.lt s t = true ->
     MyWorkflow.classify s t = "OK" /\ Part000.classify s t = "OK") /\
  (JS.le t s = true -> JS.lt s t3 = true ->
     MyWorkflow.classify s t = "WARN" /\ Part000.classify s t = "WARN") /\
  (JS.le t3 s = true ->
     MyWorkflow.classify s t = "FAIL" /\ Part000.classify s t = "FAIL") /\
  (JS.is_finite t = true ->
     MyWorkflow.classify t t = "WARN" /\ Part000.classify t t = "WARN") /\
  (MyWorkflow.classify t3 t = "FAIL" /\ Part000.classify t3 t = "FAIL").
Proof.
  intros Hv Hpos t3. change Part000.classify with MyWorkflow.classify.
  destruct (triple_above t Hv Hpos) as [Hle Hlt]. fold t3 in Hle, Hlt.
  unfold MyWorkflow.classify. fold t3. unfold JS.lt, JS.le in *.
  assert (Hwarn : forall x, SFleb t x = true -> SFltb x t3 = true ->
            (if SFltb x t then "OK" else if SFltb x t3 then "WARN" else "FAIL") = "WARN").
  { intros x H1 H2. now rewrite (SFleb_not_gt _ _ H1), H2. }
  assert (Hfail : forall x, SFleb t3 x = true ->
            (if SFltb x t then "OK" else if SFltb x t3 then "WARN" else "FAIL") = "FAIL").
  { intros x H1.
    assert (Hts : SFleb t x = true) by (eapply SFleb_trans; eassumption).
    now rewrite (SFleb_not_gt _ _ Hts), (SFleb_not_gt _ _ H1). }
  split; [intros H; rewrite H; split; reflexivity|].
  split; [intros H1 H2; split; apply Hwarn; assumption|].
  split; [intros H; split; apply Hfail; assumption|].
  split.
  - intros Hfin. specialize (Hlt Hfin).
    split; (apply Hwarn; [|assumption]);
      apply SFleb_refl; apply (SFltb_not_nan_r _ _ Hpos).
  - split; apply Hfail; apply SFleb_refl; apply (SFleb_not_nan_r _ _ Hle).
Qed.

Lemma classification_thresholds_witness :
  JS.valid (JS.lit 10) = true /\ JS.lt (JS.lit 0) (JS.lit 10) = true /\
  JS.le (JS.lit 10) (JS.lit 25) = true /\
  JS.lt (JS.lit 25) (JS.mul (JS.lit 10) (JS.lit 3)) = true /\
  MyWorkflow.classify (JS.lit 25) (JS.lit 10) = "WARN" /\
  Part000.classify (JS.lit 25) (JS.lit 10) = "WARN".
Proof.
  split; [reflexivity|]. split; [reflexivity|].
  split; [reflexivity|]. split; [reflexivity|].
  apply (classification_thresholds (JS.lit 25) (JS.lit 10)); reflexivity.
Defined.

Lemma classification_nan t : MyWorkflow.classify JS.NaN t = "FAIL".
Proof. unfold MyWorkflow.classify. now rewrite !lt_nan_l. Qed.

(** C9. Classification is total: whatever the staleness and the threshold
    (NaN and the infinities included) the status is one of OK, WARN and
    FAIL, and a NaN staleness fails both comparisons and is FAIL. *)
Theorem classification_total (s t : JS.number) :
  In (MyWorkflow.classify s t) ["OK"; "WARN"; "FAIL"] /\
  In (Part000.classify s t) ["OK"; "WARN"; "FAIL"] /\
  MyWorkflow.classify JS.NaN t = "FAIL" /\
  Part000.classify JS.NaN t = "FAIL".
Proof.
  change Part000.classify with MyWorkflow.classify. unfold MyWorkflow.classify. rewrite !lt_nan_l.
  repeat split; destruct (JS.lt s t); [|destruct (JS.lt s _)| |destruct (JS.lt s _)];
    simpl; auto.
Qed.

(* ================================================================== *)
(** * Price *)
(* ================================================================== *)



Example price_scenario : MyWorkflow.price 200000000000 8 = JS.lit 2000.
Proof. reflexivity. Qed.

Example price_rounds_answer :
  MyWorkflow.price (2 ^ 53 + 1) 0 = MyWorkflow.price (2 ^ 53) 0.
Proof. reflexivity. Qed.

(* ================================================================== *)
(** * Runs of the handlers *)
(* ================================================================== *)

(** End-to-end scenarios 1 to 3: a feed updated 5, 25 and 45 minutes ago
    under a threshold of 10 minutes, and the two boundaries. *)
Example scenario_ok :
  fst (Part000.onCronTrigger (Samples.hostAged 5) initial)
    = inr "ETH/USD: OK ($2000.00, 5.0m)".
Proof. vm_compute. reflexivity. Qed.

Example scenario_warn :
  fst (Part000.onCronTrigger (Samples.hostAged 25) initial)
    = inr "ETH/USD: WARN ($2000.00, 25.0m)".
Proof. vm_compute. reflexivity. Qed.

Example scenario_fail :
  fst (Part000.onCronTrigger (Samples.hostAged 45) initial)
    = inr "ETH/USD: FAIL ($2000.00, 45.0m)".
Proof. vm_compute. reflexivity. Qed.

Example scenario_boundaries :
  fst (MyWorkflow.onCronTrigger (Samples.hostAged 10) initial)
    = inr "ETH/USD: WARN (2000.00, 10.0m stale)" /\
  fst (MyWorkflow.onCronTrigger (Samples.hostAged 30) initial)
    = inr "ETH/USD: FAIL (2000.00, 30.0m stale)".
Proof. split; vm_compute; reflexivity. Qed.

(** C7. Every call the handlers dispatch is pinned to the last finalized
    block: a run dispatches either nothing or the three reads
    (description, decimals, latestRoundData) of one feed address, each with
    [LAST_FINALIZED_BLOCK_NUMBER]. *)
Theorem calls_pinned_to_last_finalized (h : Host) :
  let main := calls (snd (MyWorkflow.onCronTrigger h initial)) in
  let part := calls (snd (Part000.onCronTrigger h initial)) in
  Forall pinned main /\ Forall pinned part /\
  (main = [] \/ exists addr, main = three_reads addr) /\
  (part = [] \/ exists addr, part = three_reads addr).
Proof.
  unfold_run. repeat step;
    (split; [repeat constructor|]); (split; [repeat constructor|]);
    split; solve [left; reflexivity | right; eexists; reflexivity].
Qed.

(* ================================================================== *)
(** * Validation *)
(* ================================================================== *)

Lemma is_hex_digit_spec c : is_hex_digit c = true <-> hex_char c.
Proof.
  assert (H : is_hex_digit c = existsb (Ascii.eqb c) hex_alphabet).
  { destruct c as [[] [] [] [] [] [] [] []]; reflexivity. }
  rewrite H. unfold hex_char. rewrite existsb_exists. split.
  - intros (x & Hin & Heq). apply Ascii.eqb_eq in Heq. now subst.
  - intros Hin. exists c. split; [assumption|apply Ascii.eqb_refl].
Qed.

Lemma all_hex_spec s :
  all_hex s = true <-> forall c, In c (list_ascii_of_string s) -> hex_char c.
Proof.
  induction s as [|a s IH]; simpl.
  - split; [intros _ c []|reflexivity].
  - rewrite andb_true_iff, IH, is_hex_digit_spec. split.
    + intros [Ha Hs] c [<-|Hc]; auto.
    + intros H. split; [apply H; now left|intros c Hc; apply H; now right].
Qed.

(** The matcher of the schema decides the pattern. *)
Lemma address_regex_spec s : address_regex s = true <-> matches_address_pattern s.
Proof.
  unfold matches_address_pattern. split.
  - destruct s as [|c0 [|c1 rest]]; simpl; try discriminate.
    rewrite !andb_true_iff. intros [[[H0 H1] Hl] Hh].
    apply Ascii.eqb_eq in H0, H1. subst c0 c1.
    apply Nat.eqb_eq in Hl. exists rest.
    split; [reflexivity|]. split; [assumption|]. now apply all_hex_spec.
  - intros (body & -> & Hl & Hh). simpl.
    rewrite Hl. simpl. now apply all_hex_spec.
Qed.

Lemma bad_address_rejected v : bad_address v -> z_string_regex v = None.
Proof.
  intros H. destruct v as [| | | |s|]; try reflexivity. simpl.
  destruct (address_regex s) eqn:E; [|reflexivity].
  apply address_regex_spec in E. exfalso. exact (H s eq_refl E).
Qed.

Lemma bad_threshold_rejected v : bad_threshold v -> z_number_positive v = None.
Proof.
  intros H. destruct v as [| | |x| |]; try reflexivity. cbn [z_number_positive].
  now rewrite (H x eq_refl).
Qed.

Lemma not_string_rejected v : is_string v = false -> z_string v = None.
Proof. destruct v; simpl; congruence. Qed.

(** What [configSchema.parse] reports, property by property. *)
Lemma parse_issues c :
  let paths :=
    (issue "schedule" (z_string (raw_schedule c))
     ++ issue "feedAddress" (z_string_regex (raw_feedAddress c))
     ++ issue "feedName" (z_string (raw_feedName c))
     ++ issue "stalenessThresholdMinutes" (z_number_positive (raw_stalenessThresholdMinutes c))
     ++ issue "chainSelectorName" (z_string (raw_chainSelectorName c))
     ++ issue "isTestnet" (z_boolean (raw_isTestnet c)))%list in
  paths <> [] -> configSchema_parse c = inl paths.
Proof.
  unfold configSchema_parse.
  destruct (z_string (raw_schedule c)), (z_string_regex (raw_feedAddress c)),
    (z_string (raw_feedName c)), (z_number_positive (raw_stalenessThresholdMinutes c)),
    (z_string (raw_chainSelectorName c)), (z_boolean (raw_isTestnet c));
    simpl; intros H; try reflexivity; congruence.
Qed.

Lemma In_issue {A : Type} path (r : option A) (rest : list string) :
  r = None -> In path (issue path r ++ rest)%list.
Proof. intros ->. now left. Qed.

(** A run on a configuration the schema rejects: both handlers throw the
    validation error before any call or status. *)
Lemma rejected_run h issues :
  configSchema_parse (config h) = inl issues ->
  MyWorkflow.onCronTrigger h initial
    = (inl (ConfigurationError issues),
       {| log := [LError (ConfigurationError issues)]; calls := []; status := None |}) /\
  Part000.onCronTrigger h initial = (inl (ConfigurationError issues), initial).
Proof.
  intros H. unfold_run. rewrite H. split; reflexivity.
Qed.

(** C4. A configuration whose feed address does not match the pattern, or
    whose threshold is not a number above zero, makes both handlers fail
    with the validation error naming the property; no call is dispatched,
    no status computed and nothing is returned in its place. *)
Theorem invalid_address_or_threshold_rejected (h : Host) :
  bad_address (raw_feedAddress (config h)) \/
  bad_threshold (raw_stalenessThresholdMinutes (config h)) ->
  exists issues,
    MyWorkflow.onCronTrigger h initial
      = (inl (ConfigurationError issues),
         {| log := [LError (ConfigurationError issues)]; calls := []; status := None |}) /\
    Part000.onCronTrigger h initial = (inl (ConfigurationError issues), initial) /\
    (bad_address (raw_feedAddress (config h)) -> In "feedAddress" issues) /\
    (bad_threshold (raw_stalenessThresholdMinutes (config h)) ->
       In "stalenessThresholdMinutes" issues).
Proof.
  intros H.
  pose proof (parse_issues (config h)) as Hp. cbv zeta in Hp.
  set (paths := (issue "schedule" _ ++ _)%list) in Hp.
  assert (Ha : bad_address (raw_feedAddress (config h)) -> In "feedAddress" paths).
  { intros Hb. apply bad_address_rejected in Hb. unfold paths.
    apply in_or_app. right. now apply In_issue. }
  assert (Ht : bad_threshold (raw_stalenessThresholdMinutes (config h)) ->
               In "stalenessThresholdMinutes" paths).
  { intros Hb. apply bad_threshold_rejected in Hb. unfold paths.
    do 3 (apply in_or_app; right). now apply In_issue. }
  assert (Hne : paths <> []).
  { destruct H as [H|H]; [apply Ha in H|apply Ht in H]; intros E; rewrite E in H; exact H. }
  exists paths. destruct (rejected_run h paths (Hp Hne)) as [H1 H2].
  repeat split; assumption.
Qed.

Lemma invalid_address_or_threshold_rejected_witness :
  bad_address (raw_feedAddress (config Samples.hostBadAddress)) /\
  exists issues,
    MyWorkflow.onCronTrigger Samples.hostBadAddress initial
      = (inl (ConfigurationError issues),
         {| log := [LError (ConfigurationError issues)]; calls := []; status := None |}) /\
    Part000.onCronTrigger Samples.hostBadAddress initial
      = (inl (ConfigurationError issues), initial) /\
    (bad_address (raw_feedAddress (config Samples.hostBadAddress)) -> In "feedAddress" issues) /\
    (bad_threshold (raw_stalenessThresholdMinutes (config Samples.hostBadAddress)) ->
       In "stalenessThresholdMinutes" issues).
Proof.
  assert (H : bad_address (raw_feedAddress (config Samples.hostBadAddress))).
  { intros s Hs. inversion Hs; subst s. rewrite <- address_regex_spec.
    vm_compute. discriminate. }
  split; [exact H|].
  apply (invalid_address_or_threshold_rejected Samples.hostBadAddress).
  left. exact H.
Defined.

(** C2, as stated, fails: the schema accepts a configuration whose schedule,
    feed name and chain selector name are empty.  With the three of them
    empty the run goes on to network resolution, and with an empty
    schedule and feed name on a known network it runs to its summary. *)
Lemma empty_names_accepted :
  configSchema_parse Samples.emptyNamesConfig
    = inr {| schedule := ""; feedAddress := "0x71041dddad3595F9CEd3DcCFBe3D1F4b0a16Bb70";
             feedName := ""; stalenessThresholdMinutes := JS.lit 10;
             chainSelectorName := ""; isTestnet := false |} /\
  fst (MyWorkflow.onCronTrigger Samples.hostEmptyNames initial)
    = inl (NetworkResolutionError "") /\
  fst (Part000.onCronTrigger Samples.hostEmptyNames initial)
    = inl (NetworkResolutionError "") /\
  fst (MyWorkflow.onCronTrigger Samples.hostEmptySchedule initial)
    = inr ": OK (2000.00, 5.0m stale)" /\
  fst (Part000.onCronTrigger Samples.hostEmptySchedule initial)
    = inr ": OK ($2000.00, 5.0m)".
Proof. repeat split; vm_compute; reflexivity. Qed.

(** C2, as the code has it.  The schema asks that schedule, feed name and
    chain selector name be strings, and nothing more of them: when one is
    not a string both handlers fail with the validation error before any
    call, and a configuration with three strings (empty ones included), a
    matching address, a positive threshold and a boolean flag is accepted
    as it is. *)
Theorem names_are_checked_to_be_strings (h : Host) :
  (is_string (raw_schedule (config h)) = false \/
   is_string (raw_feedName (config h)) = false \/
   is_string (raw_chainSelectorName (config h)) = false ->
   exists issues,
     MyWorkflow.onCronTrigger h initial
       = (inl (ConfigurationError issues),
          {| log := [LError (ConfigurationError issues)]; calls := []; status := None |}) /\
     Part000.onCronTrigger h initial = (inl (ConfigurationError issues), initial)) /\
  (forall s a n t k b,
     config h = {| raw_schedule := VString s; raw_feedAddress := VString a;
                   raw_feedName := VString n;
                   raw_stalenessThresholdMinutes := VNumber t;
                   raw_chainSelectorName := VString k; raw_isTestnet := VBoolean b |} ->
     matches_address_pattern a -> JS.lt (JS.lit 0) t = true ->
     configSchema_parse (config h)
       = inr {| schedule := s; feedAddress := a; feedName := n;
                stalenessThresholdMinutes := t; chainSelectorName := k;
                isTestnet := b |}).
Proof.
  split.
  - intros H.
    pose proof (parse_issues (config h)) as Hp. cbv zeta in Hp.
    set (paths := (issue "schedule" _ ++ _)%list) in Hp.
    assert (Hne : paths <> []).
    { unfold paths.
      destruct H as [H|[H|H]]; apply not_string_rejected in H; rewrite H;
        cbn [issue app]; try discriminate;
        destruct (issue "schedule" _); try discriminate;
        destruct (issue "feedAddress" _); try discriminate;
        cbn [app]; try discriminate;
        destruct (issue "feedName" _); try discriminate;
        destruct (issue "stalenessThresholdMinutes" _); discriminate. }
    exists paths. exact (rejected_run h paths (Hp Hne)).
  - intros s a n t k b Hc Ha Ht. rewrite Hc. unfold configSchema_parse.
    cbn [raw_schedule raw_feedAddress raw_feedName raw_stalenessThresholdMinutes
         raw_chainSelectorName raw_isTestnet z_string z_string_regex
         z_number_positive z_boolean].
    apply address_regex_spec in Ha. rewrite Ha, Ht. reflexivity.
Qed.

Lemma names_are_checked_to_be_strings_witness :
  is_string (raw_schedule (config Samples.hostNoSchedule)) = false /\
  (exists issues,
     MyWorkflow.onCronTrigger Samples.hostNoSchedule initial
       = (inl (ConfigurationError issues),
          {| log := [LError (ConfigurationError issues)]; calls := []; status := None |}) /\
     Part000.onCronTrigger Samples.hostNoSchedule initial
       = (inl (ConfigurationError issues), initial)) /\
  configSchema_parse (config Samples.hostEmptyNames)
    = inr {| schedule := ""; feedAddress := "0x71041dddad3595F9CEd3DcCFBe3D1F4b0a16Bb70";
             feedName := ""; stalenessThresholdMinutes := JS.lit 10;
             chainSelectorName := ""; isTestnet := false |}.
Proof.
  split; [reflexivity|]. split.
  - apply (names_are_checked_to_be_strings Samples.hostNoSchedule).
    left. reflexivity.
  - apply (names_are_checked_to_be_strings Samples.hostEmptyNames).
    + reflexivity.
    + apply address_regex_spec. reflexivity.
    + reflexivity.
Defined.



(* ================================================================== *)
(** * Dates out of range *)
(* ================================================================== *)

Lemma TimeClip_beyond v : JS.lt JS.maxTime v = true -> JS.TimeClip v = JS.NaN.
Proof.
  change JS.maxTime with (S754_finite false 8640000000000000 0).
  unfold JS.TimeClip, JS.lt.
  destruct v as [s|s| |s m e]; try discriminate; try reflexivity.
  destruct s; [discriminate|].
  intros H. cbn [JS.is_finite negb SFabs].
  change JS.maxTime with (S754_finite false 8640000000000000 0).
  unfold JS.lt. now rewrite H.
Qed.

Lemma sub_nan_r x : JS.sub x JS.NaN = JS.NaN.
Proof. destruct x; reflexivity. Qed.

Lemma div_nan_l y : JS.div JS.NaN y = JS.NaN.
Proof. reflexivity. Qed.

(** The staleness of a round whose date is out of range is NaN, its status
    FAIL, and its date has no ISO rendering. *)
Lemma beyond_assessment now t u :
  JS.lt JS.maxTime (JS.mul (JS.Number_of_bigint u) (JS.lit 1000)) = true ->
  MyWorkflow.stalenessMinutes now (MyWorkflow.updatedAtDate u) = JS.NaN /\
  MyWorkflow.classify (MyWorkflow.stalenessMinutes now (MyWorkflow.updatedAtDate u)) t = "FAIL" /\
  JS.toISOString (MyWorkflow.updatedAtDate u) = None.
Proof.
  intros H.
  assert (Hs : MyWorkflow.stalenessMinutes now (MyWorkflow.updatedAtDate u) = JS.NaN).
  { unfold MyWorkflow.stalenessMinutes, MyWorkflow.updatedAtDate, JS.new_Date, JS.getTime.
    cbn [JS.timeValue]. rewrite (TimeClip_beyond _ H), sub_nan_r. apply div_nan_l. }
  split; [exact Hs|]. split.
  - rewrite Hs. apply classification_nan.
  - unfold MyWorkflow.updatedAtDate, JS.new_Date, JS.toISOString. cbn [JS.timeValue].
    now rewrite (TimeClip_beyond _ H).
Qed.

(** C10. A round that decodes well but whose [updatedAt], in milliseconds,
    exceeds the largest time value makes both handlers throw a RangeError
    while rendering the report: all three calls resolved and decoded, the
    status (FAIL, from a NaN staleness) is already assigned, and no
    summary is logged or returned. *)
Theorem updatedAt_beyond_date_range (h : Host) cfg selector desc dec round :
  configSchema_parse (config h) = inr cfg ->
  getNetwork h "evm" (chainSelectorName cfg) (isTestnet cfg) = Some selector ->
  responds h selector (feedAddress cfg) description = CallData (Some desc) ->
  responds h selector (feedAddress cfg) decimals = CallData (Some dec) ->
  responds h selector (feedAddress cfg) latestRoundData = CallData (Some round) ->
  JS.lt JS.maxTime (JS.mul (JS.Number_of_bigint (updatedAt round)) (JS.lit 1000)) = true ->
  let main := MyWorkflow.onCronTrigger h initial in
  let part := Part000.onCronTrigger h initial in
  fst main = inl RangeError /\ fst part = inl RangeError /\
  status (snd main) = Some "FAIL" /\ status (snd part) = Some "FAIL" /\
  (forall s, ~ In (LSummary s) (log (snd main))) /\
  (forall s, ~ In (LSummary s) (log (snd part))).
Proof.
  intros Hc Hn Hd1 Hd2 Hd3 Hu main part. subst main part.
  destruct (beyond_assessment (Date_now h) (stalenessThresholdMinutes cfg) _ Hu)
    as (Hs & Hf & Hi).
  unfold_run.
  rewrite Hc; cbn [fst snd log calls status app].
  rewrite Hn; cbn [fst snd log calls status app].
  rewrite Hd1, Hd2, Hd3; cbn [fst snd log calls status app].
  rewrite Hi, Hf; cbn [fst snd log calls status app].
  repeat split; try reflexivity;
    intros s Hin; cbn [In] in Hin;
    repeat (destruct Hin as [Hin|Hin]; [discriminate Hin|]); exact Hin.
Qed.

Lemma updatedAt_beyond_date_range_witness :
  JS.lt JS.maxTime
    (JS.mul (JS.Number_of_bigint (updatedAt Samples.roundFarFuture)) (JS.lit 1000)) = true /\
  fst (MyWorkflow.onCronTrigger Samples.hostFarFuture initial) = inl RangeError /\
  fst (Part000.onCronTrigger Samples.hostFarFuture initial) = inl RangeError /\
  status (snd (MyWorkflow.onCronTrigger Samples.hostFarFuture initial)) = Some "FAIL" /\
  status (snd (Part000.onCronTrigger Samples.hostFarFuture initial)) = Some "FAIL".
Proof.
  split; [reflexivity|].
  pose proof (updatedAt_beyond_date_range Samples.hostFarFuture
                {| schedule := "0 */10 * * * *";
                   feedAddress := "0x71041dddad3595F9CEd3DcCFBe3D1F4b0a16Bb70";
                   feedName := "ETH/USD"; stalenessThresholdMinutes := JS.lit 10;
                   chainSelectorName := "ethereum-mainnet-base-1"; isTestnet := false |}
                Samples.baseSelector "ETH / USD" 8%N Samples.roundFarFuture
                eq_refl eq_refl eq_refl eq_refl eq_refl eq_refl) as W.
  cbv zeta in W.
  split; [exact (proj1 W)|]. split; [exact (proj1 (proj2 W))|].
  split; [exact (proj1 (proj2 (proj2 W)))|exact (proj1 (proj2 (proj2 (proj2 W))))].
Defined.

(* ================================================================== *)
(** * The two files compared *)
(* ================================================================== *)

(** C8, as stated, fails: on the first end-to-end scenario the two handlers
    return different strings. *)
Lemma variants_return_different_summaries :
  fst (MyWorkflow.onCronTrigger (Samples.hostAged 5) initial)
    = inr "ETH/USD: OK (2000.00, 5.0m stale)" /\
  fst (Part000.onCronTrigger (Samples.hostAged 5) initial)
    = inr "ETH/USD: OK ($2000.00, 5.0m)" /\
  fst (MyWorkflow.onCronTrigger (Samples.hostAged 5) initial)
    <> fst (Part000.onCronTrigger (Samples.hostAged 5) initial).
Proof.
  split; [vm_compute; reflexivity|]. split; [vm_compute; reflexivity|].
  vm_compute. discriminate.
Qed.

(** C8, as the code has it.  On every input the two handlers dispatch the
    same calls and compute the same status, and one returns a summary
    exactly when the other does; the two summaries carry the same feed
    name, status, price and staleness texts, but [main.ts] writes
    ["<name>: <status> (<price>, <staleness>m stale)"] where the other file
    writes ["<name>: <status> ($<price>, <staleness>m)"]. *)
Theorem variants_agree_up_to_summary_text (h : Host) :
  let main := MyWorkflow.onCronTrigger h initial in
  let part := Part000.onCronTrigger h initial in
  calls (snd main) = calls (snd part) /\
  status (snd main) = status (snd part) /\
  ((exists e1 e2, fst main = inl e1 /\ fst part = inl e2) \/
   (exists name st price stale,
      status (snd main) = Some st /\
      fst main = inr (name ++ ": " ++ st ++ " (" ++ price ++ ", " ++ stale ++ "m stale)") /\
      fst part = inr (name ++ ": " ++ st ++ " ($" ++ price ++ ", " ++ stale ++ "m)"))).
Proof.
  intros main part. subst main part.
  unfold_run. unfold MyWorkflow.summary, Part000.summary. repeat step;
    (split; [reflexivity|]); (split; [reflexivity|]);
    first [ left; eexists; eexists; split; reflexivity
          | right; do 4 eexists; split; [reflexivity|]; split; reflexivity ].
Qed.

(* ================================================================== *)
(** * The summary line *)
(* ================================================================== *)

Lemma toISOString_finite d iso :
  JS.toISOString d = Some iso -> JS.is_finite (JS.timeValue d) = true.
Proof.
  unfold JS.toISOString. destruct (JS.is_finite (JS.timeValue d)); [reflexivity|discriminate].
Qed.

Lemma has_char_app c s1 s2 : has_char c (s1 ++ s2) = has_char c s1 || has_char c s2.
Proof.
  induction s1 as [|a s1 IH]; simpl; [reflexivity|].
  now rewrite IH, orb_assoc.
Qed.

Lemma fixed_point_has_point f s : fixed_point f s -> has_char "." s = true.
Proof.
  intros (sign & whole & frac & -> & _).
  rewrite !has_char_app. simpl. now rewrite !orb_true_r.
Qed.

Lemma last2_app s1 s2 : (2 <= String.length s2)%nat -> last2 (s1 ++ s2) = last2 s2.
Proof.
  intros H. unfold last2. induction s1 as [|a s1 IH]; [reflexivity|].
  cbn [append String.length]. rewrite length_app in *.
  replace (S (String.length s1 + String.length s2) - 2)%nat
    with (S (String.length s1 + String.length s2 - 2))%nat by lia.
  cbn [JS.drop]. exact IH.
Qed.

Lemma summary_shape_last2 name st price stale :
  last2 (summary_shape name st price stale) = "m)".
Proof.
  unfold summary_shape.
  repeat (rewrite last2_app; [|rewrite ?length_app; cbn [String.length]; lia]).
  reflexivity.
Qed.

(** C3, as stated, fails twice.  [main.ts] returns a summary that has not
    the stated shape, whatever name, status, price and staleness are put
    in it; and the other file, on a price of [10^21], renders the price in
    exponent notation and not to two decimal places. *)
Lemma summary_shape_violated :
  fst (MyWorkflow.onCronTrigger (Samples.hostAged 5) initial)
    = inr "ETH/USD: OK (2000.00, 5.0m stale)" /\
  (forall name st price stale,
     "ETH/USD: OK (2000.00, 5.0m stale)" <> summary_shape name st price stale) /\
  fst (Part000.onCronTrigger Samples.hostHugePrice initial)
    = inr "ETH/USD: OK ($1e+21, 5.0m)" /\
  JS.toFixed (Part000.price (10 ^ 21) 0) 2 = "1e+21" /\
  ~ fixed_point 2 "1e+21".
Proof.
  split; [vm_compute; reflexivity|]. split.
  - intros name st price stale E.
    apply (f_equal last2) in E. rewrite summary_shape_last2 in E.
    vm_compute in E. discriminate E.
  - split; [vm_compute; reflexivity|]. split; [vm_compute; reflexivity|].
    intros H. apply fixed_point_has_point in H. vm_compute in H. discriminate H.
Qed.

(** C3, as the code has it.  A summary returned by the second file is
    ["<feedName>: <status> ($<price>, <stalenessMinutes>m)"], and one
    returned by [main.ts] is
    ["<feedName>: <status> (<price>, <stalenessMinutes>m stale)"], where
    staleness and price are rendered by [toFixed(1)] and [toFixed(2)]: the
    staleness with exactly one digit after the point (the clock being in
    the range of dates), the price with exactly two whenever it is below
    [10^21] in magnitude. *)
Theorem summary_text (h : Host) (s : string) :
  (fst (Part000.onCronTrigger h initial) = inr s ->
   exists name st price stale,
     assessed h name st price stale /\
     s = summary_shape name st price stale /\
     (Z.abs (clock h) <= 8640000000000000 -> fixed_point 1 (JS.toFixed stale 1)) /\
     (small price -> fixed_point 2 (JS.toFixed price 2))) /\
  (fst (MyWorkflow.onCronTrigger h initial) = inr s ->
   exists name st price stale,
     assessed h name st price stale /\
     s = name ++ ": " ++ st ++ " (" ++ JS.toFixed price 2 ++ ", "
           ++ JS.toFixed stale 1 ++ "m stale)" /\
     (Z.abs (clock h) <= 8640000000000000 -> fixed_point 1 (JS.toFixed stale 1)) /\
     (small price -> fixed_point 2 (JS.toFixed price 2))).
Proof.
  split.
  - unfold assessed. unfold_run. unfold Part000.summary, summary_shape.
    repeat step; intros E; try discriminate E; inversion E; subst s.
    do 4 eexists. split; [|split; [reflexivity|split]].
    + do 4 eexists. repeat split; try eassumption; reflexivity.
    + intros Hc. apply toFixed_fixed_point; [lia|].
      apply staleness_small; [assumption|eapply toISOString_finite; eassumption].
    + intros Hp. apply toFixed_fixed_point; [lia|assumption].
  - unfold assessed. unfold_run. unfold MyWorkflow.summary.
    repeat step; intros E; try discriminate E; inversion E; subst s.
    do 4 eexists. split; [|split; [reflexivity|split]].
    + do 4 eexists. repeat split; try eassumption; reflexivity.
    + intros Hc. apply toFixed_fixed_point; [lia|].
      apply staleness_small; [assumption|eapply toISOString_finite; eassumption].
    + intros Hp. apply toFixed_fixed_point; [lia|assumption].
Qed.

Lemma summary_text_witness :
  fst (Part000.onCronTrigger (Samples.hostAged 5) initial)
    = inr "ETH/USD: OK ($2000.00, 5.0m)" /\
  Z.abs (clock (Samples.hostAged 5)) <= 8640000000000000 /\
  exists name st price stale,
    assessed (Samples.hostAged 5) name st price stale /\
    "ETH/USD: OK ($2000.00, 5.0m)" = summary_shape name st price stale /\
    fixed_point 1 (JS.toFixed stale 1).
Proof.
  assert (H : fst (Part000.onCronTrigger (Samples.hostAged 5) initial)
              = inr "ETH/USD: OK ($2000.00, 5.0m)") by reflexivity.
  assert (Hc : Z.abs (clock (Samples.hostAged 5)) <= 8640000000000000)
    by (vm_compute; discriminate).
  split; [exact H|]. split; [exact Hc|].
  destruct (proj1 (summary_text (Samples.hostAged 5) "ETH/USD: OK ($2000.00, 5.0m)") H)
    as (name & st & price & stale & Ha & Hs & Hf & _).
  exists name, st, price, stale. split; [exact Ha|]. split; [exact Hs|exact (Hf Hc)].
Defined.

(* ================================================================== *)
(** * Further properties of the runs *)
(* ================================================================== *)

(** X1. With a valid configuration whose chain selector name the SDK does
    not know, both handlers throw "Network not found" naming it, before any
    call is dispatched; [main.ts] has logged its banner and logs the
    error, the other file has logged its title only. *)
Theorem unknown_network_aborts (h : Host) (cfg : Config) :
  configSchema_parse (config h) = inr cfg ->
  getNetwork h "evm" (chainSelectorName cfg) (isTestnet cfg) = None ->
  MyWorkflow.onCronTrigger h initial
    = (inl (NetworkResolutionError (chainSelectorName cfg)),
       {| log := [LRule; LTitle (feedName cfg); LRule;
                  LError (NetworkResolutionError (chainSelectorName cfg))];
          calls := []; status := None |}) /\
  Part000.onCronTrigger h initial
    = (inl (NetworkResolutionError (chainSelectorName cfg)),
       {| log := [LTitle (feedName cfg)]; calls := []; status := None |}).
Proof.
  intros Hc Hn. unfold_run. known. split; reflexivity.
Qed.

Lemma unknown_network_aborts_witness :
  getNetwork Samples.hostEmptyNames "evm" "" false = None /\
  fst (MyWorkflow.onCronTrigger Samples.hostEmptyNames initial)
    = inl (NetworkResolutionError "") /\
  calls (snd (Part000.onCronTrigger Samples.hostEmptyNames initial)) = [].
Proof.
  split; [reflexivity|].
  pose proof (unknown_network_aborts Samples.hostEmptyNames
                {| schedule := ""; feedAddress := "0x71041dddad3595F9CEd3DcCFBe3D1F4b0a16Bb70";
                   feedName := ""; stalenessThresholdMinutes := JS.lit 10;
                   chainSelectorName := ""; isTestnet := false |}
                eq_refl eq_refl) as [W1 W2].
  split; [exact (f_equal fst W1)|exact (f_equal (fun r => calls (snd r)) W2)].
Defined.

(** X2. Once the configuration is valid and the network known, both
    handlers dispatch the three reads of the configured feed address, in
    the order description, decimals, latestRoundData, whatever the replies
    are: no result is awaited before the third call is out. *)
Theorem reads_dispatched_before_any_result (h : Host) (cfg : Config) (selector : Z) :
  connected h cfg selector ->
  calls (snd (MyWorkflow.onCronTrigger h initial)) = three_reads (feedAddress cfg) /\
  calls (snd (Part000.onCronTrigger h initial)) = three_reads (feedAddress cfg).
Proof.
  intros [Hc Hn]. unfold_run. rewrite Hc, Hn. cbn [fst snd log calls status app].
  repeat step; split; reflexivity.
Qed.

Lemma reads_dispatched_before_any_result_witness :
  connected Samples.hostDecimalsDown Cases.goodTyped Samples.baseSelector /\
  calls (snd (MyWorkflow.onCronTrigger Samples.hostDecimalsDown initial))
    = three_reads "0x71041dddad3595F9CEd3DcCFBe3D1F4b0a16Bb70" /\
  calls (snd (Part000.onCronTrigger Samples.hostDecimalsDown initial))
    = three_reads "0x71041dddad3595F9CEd3DcCFBe3D1F4b0a16Bb70".
Proof.
  assert (H : connected Samples.hostDecimalsDown Cases.goodTyped Samples.baseSelector)
    by (split; reflexivity).
  split; [exact H|].
  exact (reads_dispatched_before_any_result Samples.hostDecimalsDown Cases.goodTyped
           Samples.baseSelector H).
Defined.

(** X3. The two files order their checks differently.  [main.ts] awaits
    the three results before it decodes any, so a failed call is reported
    even when an earlier reply does not decode; the other file decodes
    each reply as soon as it is awaited and reports the reply that does
    not decode. *)
Theorem failed_call_or_undecodable_reply (h : Host) (cfg : Config) (selector : Z) :
  connected h cfg selector ->
  responds h selector (feedAddress cfg) description = CallData None ->
  responds h selector (feedAddress cfg) decimals = CallFailed ->
  fst (MyWorkflow.onCronTrigger h initial) = inl (CallFailureError decimals) /\
  fst (Part000.onCronTrigger h initial) = inl (DecodeError description).
Proof.
  intros [Hc Hn] Hd1 Hd2. unfold_run. known. split; reflexivity.
Qed.

Lemma failed_call_or_undecodable_reply_witness :
  connected Cases.hostGarbledAndDown Cases.goodTyped Samples.baseSelector /\
  fst (MyWorkflow.onCronTrigger Cases.hostGarbledAndDown initial)
    = inl (CallFailureError decimals) /\
  fst (Part000.onCronTrigger Cases.hostGarbledAndDown initial)
    = inl (DecodeError description).
Proof.
  assert (H : connected Cases.hostGarbledAndDown Cases.goodTyped Samples.baseSelector)
    by (split; reflexivity).
  split; [exact H|].
  exact (failed_call_or_undecodable_reply Cases.hostGarbledAndDown Cases.goodTyped
           Samples.baseSelector H eq_refl eq_refl).
Defined.

(** X4. When the three calls resolve but a reply does not match its ABI,
    both handlers throw the decoding error of the first such reply, in the
    order description, decimals, latestRoundData; no status is assigned
    and no price, status or summary line is logged. *)
Theorem undecodable_reply_aborts (h : Host) (cfg : Config) (selector : Z)
  (r1 : raw string) (r2 : raw N) (r3 : raw RoundData) :
  connected h cfg selector ->
  responds h selector (feedAddress cfg) description = CallData r1 ->
  responds h selector (feedAddress cfg) decimals = CallData r2 ->
  responds h selector (feedAddress cfg) latestRoundData = CallData r3 ->
  r1 = None \/ r2 = None \/ r3 = None ->
  let first := match r1, r2 with
               | None, _ => description
               | Some _, None => decimals
               | Some _, Some _ => latestRoundData
               end in
  let main := MyWorkflow.onCronTrigger h initial in
  let part := Part000.onCronTrigger h initial in
  fst main = inl (DecodeError first) /\ fst part = inl (DecodeError first) /\
  status (snd main) = None /\ status (snd part) = None /\
  Forall silent (log (snd main)) /\ Forall silent (log (snd part)).
Proof.
  intros [Hc Hn] Hd1 Hd2 Hd3 Hnone. unfold_run. known.
  destruct r1 as [d|], r2 as [n|], r3 as [r|];
    try (exfalso; destruct Hnone as [H|[H|H]]; discriminate H);
    cbn [fst snd log calls status app]; repeat split; repeat constructor.
Qed.

Lemma undecodable_reply_aborts_witness :
  connected Cases.hostGarbledRound Cases.goodTyped Samples.baseSelector /\
  fst (MyWorkflow.onCronTrigger Cases.hostGarbledRound initial)
    = inl (DecodeError latestRoundData) /\
  fst (Part000.onCronTrigger Cases.hostGarbledRound initial)
    = inl (DecodeError latestRoundData).
Proof.
  assert (H : connected Cases.hostGarbledRound Cases.goodTyped Samples.baseSelector)
    by (split; reflexivity).
  split; [exact H|].
  pose proof (undecodable_reply_aborts Cases.hostGarbledRound Cases.goodTyped
                Samples.baseSelector (Some "ETH / USD") (Some 8%N) None
                H eq_refl eq_refl eq_refl (or_intror (or_intror eq_refl))) as W.
  cbv zeta in W. split; [exact (proj1 W)|exact (proj1 (proj2 W))].
Defined.

(** X5. The trace of a successful evaluation.  With the three replies
    decoded and a date of update in range, both handlers assign the status,
    log the six report lines in the order feed, price, round id, updated,
    staleness, status, and return the summary; [main.ts] frames the report
    with its banner, step and rule lines and logs the summary last. *)
Theorem successful_run (h : Host) cfg selector desc dec round iso :
  decoded h cfg selector desc dec round ->
  JS.toISOString (MyWorkflow.updatedAtDate (updatedAt round)) = Some iso ->
  let price := MyWorkflow.price (answer round) dec in
  let stale := MyWorkflow.stalenessMinutes (Date_now h)
                 (MyWorkflow.updatedAtDate (updatedAt round)) in
  let st := MyWorkflow.classify stale (stalenessThresholdMinutes cfg) in
  let lines := fun i => report i desc (JS.toFixed price 2) (roundId round) iso
                          (JS.toFixed stale 1) st in
  MyWorkflow.onCronTrigger h initial
    = (inr (MyWorkflow.summary (feedName cfg) st price stale),
       {| log := [LRule; LTitle (feedName cfg); LRule; LStep1; LStep2;
                  LFeed desc; LDecimals dec; LRule]
                 ++ lines 2%nat
                 ++ [LRule; LSummary (MyWorkflow.summary (feedName cfg) st price stale)];
          calls := three_reads (feedAddress cfg);
          status := Some st |}) /\
  Part000.onCronTrigger h initial
    = (inr (Part000.summary (feedName cfg) st price stale),
       {| log := LTitle (feedName cfg) :: lines 0%nat;
          calls := three_reads (feedAddress cfg);
          status := Some st |}).
Proof.
  intros ([Hc Hn] & Hd1 & Hd2 & Hd3) Hi. unfold_run. known.
  split; reflexivity.
Qed.

Lemma successful_run_witness :
  decoded (Samples.hostAged 25) Cases.goodTyped Samples.baseSelector
    "ETH / USD" 8 (Samples.roundAged 25) /\
  fst (MyWorkflow.onCronTrigger (Samples.hostAged 25) initial)
    = inr "ETH/USD: WARN (2000.00, 25.0m stale)" /\
  fst (Part000.onCronTrigger (Samples.hostAged 25) initial)
    = inr "ETH/USD: WARN ($2000.00, 25.0m)".
Proof.
  assert (H : decoded (Samples.hostAged 25) Cases.goodTyped Samples.baseSelector
                "ETH / USD" 8 (Samples.roundAged 25))
    by (repeat split; reflexivity).
  split; [exact H|].
  pose proof (successful_run (Samples.hostAged 25) Cases.goodTyped Samples.baseSelector
                "ETH / USD" 8%N (Samples.roundAged 25) _ H eq_refl) as [W1 W2].
  split; [exact (f_equal fst W1)|exact (f_equal fst W2)].
Defined.

(** X6. A status is assigned exactly when the configuration is valid, the
    network known and the three replies decoded: neither handler
    classifies a feed on partial data. *)
Theorem status_assigned_iff_decoded (h : Host) :
  (status (snd (MyWorkflow.onCronTrigger h initial)) <> None <->
   exists cfg selector desc dec round, decoded h cfg selector desc dec round) /\
  (status (snd (Part000.onCronTrigger h initial)) <> None <->
   exists cfg selector desc dec round, decoded h cfg selector desc dec round).
Proof.
  unfold decoded, connected. unfold_run.
  split; (split;
    [ repeat step; intros H; try (exfalso; apply H; reflexivity);
      do 5 eexists; repeat split; eassumption
    | intros (cfg & selector & desc & dec & round & [Hc Hn] & Hd1 & Hd2 & Hd3);
      known; destruct (JS.toISOString _); cbn [fst snd log calls status app];
      discriminate ]).
Qed.

(** X7. A summary is returned exactly when, moreover, the date of update
    is a valid date; the two files succeed on the same inputs. *)
Theorem summary_returned_iff (h : Host) :
  let ready := exists cfg selector desc dec round,
                 decoded h cfg selector desc dec round /\
                 JS.is_finite (JS.timeValue (MyWorkflow.updatedAtDate (updatedAt round))) = true in
  ((exists s, fst (MyWorkflow.onCronTrigger h initial) = inr s) <-> ready) /\
  ((exists s, fst (Part000.onCronTrigger h initial) = inr s) <-> ready).
Proof.
  cbv zeta. unfold decoded, connected. unfold_run.
  split; (split;
    [ repeat step; intros (s & H); try discriminate H;
      do 5 eexists; repeat split; try eassumption;
      match goal with
      | E : JS.toISOString ?d = Some _ |- _ =>
          unfold JS.toISOString in E; destruct (JS.is_finite (JS.timeValue d));
          [reflexivity|discriminate E]
      end
    | intros (cfg & selector & desc & dec & round & ([Hc Hn] & Hd1 & Hd2 & Hd3) & Hf);
      known; unfold JS.toISOString; rewrite Hf;
      cbn [fst snd log calls status app]; eexists; reflexivity ]).
Qed.

Lemma status_assigned_iff_decoded_witness :
  decoded Samples.hostFarFuture Cases.goodTyped Samples.baseSelector
    "ETH / USD" 8 Samples.roundFarFuture /\
  status (snd (MyWorkflow.onCronTrigger Samples.hostFarFuture initial)) <> None /\
  status (snd (Part000.onCronTrigger Samples.hostFarFuture initial)) <> None.
Proof.
  assert (H : decoded Samples.hostFarFuture Cases.goodTyped Samples.baseSelector
                "ETH / USD" 8 Samples.roundFarFuture)
    by (repeat split; reflexivity).
  split; [exact H|].
  destruct (status_assigned_iff_decoded Samples.hostFarFuture) as [[_ W1] [_ W2]].
  split; [apply W1|apply W2]; do 5 eexists; exact H.
Defined.

Lemma summary_returned_iff_witness :
  (exists s, fst (MyWorkflow.onCronTrigger (Samples.hostAged 5) initial) = inr s) /\
  (exists s, fst (Part000.onCronTrigger (Samples.hostAged 5) initial) = inr s).
Proof.
  assert (H : decoded (Samples.hostAged 5) Cases.goodTyped Samples.baseSelector
                "ETH / USD" 8 (Samples.roundAged 5))
    by (repeat split; reflexivity).
  destruct (summary_returned_iff (Samples.hostAged 5)) as [[_ W1] [_ W2]].
  split; [apply W1|apply W2]; do 5 eexists; (split; [exact H|reflexivity]).
Defined.

(** X8. The [catch] of [main.ts].  A run of [main.ts] that throws has
    logged the error it throws as its last line and no other error line,
    and a run that returns has logged its summary last and no error line;
    the other file, which has no handler of its own, logs neither an error
    nor a summary. *)
Theorem error_is_logged_once_and_rethrown (h : Host) :
  let main := MyWorkflow.onCronTrigger h initial in
  let part := Part000.onCronTrigger h initial in
  (forall e, fst main = inl e ->
     exists before, log (snd main) = (before ++ [LError e])%list /\
                    existsb is_error_line before = false) /\
  (forall s, fst main = inr s ->
     exists before, log (snd main) = (before ++ [LSummary s])%list /\
                    existsb is_error_line before = false) /\
  existsb is_error_line (log (snd part)) = false /\
  (forall s, ~ In (LSummary s) (log (snd part))).
Proof.
  unfold_run. repeat step;
    (split; [intros e H; try discriminate H; inversion H; subst;
             match goal with
             | |- exists b, ?l = _ /\ _ => exists (removelast l); split; reflexivity
             end|]);
    (split; [intros s H; try discriminate H; inversion H; subst;
             match goal with
             | |- exists b, ?l = _ /\ _ => exists (removelast l); split; reflexivity
             end|]);
    (split; [reflexivity|]);
    intros s Hin; cbn [In] in Hin;
    repeat (destruct Hin as [Hin|Hin]; [discriminate Hin|]); exact Hin.
Qed.

Lemma error_is_logged_once_and_rethrown_witness :
  fst (MyWorkflow.onCronTrigger Samples.hostDecimalsDown initial)
    = inl (CallFailureError decimals) /\
  exists before,
    log (snd (MyWorkflow.onCronTrigger Samples.hostDecimalsDown initial))
      = (before ++ [LError (CallFailureError decimals)])%list /\
    existsb is_error_line before = false.
Proof.
  assert (H : fst (MyWorkflow.onCronTrigger Samples.hostDecimalsDown initial)
              = inl (CallFailureError decimals)) by reflexivity.
  split; [exact H|].
  exact (proj1 (error_is_logged_once_and_rethrown Samples.hostDecimalsDown) _ H).
Defined.

(** X9. The two files log the same report: on every input, the report
    lines of [main.ts], taken without their indentation, are the report
    lines of the other file, a report cut short by an invalid date
    included. *)
Theorem reports_agree (h : Host) :
  map unindent (filter is_report (log (snd (MyWorkflow.onCronTrigger h initial))))
    = filter is_report (log (snd (Part000.onCronTrigger h initial))).
Proof.
  unfold_run. repeat step; reflexivity.
Qed.

(* ================================================================== *)
(** * Further properties of validation *)
(* ================================================================== *)

(** X10. An accepted configuration is returned as it was given: the schema
    substitutes no default and coerces nothing, and it accepts exactly the
    records of three strings, a string matching the address pattern, a
    number above zero and a boolean. *)
Theorem accepted_config_is_unchanged (c : RawConfig) (cfg : Config) :
  configSchema_parse c = inr cfg <->
  c = untyped cfg /\ matches_address_pattern (feedAddress cfg) /\
  JS.lt (JS.lit 0) (stalenessThresholdMinutes cfg) = true.
Proof.
  split.
  - destruct c as [v1 v2 v3 v4 v5 v6]. unfold configSchema_parse.
    cbn [raw_schedule raw_feedAddress raw_feedName raw_stalenessThresholdMinutes
         raw_chainSelectorName raw_isTestnet].
    destruct v1 as [| | | |s1|]; cbn [z_string]; try discriminate.
    destruct v2 as [| | | |s2|]; cbn [z_string_regex]; try discriminate.
    destruct (address_regex s2) eqn:Ha; try discriminate.
    destruct v3 as [| | | |s3|]; cbn [z_string]; try discriminate.
    destruct v4 as [| | |x4| |]; cbn [z_number_positive]; try discriminate.
    destruct (JS.lt (JS.lit 0) x4) eqn:Ht; try discriminate.
    destruct v5 as [| | | |s5|]; cbn [z_string]; try discriminate.
    destruct v6 as [| |b6| | |]; cbn [z_boolean]; try discriminate.
    intros H. inversion H; subst cfg. unfold untyped.
    cbn [schedule feedAddress feedName stalenessThresholdMinutes chainSelectorName isTestnet].
    split; [reflexivity|]. split; [now apply address_regex_spec|assumption].
  - intros (-> & Ha & Ht). apply address_regex_spec in Ha.
    unfold configSchema_parse, untyped.
    cbn [raw_schedule raw_feedAddress raw_feedName raw_stalenessThresholdMinutes
         raw_chainSelectorName raw_isTestnet z_string z_string_regex
         z_number_positive z_boolean].
    rewrite Ha, Ht. destruct cfg; reflexivity.
Qed.

Lemma accepted_config_is_unchanged_witness :
  configSchema_parse Samples.goodConfig = inr Cases.goodTyped /\
  Samples.goodConfig = untyped Cases.goodTyped.
Proof.
  assert (H : configSchema_parse Samples.goodConfig = inr Cases.goodTyped) by reflexivity.
  split; [exact H|].
  exact (proj1 (proj1 (accepted_config_is_unchanged Samples.goodConfig Cases.goodTyped) H)).
Defined.

Lemma issue_if {A : Type} (path : string) (r : option A) (b : bool) :
  (r = None <-> b = false) -> issue path r = if negb b then [path] else [].
Proof.
  intros [H1 H2]. destruct r as [a|], b; cbn; try reflexivity.
  - discriminate (H2 eq_refl).
  - discriminate (H1 eq_refl).
Qed.

(** The issues of the schema, in terms of its checks. *)
Lemma failing_paths (c : RawConfig) :
  map fst (filter (fun pc => negb (snd pc c)) schema_checks)
  = (issue "schedule" (z_string (raw_schedule c))
     ++ issue "feedAddress" (z_string_regex (raw_feedAddress c))
     ++ issue "feedName" (z_string (raw_feedName c))
     ++ issue "stalenessThresholdMinutes" (z_number_positive (raw_stalenessThresholdMinutes c))
     ++ issue "chainSelectorName" (z_string (raw_chainSelectorName c))
     ++ issue "isTestnet" (z_boolean (raw_isTestnet c)))%list.
Proof.
  rewrite (issue_if "schedule" _ (is_string (raw_schedule c)))
    by (destruct (raw_schedule c); cbn; split; congruence).
  rewrite (issue_if "feedAddress" _
             (match raw_feedAddress c with VString s => address_regex s | _ => false end))
    by (destruct (raw_feedAddress c) as [| | | |s|]; cbn; try (split; congruence);
        destruct (address_regex s); split; congruence).
  rewrite (issue_if "feedName" _ (is_string (raw_feedName c)))
    by (destruct (raw_feedName c); cbn; split; congruence).
  rewrite (issue_if "stalenessThresholdMinutes" _
             (match raw_stalenessThresholdMinutes c with
              | VNumber x => JS.lt (JS.lit 0) x | _ => false end))
    by (destruct (raw_stalenessThresholdMinutes c) as [| | |x| |];
        cbn [z_number_positive]; try (split; congruence);
        destruct (JS.lt (JS.lit 0) x); split; congruence).
  rewrite (issue_if "chainSelectorName" _ (is_string (raw_chainSelectorName c)))
    by (destruct (raw_chainSelectorName c); cbn; split; congruence).
  rewrite (issue_if "isTestnet" _
             (match raw_isTestnet c with VBoolean _ => true | _ => false end))
    by (destruct (raw_isTestnet c); cbn; split; congruence).
  unfold schema_checks. cbn [map filter fst snd].
  destruct (is_string (raw_schedule c)),
    (match raw_feedAddress c with VString s => address_regex s | _ => false end),
    (is_string (raw_feedName c)),
    (match raw_stalenessThresholdMinutes c with
     | VNumber x => JS.lt (JS.lit 0) x | _ => false end),
    (is_string (raw_chainSelectorName c)),
    (match raw_isTestnet c with VBoolean _ => true | _ => false end);
    reflexivity.
Qed.

(** X11. A rejected configuration is reported in full: the validation
    error lists every property that fails its check, and only those, in
    the order of the schema; and a configuration is rejected as soon as one
    property fails. *)
Theorem every_offending_property_is_reported (c : RawConfig) :
  let failing := map fst (filter (fun pc => negb (snd pc c)) schema_checks) in
  (failing <> [] -> configSchema_parse c = inl failing) /\
  (forall issues, configSchema_parse c = inl issues -> issues = failing /\ failing <> []).
Proof.
  cbv zeta. rewrite failing_paths.
  pose proof (parse_issues c) as Hp. cbv zeta in Hp.
  split; [exact Hp|].
  intros issues H.
  set (paths := (issue "schedule" _ ++ _)%list) in *.
  destruct paths as [|p ps] eqn:E.
  - exfalso. unfold paths in E. unfold configSchema_parse in H.
    destruct (z_string (raw_schedule c)); [|discriminate E].
    destruct (z_string_regex (raw_feedAddress c)); [|discriminate E].
    destruct (z_string (raw_feedName c)); [|discriminate E].
    destruct (z_number_positive (raw_stalenessThresholdMinutes c)); [|discriminate E].
    destruct (z_string (raw_chainSelectorName c)); [|discriminate E].
    destruct (z_boolean (raw_isTestnet c)); [|discriminate E].
    discriminate H.
  - assert (Hne : p :: ps <> []) by discriminate.
    rewrite (Hp Hne) in H. inversion H. split; [reflexivity|assumption].
Qed.

Lemma every_offending_property_is_reported_witness :
  configSchema_parse Cases.threeWrong
    = inl ["feedAddress"; "feedName"; "stalenessThresholdMinutes"].
Proof.
  apply (every_offending_property_is_reported Cases.threeWrong).
  vm_compute. discriminate.
Defined.

(* ================================================================== *)
(** * Further properties of classification *)
(* ================================================================== *)

Lemma SFltb_iff x y : SFltb x y = true <-> SFleb x y = true /\ SFleb y x = false.
Proof.
  unfold SFltb, SFleb. rewrite (SFcompare_antisym x y).
  destruct (SFcompare x y) as [[ | | ]|]; cbn; intuition congruence.
Qed.

Lemma SFleb_SFltb_trans x y z : SFleb x y = true -> SFltb y z = true -> SFltb x z = true.
Proof.
  intros Hxy Hyz. apply SFltb_iff in Hyz. destruct Hyz as [Hyz Hzy].
  apply SFltb_iff. split; [eapply SFleb_trans; eassumption|].
  destruct (SFleb z x) eqn:Hzx; [|reflexivity].
  rewrite (SFleb_trans z x y Hzx Hxy) in Hzy. discriminate.
Qed.

Lemma status_rank_le_2 s t : (status_rank (MyWorkflow.classify s t) <= 2)%nat.
Proof.
  unfold MyWorkflow.classify.
  destruct (JS.lt s t); [cbn; lia|]. destruct (JS.lt s _); cbn; lia.
Qed.

(** X12. Classification is monotone in the staleness: of two stalenesses
    compared by the language's [<=], the larger is never given a healthier
    status, whatever the threshold. *)
Theorem staler_is_never_healthier (s1 s2 t : JS.number) :
  JS.le s1 s2 = true ->
  (status_rank (MyWorkflow.classify s1 t) <= status_rank (MyWorkflow.classify s2 t))%nat /\
  (status_rank (Part000.classify s1 t) <= status_rank (Part000.classify s2 t))%nat.
Proof.
  intros Hle. change Part000.classify with MyWorkflow.classify.
  assert (H : (status_rank (MyWorkflow.classify s1 t)
               <= status_rank (MyWorkflow.classify s2 t))%nat).
  { pose proof (status_rank_le_2 s1 t) as H2.
    unfold MyWorkflow.classify in *. unfold JS.lt, JS.le in *.
    destruct (SFltb s2 t) eqn:E2.
    - rewrite (SFleb_SFltb_trans _ _ _ Hle E2). cbn. lia.
    - destruct (SFltb s2 (JS.mul t (JS.lit 3))) eqn:E3.
      + rewrite (SFleb_SFltb_trans _ _ _ Hle E3).
        destruct (SFltb s1 t); cbn; lia.
      + cbn [status_rank String.eqb Ascii.eqb Bool.eqb] in *. exact H2. }
  split; exact H.
Qed.

Lemma staler_is_never_healthier_witness :
  JS.le (JS.lit 5) (JS.lit 45) = true /\
  (status_rank (MyWorkflow.classify (JS.lit 5) (JS.lit 10))
   <= status_rank (MyWorkflow.classify (JS.lit 45) (JS.lit 10)))%nat.
Proof.
  split; [reflexivity|].
  exact (proj1 (staler_is_never_healthier (JS.lit 5) (JS.lit 45) (JS.lit 10) eq_refl)).
Defined.

(* ================================================================== *)
(** * Exact operations on integers *)
(* ================================================================== *)

Lemma shr_1_even P :
  shr_1 {| shr_m := Zpos (xO P); shr_r := false; shr_s := false |} =
  {| shr_m := Zpos P; shr_r := false; shr_s := false |}.
Proof. reflexivity. Qed.

Lemma shr_iter_exact k : forall M P, Zpos M = Zpos P * 2 ^ Z.of_nat k ->
  Nat.iter k shr_1 {| shr_m := Zpos M; shr_r := false; shr_s := false |} =
  {| shr_m := Zpos P; shr_r := false; shr_s := false |}.
Proof.
  induction k as [|k IH]; intros M P H.
  - cbn [Nat.iter]. change (Z.of_nat 0) with 0 in H. rewrite Z.pow_0_r in H.
    assert (M = P) by lia. subst. reflexivity.
  - rewrite Nat.iter_succ.
    rewrite Nat2Z.inj_succ, Z.pow_succ_r in H by apply Nat2Z.is_nonneg.
    rewrite (IH M (xO P)).
    + apply shr_1_even.
    + rewrite Pos2Z.inj_xO. lia.
Qed.

Lemma shr_exact M P E k : 0 <= k -> Zpos M = Zpos P * 2 ^ k ->
  shr {| shr_m := Zpos M; shr_r := false; shr_s := false |} E k =
  ({| shr_m := Zpos P; shr_r := false; shr_s := false |}, E + k).
Proof.
  intros Hk H. destruct k as [|p|p]; [| |lia].
  - rewrite Z.pow_0_r in H. assert (M = P) by lia. subst.
    cbn [shr]. f_equal. lia.
  - cbn [shr]. rewrite iter_pos_nat.
    rewrite (shr_iter_exact (Pos.to_nat p) M P); [reflexivity|].
    rewrite positive_nat_Z. exact H.
Qed.

Lemma digits_mul_pow2 M P k : 0 <= k -> Zpos M = Zpos P * 2 ^ k ->
  Zpos (digits2_pos M) = Zpos (digits2_pos P) + k.
Proof.
  intros Hk H.
  pose proof (digits2_bounds P) as [HPlo HPhi].
  pose proof (digits2_bounds M) as [HMlo HMhi].
  assert (H2k : 0 < 2 ^ k) by (apply pow2_pos; lia).
  assert (0 < Zpos (digits2_pos P)) by lia.
  assert (Hhi : Zpos M < 2 ^ (Zpos (digits2_pos P) + k)).
  { rewrite Z.pow_add_r by lia. rewrite H. apply Z.mul_lt_mono_pos_r; assumption. }
  assert (Hlo : 2 ^ (Zpos (digits2_pos P) - 1 + k) <= Zpos M).
  { rewrite Z.pow_add_r by lia. rewrite H. apply Z.mul_le_mono_nonneg_r; lia. }
  apply digits_le_of_lt in Hhi.
  assert (Zpos (digits2_pos P) - 1 + k < Zpos (digits2_pos M)); [|lia].
  apply pow2_lt_inv; lia.
Qed.

(** A mantissa whose discarded bits are all zero is rounded without error. *)
Lemma round_exact s M P E k :
  0 <= k -> Zpos M = Zpos P * 2 ^ k ->
  fexp 53 1024 (Zpos (digits2_pos M) + E) - E = k -> E + k <= 971 ->
  binary_round_aux 53 1024 s (Zpos M) E loc_Exact = S754_finite s P (E + k).
Proof.
  intros Hk HM Hf HE.
  pose proof (digits_mul_pow2 M P k Hk HM) as HD.
  unfold binary_round_aux, shr_fexp.
  cbn [Zdigits2 shr_record_of_loc]. rewrite Hf.
  rewrite (shr_exact M P E k Hk HM).
  cbn [loc_of_shr_record shr_m shr_r shr_s round_nearest_even Zdigits2 shr_record_of_loc].
  assert (Hf2 : fexp 53 1024 (Zpos (digits2_pos P) + (E + k)) = E + k).
  { replace (Zpos (digits2_pos P) + (E + k)) with (Zpos (digits2_pos M) + E) by lia. lia. }
  rewrite Hf2. replace (E + k - (E + k)) with 0 by lia.
  cbn [shr shr_m].
  replace (E + k <=? 1024 - 53) with true; [reflexivity|].
  symmetry. apply Z.leb_le. lia.
Qed.

Lemma exact_form_pos v : Zpos (digits2_pos v) <= 53 ->
  Zpos (Z.to_pos (Zpos v * 2 ^ (53 - Zpos (digits2_pos v)))) =
  Zpos v * 2 ^ (53 - Zpos (digits2_pos v)).
Proof.
  intros Hd. apply Z2Pos.id. apply Z.mul_pos_pos; [lia|apply pow2_pos; lia].
Qed.

(** An integer of at most 53 bits, written at any scale, is converted to
    its exact form. *)
Lemma binary_round_exact s m v j :
  0 <= j <= 1074 -> Zpos m = Zpos v * 2 ^ j -> Zpos (digits2_pos v) <= 53 ->
  binary_round 53 1024 s m (- j) = exact_form s v.
Proof.
  intros Hj Hm Hd. unfold binary_round.
  pose proof (digits_mul_pow2 m v j ltac:(lia) Hm) as HD.
  pose proof (shl_align_spec m (- j) (fexp 53 1024 (Zpos (digits2_pos m) + - j))) as Ha.
  destruct (shl_align m (- j) _) as [mz ez].
  destruct Ha as (Hez & Hmz & Hdz). rewrite fexp_eq in Hez.
  pose proof (digits2_bounds v) as Hb.
  assert (Hdpos : 0 < Zpos (digits2_pos v)) by lia.
  set (d := Zpos (digits2_pos v)) in *.
  pose proof (exact_form_pos v Hd) as HP. fold d in HP.
  assert (Hez' : ez = Z.min (- j) (d - 53)) by lia.
  rewrite (round_exact s mz (Z.to_pos (Zpos v * 2 ^ (53 - d))) ez (d - 53 - ez)).
  - unfold exact_form. fold d. f_equal. lia.
  - lia.
  - rewrite HP, Hmz, Hm.
    rewrite <- !Z.mul_assoc, <- !Z.pow_add_r by lia.
    f_equal. f_equal. lia.
  - rewrite fexp_eq. lia.
  - lia.
Qed.

Lemma binary_normalize_exact z j :
  0 <= j <= 1074 -> Z.abs z < 2 ^ 53 ->
  binary_normalize 53 1024 (z * 2 ^ j) (- j) false = JS.Number_of_bigint z.
Proof.
  intros Hj Hz. unfold JS.Number_of_bigint, JS.prec, JS.emax.
  assert (H2j : 0 < 2 ^ j) by (apply pow2_pos; lia).
  destruct z as [|v|v].
  - reflexivity.
  - assert (Hd : Zpos (digits2_pos v) <= 53) by (apply digits_le_of_lt; lia).
    destruct (Zpos v * 2 ^ j) as [|m|m] eqn:Em; [lia| |lia].
    cbn [binary_normalize].
    rewrite (binary_round_exact false m v j Hj (eq_sym Em) Hd).
    change 0 with (- 0).
    rewrite (binary_round_exact false v v 0); [reflexivity|lia| |assumption].
    rewrite Z.pow_0_r. lia.
  - assert (Hd : Zpos (digits2_pos v) <= 53) by (apply digits_le_of_lt; cbn [Z.abs] in Hz; lia).
    destruct (Zneg v * 2 ^ j) as [|m|m] eqn:Em; [lia|lia|].
    cbn [binary_normalize].
    rewrite (binary_round_exact true m v j Hj); [|lia|assumption].
    change 0 with (- 0).
    rewrite (binary_round_exact true v v 0); [reflexivity|lia| |assumption].
    rewrite Z.pow_0_r. lia.
Qed.

Lemma Number_exact_pos v : Zpos (digits2_pos v) <= 53 ->
  JS.Number_of_bigint (Zpos v) = exact_form false v.
Proof.
  intros Hd. unfold JS.Number_of_bigint, JS.prec, JS.emax. cbn [binary_normalize].
  change 0 with (- 0).
  apply binary_round_exact; [lia| |assumption]. rewrite Z.pow_0_r. lia.
Qed.

Lemma Number_exact_neg v : Zpos (digits2_pos v) <= 53 ->
  JS.Number_of_bigint (Zneg v) = exact_form true v.
Proof.
  intros Hd. unfold JS.Number_of_bigint, JS.prec, JS.emax. cbn [binary_normalize].
  change 0 with (- 0).
  apply binary_round_exact; [lia| |assumption]. rewrite Z.pow_0_r. lia.
Qed.

Lemma Number_zero : JS.Number_of_bigint 0 = S754_zero false.
Proof. reflexivity. Qed.

(** The signed value held by an exact form, at a scale [2^-j]. *)
Lemma exact_form_aligned v ez :
  Zpos (digits2_pos v) <= 53 -> ez <= Zpos (digits2_pos v) - 53 ->
  Zpos (fst (shl_align (Z.to_pos (Zpos v * 2 ^ (53 - Zpos (digits2_pos v))))
                       (Zpos (digits2_pos v) - 53) ez)) = Zpos v * 2 ^ (- ez).
Proof.
  intros Hd He.
  pose proof (shl_align_spec (Z.to_pos (Zpos v * 2 ^ (53 - Zpos (digits2_pos v))))
                (Zpos (digits2_pos v) - 53) ez) as Ha.
  destruct (shl_align _ _ ez) as [mz ez'].
  destruct Ha as (Hez & Hmz & _). cbn [fst].
  rewrite Hmz, (exact_form_pos v Hd).
  pose proof (digits2_bounds v).
  assert (0 < Zpos (digits2_pos v)) by lia.
  rewrite <- Z.mul_assoc, <- Z.pow_add_r by lia.
  f_equal. f_equal. lia.
Qed.

Lemma abs_digits v : Zpos v < 2 ^ 53 -> Zpos (digits2_pos v) <= 53.
Proof. apply digits_le_of_lt. Qed.

(** Subtraction of integers is exact while the operands and the difference
    stay below [2^53]. *)
Lemma sub_exact a b :
  Z.abs a < 2 ^ 53 -> Z.abs b < 2 ^ 53 -> Z.abs (a - b) < 2 ^ 53 ->
  JS.sub (JS.Number_of_bigint a) (JS.Number_of_bigint b) = JS.Number_of_bigint (a - b).
Proof.
  intros Ha Hb Hab.
  assert (Hfin : forall sa sb va vb,
            Zpos va < 2 ^ 53 -> Zpos vb < 2 ^ 53 ->
            Z.abs (cond_Zopp sa (Zpos va) - cond_Zopp sb (Zpos vb)) < 2 ^ 53 ->
            JS.sub (exact_form sa va) (exact_form sb vb) =
            JS.Number_of_bigint (cond_Zopp sa (Zpos va) - cond_Zopp sb (Zpos vb))).
  { intros sa sb va vb Hva Hvb Hd.
    apply abs_digits in Hva, Hvb.
    pose proof (digits2_bounds va). pose proof (digits2_bounds vb).
    assert (0 < Zpos (digits2_pos va)) by lia.
    assert (0 < Zpos (digits2_pos vb)) by lia.
    unfold JS.sub, exact_form, JS.prec, JS.emax. cbn [SFsub].
    set (ez := Z.min (Zpos (digits2_pos va) - 53) (Zpos (digits2_pos vb) - 53)).
    rewrite (exact_form_aligned va ez) by (unfold ez; lia).
    rewrite (exact_form_aligned vb ez) by (unfold ez; lia).
    replace (cond_Zopp sa (Zpos va * 2 ^ (- ez)) - cond_Zopp sb (Zpos vb * 2 ^ (- ez)))
      with ((cond_Zopp sa (Zpos va) - cond_Zopp sb (Zpos vb)) * 2 ^ (- ez)).
    2:{ destruct sa, sb; cbn [cond_Zopp]; lia. }
    replace ez with (- (- ez)) at 2 by lia.
    apply binary_normalize_exact; [unfold ez; lia|assumption]. }
  destruct a as [|va|va], b as [|vb|vb]; cbn [Z.abs] in Ha, Hb.
  - reflexivity.
  - rewrite Number_zero, (Number_exact_pos vb) by (apply abs_digits; lia).
    change (0 - Zpos vb) with (Zneg vb).
    rewrite (Number_exact_neg vb) by (apply abs_digits; lia). reflexivity.
  - rewrite Number_zero, (Number_exact_neg vb) by (apply abs_digits; lia).
    change (0 - Zneg vb) with (Zpos vb).
    rewrite (Number_exact_pos vb) by (apply abs_digits; lia). reflexivity.
  - rewrite Z.sub_0_r, Number_zero, (Number_exact_pos va) by (apply abs_digits; lia).
    reflexivity.
  - rewrite (Number_exact_pos va), (Number_exact_pos vb) by (apply abs_digits; lia).
    apply (Hfin false false); assumption.
  - rewrite (Number_exact_pos va), (Number_exact_neg vb) by (apply abs_digits; lia).
    apply (Hfin false true); assumption.
  - rewrite Z.sub_0_r, Number_zero, (Number_exact_neg va) by (apply abs_digits; lia).
    reflexivity.
  - rewrite (Number_exact_neg va), (Number_exact_pos vb) by (apply abs_digits; lia).
    apply (Hfin true false); assumption.
  - rewrite (Number_exact_neg va), (Number_exact_neg vb) by (apply abs_digits; lia).
    apply (Hfin true true); assumption.
Qed.

(** Multiplication of non-negative integers is exact while the product
    stays below [2^53]. *)
Lemma mul_exact a b :
  0 <= a < 2 ^ 53 -> 0 <= b < 2 ^ 53 -> a * b < 2 ^ 53 ->
  JS.mul (JS.Number_of_bigint a) (JS.Number_of_bigint b) = JS.Number_of_bigint (a * b).
Proof.
  intros Ha Hb Hab.
  destruct a as [|va|va]; [|destruct b as [|vb|vb]|]; try lia.
  - rewrite Z.mul_0_l, Number_zero.
    destruct b as [|vb|vb]; [reflexivity| |lia].
    rewrite (Number_exact_pos vb) by (apply abs_digits; lia). reflexivity.
  - rewrite Z.mul_0_r, Number_zero.
    rewrite (Number_exact_pos va) by (apply abs_digits; lia). reflexivity.
  - assert (Hva : Zpos va < 2 ^ 53) by lia.
    assert (Hvb : Zpos vb < 2 ^ 53) by lia.
    change (Zpos va * Zpos vb) with (Zpos (va * vb)) in *.
    pose proof (abs_digits _ Hva) as Hda. pose proof (abs_digits _ Hvb) as Hdb.
    pose proof (abs_digits _ Hab) as Hdab.
    rewrite (Number_exact_pos va), (Number_exact_pos vb), (Number_exact_pos (va * vb))
      by assumption.
    pose proof (digits2_bounds va) as Ba. pose proof (digits2_bounds vb) as Bb.
    pose proof (digits2_bounds (va * vb)) as Bab.
    set (da := Zpos (digits2_pos va)) in *. set (db := Zpos (digits2_pos vb)) in *.
    set (dab := Zpos (digits2_pos (va * vb))) in *.
    assert (0 < da) by (unfold da; lia). assert (0 < db) by (unfold db; lia).
    assert (Hsum : da + db - 2 < dab).
    { apply pow2_lt_inv; [unfold dab; lia|].
      replace (da + db - 2) with ((da - 1) + (db - 1)) by lia.
      rewrite Z.pow_add_r by lia.
      assert (2 ^ (da - 1) * 2 ^ (db - 1) <= Zpos va * Zpos vb).
      { apply Z.mul_le_mono_nonneg; try lia; apply Z.pow_nonneg; lia. }
      rewrite Pos2Z.inj_mul in Bab. lia. }
    unfold JS.mul, exact_form, JS.prec, JS.emax. fold da db dab. cbn [SFmul xorb].
    pose proof (exact_form_pos va Hda) as Pa. pose proof (exact_form_pos vb Hdb) as Pb.
    pose proof (exact_form_pos (va * vb) Hdab) as Pab. fold da in Pa. fold db in Pb.
    fold dab in Pab.
    set (ma := Z.to_pos (Zpos va * 2 ^ (53 - da))) in *.
    set (mb := Z.to_pos (Zpos vb * 2 ^ (53 - db))) in *.
    set (mab := Z.to_pos (Zpos (va * vb) * 2 ^ (53 - dab))) in *.
    assert (Hprod : Zpos (ma * mb) = Zpos mab * 2 ^ (dab - da - db + 53)).
    { assert (Hpow : 2 ^ (53 - dab) * 2 ^ (dab - da - db + 53) =
                     2 ^ (53 - da) * 2 ^ (53 - db)).
      { rewrite <- !Z.pow_add_r by lia. f_equal. lia. }
      rewrite Pos2Z.inj_mul, Pa, Pb, Pab, Pos2Z.inj_mul.
      revert Hpow.
      generalize (2 ^ (53 - dab)) (2 ^ (dab - da - db + 53)) (2 ^ (53 - da)) (2 ^ (53 - db)).
      intros x1 x2 x3 x4 Hpow.
      transitivity (Zpos va * Zpos vb * (x3 * x4)); [ring|].
      rewrite <- Hpow. ring. }
    pose proof (digits_mul_pow2 (ma * mb) mab (dab - da - db + 53) ltac:(lia) Hprod) as HD.
    assert (Hdm : Zpos (digits2_pos mab) = 53).
    { rewrite (digits_mul_pow2 mab (va * vb) (53 - dab)); [fold dab; lia|lia|exact Pab]. }
    rewrite (round_exact false (ma * mb) mab (da - 53 + (db - 53)) (dab - da - db + 53)).
    + f_equal. lia.
    + lia.
    + exact Hprod.
    + rewrite HD, Hdm, fexp_eq. lia.
    + lia.
Qed.

(* ================================================================== *)
(** * Dates of update *)
(* ================================================================== *)

Lemma exact_form_53 s v : Zpos (digits2_pos v) = 53 -> exact_form s v = S754_finite s v 0.
Proof.
  intros H. unfold exact_form. rewrite H. cbn [Z.sub Z.add Z.opp Z.pos_sub].
  change (53 - 53) with 0. rewrite Z.pow_0_r, Z.mul_1_r. reflexivity.
Qed.

Lemma truncate_exact_form s v : Zpos (digits2_pos v) <= 53 ->
  JS.truncate (exact_form s v) = cond_Zopp s (Zpos v).
Proof.
  intros Hd. unfold exact_form. cbn [JS.truncate]. f_equal.
  unfold JS.integral_value. rewrite (exact_form_pos v Hd).
  pose proof (digits2_bounds v).
  destruct (0 <=? Zpos (digits2_pos v) - 53) eqn:He.
  - apply Z.leb_le in He.
    replace (Zpos (digits2_pos v) - 53) with 0 by lia.
    replace (53 - Zpos (digits2_pos v)) with 0 by lia.
    rewrite Z.pow_0_r. lia.
  - replace (- (Zpos (digits2_pos v) - 53)) with (53 - Zpos (digits2_pos v)) by lia.
    apply Z.div_mul. apply Z.pow_nonzero; lia.
Qed.

Lemma maxTime_exceeded_exact s v : Zpos (digits2_pos v) <= 53 ->
  JS.lt JS.maxTime (SFabs (exact_form s v)) = (8640000000000000 <? Zpos v).
Proof.
  intros Hd. change JS.maxTime with (S754_finite false 8640000000000000 0).
  unfold exact_form, JS.lt, SFltb. cbn [SFabs SFcompare].
  pose proof (digits2_bounds v) as Hb.
  destruct (Z.compare_spec 0 (Zpos (digits2_pos v) - 53)) as [He|He|He].
  - replace (53 - Zpos (digits2_pos v)) with 0 by lia.
    rewrite Z.pow_0_r, Z.mul_1_r. cbn [Z.to_pos].
    unfold Z.ltb.
    change (8640000000000000 ?= Zpos v) with (Pos.compare 8640000000000000 v).
    reflexivity.
  - lia.
  - symmetry. apply Z.ltb_ge.
    assert (2 ^ Zpos (digits2_pos v) <= 2 ^ 52) by (apply Z.pow_le_mono_r; lia).
    change (2 ^ 52) with 4503599627370496 in *. lia.
Qed.

(** Clipping leaves an integer within the range of dates unchanged. *)
Lemma TimeClip_exact z : Z.abs z <= 8640000000000000 ->
  JS.TimeClip (JS.Number_of_bigint z) = JS.Number_of_bigint z.
Proof.
  intros Hz.
  assert (H53 : 8640000000000000 < 2 ^ 53) by reflexivity.
  destruct z as [|v|v]; [reflexivity| |]; cbn [Z.abs] in Hz.
  - assert (Hd : Zpos (digits2_pos v) <= 53) by (apply abs_digits; lia).
    rewrite (Number_exact_pos v Hd). unfold JS.TimeClip.
    rewrite (maxTime_exceeded_exact false v Hd).
    replace (8640000000000000 <? Zpos v) with false by (symmetry; apply Z.ltb_ge; lia).
    cbn [JS.is_finite exact_form negb]. fold (exact_form false v).
    rewrite (truncate_exact_form false v Hd). cbn [cond_Zopp].
    apply Number_exact_pos; assumption.
  - assert (Hd : Zpos (digits2_pos v) <= 53) by (apply abs_digits; lia).
    rewrite (Number_exact_neg v Hd). unfold JS.TimeClip.
    rewrite (maxTime_exceeded_exact true v Hd).
    replace (8640000000000000 <? Zpos v) with false by (symmetry; apply Z.ltb_ge; lia).
    cbn [JS.is_finite exact_form negb]. fold (exact_form true v).
    rewrite (truncate_exact_form true v Hd). cbn [cond_Zopp].
    apply Number_exact_neg; assumption.
Qed.

Lemma updatedAt_time u : 0 <= u <= 8640000000000 ->
  JS.timeValue (MyWorkflow.updatedAtDate u) = JS.Number_of_bigint (1000 * u).
Proof.
  intros Hu. unfold MyWorkflow.updatedAtDate, JS.new_Date, JS.lit. cbn [JS.timeValue].
  assert (H53 : 2 ^ 53 = 9007199254740992) by reflexivity.
  rewrite (mul_exact u 1000) by lia.
  rewrite (Z.mul_comm u 1000). apply TimeClip_exact. lia.
Qed.

(** Rounding never lowers the binade, and gives a mantissa of at most 53
    digits. *)
Lemma round_at_least (M : positive) E l :
  -1073 <= Zpos (digits2_pos M) + E ->
  at_least (binary_round_aux 53 1024 false (Zpos M) E l) (Zpos (digits2_pos M) + E).
Proof.
  intros HE.
  destruct (binary_round_aux_shape false M E l) as [m1 [Hm1 Hr]].
  cbv zeta in Hr. rewrite Hr. clear Hr. rewrite !fexp_eq. rewrite fexp_eq in Hm1.
  pose proof (digits2_bounds M) as HD.
  set (D := Zpos (digits2_pos M)) in *.
  assert (HDpos : 0 < D) by (unfold D; lia).
  set (n := Z.max (Z.max (D + E - 53) (-1074) - E) 0) in *.
  assert (Hn : 0 <= n <= D - 1) by (unfold n; lia).
  assert (Hm'lo : 2 ^ (D - 1 - n) <= Zpos M / 2 ^ n).
  { apply Z.div_le_lower_bound; [apply pow2_pos; lia|].
    rewrite <- Z.pow_add_r by lia. replace (n + (D - 1 - n)) with (D - 1) by lia. lia. }
  assert (Hp : 0 < 2 ^ (D - 1 - n)) by (apply pow2_pos; lia).
  destruct m1 as [|p1|p1]; [lia| |lia].
  cbn [Zdigits2].
  pose proof (digits2_bounds p1) as Hd1.
  assert (Hd1ge : D - n <= Zpos (digits2_pos p1)).
  { assert (D - 1 - n < Zpos (digits2_pos p1)); [|lia].
    apply pow2_lt_inv; lia. }
  set (d1 := Zpos (digits2_pos p1)) in *.
  set (e' := E + n) in *.
  set (n2 := Z.max (Z.max (d1 + e' - 53) (-1074) - e') 0) in *.
  assert (Hn2 : 0 <= n2 <= d1 - 1 /\ d1 - 53 <= n2) by (unfold n2, e'; lia).
  assert (Hm2hi : Zpos p1 / 2 ^ n2 < 2 ^ (d1 - n2)) by (apply div_pow2_lt; lia).
  assert (Hm2lo : 2 ^ (d1 - 1 - n2) <= Zpos p1 / 2 ^ n2).
  { apply Z.div_le_lower_bound; [apply pow2_pos; lia|].
    rewrite <- Z.pow_add_r by lia. replace (n2 + (d1 - 1 - n2)) with (d1 - 1) by lia. lia. }
  assert (Hp2 : 0 < 2 ^ (d1 - 1 - n2)) by (apply pow2_pos; lia).
  destruct (Zpos p1 / 2 ^ n2) as [|p2|p2] eqn:Ep2; [lia| |lia].
  destruct (e' + n2 <=? 1024 - 53); [|exact I].
  cbn [at_least].
  pose proof (digits2_bounds p2) as Hd2.
  apply digits_le_of_lt in Hm2hi.
  assert (d1 - 1 - n2 < Zpos (digits2_pos p2)) by (apply pow2_lt_inv; lia).
  unfold e'. lia.
Qed.

Lemma Number_at_least v : 54 <= Zpos (digits2_pos v) ->
  at_least (JS.Number_of_bigint (Zpos v)) (Zpos (digits2_pos v)).
Proof.
  intros Hd. unfold JS.Number_of_bigint, JS.prec, JS.emax. cbn [binary_normalize].
  unfold binary_round.
  pose proof (shl_align_spec v 0 (fexp 53 1024 (Zpos (digits2_pos v) + 0))) as Ha.
  destruct (shl_align v 0 _) as [mz ez].
  destruct Ha as (Hez & Hmz & Hdz). rewrite fexp_eq in Hez.
  pose proof (round_at_least mz ez loc_Exact ltac:(lia)) as Hr.
  rewrite Hdz in Hr. replace (Zpos (digits2_pos v) + 0) with (Zpos (digits2_pos v)) in Hr by lia.
  exact Hr.
Qed.

Lemma maxTime_exceeded x : at_least x 54 -> JS.lt JS.maxTime (SFabs x) = true.
Proof.
  change JS.maxTime with (S754_finite false 8640000000000000 0).
  destruct x as [s|s| |s m e]; cbn [at_least]; try contradiction.
  - destruct s; [contradiction|]. reflexivity.
  - destruct s; [contradiction|]. intros [Hk Hd].
    unfold JS.lt, SFltb. cbn [SFabs SFcompare].
    replace (0 ?= e) with Lt; [reflexivity|]. symmetry. apply Z.compare_lt_iff. lia.
Qed.

Lemma mul_1000_at_least x : at_least x 54 -> at_least (JS.mul x (JS.lit 1000)) 54.
Proof.
  change (JS.lit 1000) with (S754_finite false 8796093022208000 (-43)).
  unfold JS.mul, JS.prec, JS.emax.
  destruct x as [s|s| |s m e]; cbn [at_least]; try contradiction.
  - destruct s; [contradiction|]. intros _. exact I.
  - destruct s; [contradiction|]. intros [Hk Hd]. cbn [SFmul xorb].
    pose proof (digits2_bounds m) as Hm.
    pose proof (digits2_bounds (m * 8796093022208000)) as Hp.
    assert (0 < Zpos (digits2_pos m)) by lia.
    assert (HD : Zpos (digits2_pos m) + 52 <= Zpos (digits2_pos (m * 8796093022208000))).
    { assert (Zpos (digits2_pos m) - 1 + 52 < Zpos (digits2_pos (m * 8796093022208000)));
        [|lia].
      apply pow2_lt_inv; [lia|].
      rewrite Z.pow_add_r by lia. rewrite Pos2Z.inj_mul in Hp.
      change (2 ^ 52) with 4503599627370496. lia. }
    pose proof (round_at_least (m * 8796093022208000) (e + -43) loc_Exact ltac:(lia)) as Hr.
    destruct (binary_round_aux 53 1024 false _ _ _) as [s'|s'| |s' m' e'];
      cbn [at_least] in *; try contradiction.
    + exact Hr.
    + destruct s'; [contradiction|]. lia.
Qed.

(** Beyond the last date, the product itself is beyond it. *)
Lemma beyond_last_date u : 8640000000000 < u ->
  JS.lt JS.maxTime (SFabs (JS.mul (JS.Number_of_bigint u) (JS.lit 1000))) = true.
Proof.
  intros Hu.
  assert (H53 : 2 ^ 53 = 9007199254740992) by reflexivity.
  destruct (Z_lt_le_dec (1000 * u) (2 ^ 53)) as [Hs|Hs].
  - unfold JS.lit. rewrite (mul_exact u 1000) by lia.
    destruct (u * 1000) as [|v|v] eqn:Ev; [lia| |lia].
    assert (Hd : Zpos (digits2_pos v) <= 53) by (apply abs_digits; lia).
    rewrite (Number_exact_pos v Hd), (maxTime_exceeded_exact false v Hd).
    apply Z.ltb_lt. lia.
  - destruct (Z_lt_le_dec u (2 ^ 53)) as [Hu53|Hu53].
    + apply maxTime_exceeded.
      destruct u as [|v|v]; [lia| |lia].
      assert (Hd : Zpos (digits2_pos v) <= 53) by (apply abs_digits; lia).
      rewrite (Number_exact_pos v Hd).
      change (JS.lit 1000) with (S754_finite false 8796093022208000 (-43)).
      unfold exact_form, JS.mul, JS.prec, JS.emax. cbn [SFmul xorb].
      pose proof (exact_form_pos v Hd) as HP.
      pose proof (digits2_bounds v) as Hb.
      set (d := Zpos (digits2_pos v)) in *.
      assert (0 < d) by (unfold d; lia).
      set (P := Z.to_pos (Zpos v * 2 ^ (53 - d))) in *.
      pose proof (digits2_bounds (P * 8796093022208000)) as HB.
      assert (HD : 150 - d <= Zpos (digits2_pos (P * 8796093022208000))).
      { assert (149 - d < Zpos (digits2_pos (P * 8796093022208000))); [|lia].
        apply pow2_lt_inv; [lia|].
        apply Z.le_lt_trans with (Zpos (P * 8796093022208000)); [|lia].
        rewrite Pos2Z.inj_mul, HP.
        replace (149 - d) with (96 + (53 - d)) by lia. rewrite Z.pow_add_r by lia.
        change (2 ^ 96) with (9007199254740992 * 8796093022208).
        assert (0 < 2 ^ (53 - d)) by (apply pow2_pos; lia).
        transitivity (1000 * Zpos v * 8796093022208 * 2 ^ (53 - d)); [|lia].
        apply Z.mul_le_mono_nonneg_r; [lia|]. lia. }
      pose proof (round_at_least (P * 8796093022208000) (d - 53 + -43) loc_Exact
                    ltac:(lia)) as Hr.
      destruct (binary_round_aux 53 1024 false _ _ _) as [s'|s'| |s' m' e'];
        cbn [at_least] in *; try contradiction.
      * exact Hr.
      * destruct s'; [contradiction|]. lia.
    + apply maxTime_exceeded, mul_1000_at_least.
      destruct u as [|v|v]; [lia| |lia].
      assert (Hd : 54 <= Zpos (digits2_pos v)).
      { pose proof (digits2_bounds v).
        assert (53 < Zpos (digits2_pos v)); [|lia]. apply pow2_lt_inv; lia. }
      pose proof (Number_at_least v Hd) as Hn.
      destruct (JS.Number_of_bigint (Zpos v)) as [s'|s'| |s' m' e'];
        cbn [at_least] in *; try contradiction.
      * exact Hn.
      * destruct s'; [contradiction|]. lia.
Qed.

Lemma updatedAt_time_beyond u : 8640000000000 < u ->
  JS.timeValue (MyWorkflow.updatedAtDate u) = JS.NaN.
Proof.
  intros Hu. unfold MyWorkflow.updatedAtDate, JS.new_Date. cbn [JS.timeValue].
  unfold JS.TimeClip. rewrite (beyond_last_date u Hu).
  destruct (negb _); reflexivity.
Qed.

Lemma Number_is_finite z : Z.abs z < 2 ^ 53 -> JS.is_finite (JS.Number_of_bigint z) = true.
Proof.
  intros Hz. pose proof (Number_within z Hz) as Hw.
  destruct (JS.Number_of_bigint z); cbn [within] in Hw; try contradiction; reflexivity.
Qed.

Lemma toISOString_in_range u : 0 <= u <= 8640000000000 ->
  JS.toISOString (MyWorkflow.updatedAtDate u) = Some (JS.Number_of_bigint (1000 * u)).
Proof.
  intros Hu. unfold JS.toISOString. rewrite (updatedAt_time u Hu).
  rewrite Number_is_finite; [reflexivity|].
  change (2 ^ 53) with 9007199254740992. lia.
Qed.

Lemma toISOString_beyond u : 8640000000000 < u ->
  JS.toISOString (MyWorkflow.updatedAtDate u) = None.
Proof.
  intros Hu. unfold JS.toISOString. rewrite (updatedAt_time_beyond u Hu). reflexivity.
Qed.

(* ================================================================== *)
(** * Staleness in integers *)
(* ================================================================== *)

Lemma staleness_exact clock u :
  0 <= clock <= 8640000000000000 -> 0 <= u <= 8640000000000 ->
  MyWorkflow.stalenessMinutes (JS.Number_of_bigint clock) (MyWorkflow.updatedAtDate u)
  = JS.div (JS.Number_of_bigint (clock - 1000 * u)) (JS.lit 60000).
Proof.
  intros Hc Hu. unfold MyWorkflow.stalenessMinutes, JS.getTime.
  rewrite (updatedAt_time u Hu).
  assert (H53 : 2 ^ 53 = 9007199254740992) by reflexivity.
  rewrite sub_exact by lia. reflexivity.
Qed.

(** X13. For a clock after the epoch and a date of update within the
    range of dates, the milliseconds of staleness are computed without
    error: the multiplication by 1000, the clipping of the date and the
    subtraction are exact, so that the staleness is the integer
    [clock - 1000 * updatedAt] divided once by 60000. *)
Theorem staleness_rounds_once (clock u : Z) :
  0 <= clock <= 8640000000000000 -> 0 <= u <= 8640000000000 ->
  MyWorkflow.stalenessMinutes (JS.Number_of_bigint clock) (MyWorkflow.updatedAtDate u)
  = JS.div (JS.Number_of_bigint (clock - 1000 * u)) (JS.lit 60000) /\
  Part000.stalenessMinutes (JS.Number_of_bigint clock) (Part000.updatedAtDate u)
  = JS.div (JS.Number_of_bigint (clock - 1000 * u)) (JS.lit 60000).
Proof.
  intros Hc Hu. split; apply staleness_exact; assumption.
Qed.

Lemma staleness_rounds_once_witness :
  0 <= 1700000000000 <= 8640000000000000 /\
  0 <= 1699998500 <= 8640000000000 /\
  MyWorkflow.stalenessMinutes (JS.Number_of_bigint 1700000000000)
    (MyWorkflow.updatedAtDate 1699998500)
  = JS.div (JS.Number_of_bigint 1500000) (JS.lit 60000).
Proof.
  assert (Hc : 0 <= 1700000000000 <= 8640000000000000) by lia.
  assert (Hu : 0 <= 1699998500 <= 8640000000000) by lia.
  split; [exact Hc|]. split; [exact Hu|].
  exact (proj1 (staleness_rounds_once 1700000000000 1699998500 Hc Hu)).
Defined.

(** X14. With the three replies decoded, the date of update (an unsigned
    number of seconds) decides between the two outcomes: up to
    8640000000000 seconds a summary is returned, beyond it both handlers
    fail with the RangeError of [toISOString]. *)
Theorem range_error_iff_beyond_last_date (h : Host) cfg selector desc dec round :
  decoded h cfg selector desc dec round -> 0 <= updatedAt round ->
  (fst (MyWorkflow.onCronTrigger h initial) = inl RangeError
     <-> 8640000000000 < updatedAt round) /\
  (fst (Part000.onCronTrigger h initial) = inl RangeError
     <-> 8640000000000 < updatedAt round) /\
  ((exists s, fst (MyWorkflow.onCronTrigger h initial) = inr s)
     <-> updatedAt round <= 8640000000000) /\
  ((exists s, fst (Part000.onCronTrigger h initial) = inr s)
     <-> updatedAt round <= 8640000000000).
Proof.
  intros ([Hc Hn] & Hd1 & Hd2 & Hd3) Hu.
  destruct (Z_le_gt_dec (updatedAt round) 8640000000000) as [Hr|Hr].
  - pose proof (toISOString_in_range (updatedAt round) ltac:(lia)) as Hi.
    unfold_run. known.
    repeat split; intros H; try discriminate H; try lia; eexists; reflexivity.
  - pose proof (toISOString_beyond (updatedAt round) ltac:(lia)) as Hi.
    unfold_run. known.
    repeat split; intros H; try reflexivity; try lia;
      destruct H as [s H]; discriminate H.
Qed.

Lemma range_error_iff_beyond_last_date_witness :
  decoded Samples.hostFarFuture Cases.goodTyped Samples.baseSelector
    "ETH / USD" 8 Samples.roundFarFuture /\
  0 <= updatedAt Samples.roundFarFuture /\
  fst (MyWorkflow.onCronTrigger Samples.hostFarFuture initial) = inl RangeError.
Proof.
  assert (H : decoded Samples.hostFarFuture Cases.goodTyped Samples.baseSelector
                "ETH / USD" 8 Samples.roundFarFuture)
    by (repeat split; reflexivity).
  assert (H0 : 0 <= updatedAt Samples.roundFarFuture) by (vm_compute; discriminate).
  split; [exact H|]. split; [exact H0|].
  destruct (range_error_iff_beyond_last_date Samples.hostFarFuture Cases.goodTyped
              Samples.baseSelector "ETH / USD" 8%N Samples.roundFarFuture H H0)
    as [[_ W] _].
  apply W. vm_compute. reflexivity.
Defined.

Lemma round_sign s m e l :
  match binary_round_aux 53 1024 s m e l with
  | S754_zero s' | S754_infinity s' | S754_finite s' _ _ => s' = s
  | S754_nan => True
  end.
Proof.
  unfold binary_round_aux.
  destruct (shr_fexp 53 1024 m e l) as [mrs' e'].
  destruct (shr_fexp 53 1024 _ e' loc_Exact) as [mrs'' e''].
  destruct (shr_m mrs'') as [|p|p]; [reflexivity| |exact I].
  destruct (e'' <=? 1024 - 53); reflexivity.
Qed.

Lemma div_sign sx mx ex sy my ey :
  match JS.div (S754_finite sx mx ex) (S754_finite sy my ey) with
  | S754_zero s' | S754_infinity s' | S754_finite s' _ _ => s' = xorb sx sy
  | S754_nan => True
  end.
Proof.
  unfold JS.div, JS.prec, JS.emax. cbn [SFdiv].
  destruct (SFdiv_core_binary 53 1024 (Zpos mx) ex (Zpos my) ey) as [[q e'] l].
  apply round_sign.
Qed.

(** The quotient by 60000 of a negative integer of at most 53 bits is at
    most zero. *)
Lemma div_60000_negative v : Zpos v < 2 ^ 53 ->
  JS.le (JS.div (JS.Number_of_bigint (Zneg v)) (JS.lit 60000)) (JS.lit 0) = true.
Proof.
  intros Hv.
  pose proof (Number_within (Zneg v) Hv) as Hw.
  assert (Hw' : within (JS.Number_of_bigint (Zneg v)) (-104) 57).
  { destruct (JS.Number_of_bigint (Zneg v)); cbn [within] in *; try contradiction;
      [exact I|lia]. }
  pose proof (div_60000_within _ Hw') as Hq.
  rewrite (Number_exact_neg v) in * by (apply abs_digits; assumption).
  change (JS.lit 60000) with (S754_finite false 8246337208320000 (-37)) in *.
  unfold exact_form in *.
  pose proof (div_sign true (Z.to_pos (Zpos v * 2 ^ (53 - Zpos (digits2_pos v))))
                (Zpos (digits2_pos v) - 53) false 8246337208320000 (-37)) as Hs.
  destruct (JS.div _ _) as [s'|s'| |s' m' e']; cbn [within] in Hq; try contradiction;
    cbn [xorb] in Hs; subst s'; reflexivity.
Qed.

(** X15. Nothing guards against a date of update ahead of the clock: the
    staleness is then zero or negative, and with a positive threshold
    (which the schema enforces) the feed is classified OK. *)
Theorem update_in_the_future_is_ok (clock u : Z) (t : JS.number) :
  0 <= clock -> clock <= 1000 * u -> u <= 8640000000000 ->
  JS.lt (JS.lit 0) t = true ->
  MyWorkflow.classify
    (MyWorkflow.stalenessMinutes (JS.Number_of_bigint clock) (MyWorkflow.updatedAtDate u)) t
  = "OK" /\
  Part000.classify
    (Part000.stalenessMinutes (JS.Number_of_bigint clock) (Part000.updatedAtDate u)) t
  = "OK".
Proof.
  intros Hc Hcu Hu Ht.
  change Part000.classify with MyWorkflow.classify.
  change Part000.stalenessMinutes with MyWorkflow.stalenessMinutes.
  change Part000.updatedAtDate with MyWorkflow.updatedAtDate.
  rewrite staleness_exact by lia.
  assert (Hlt : JS.lt (JS.div (JS.Number_of_bigint (clock - 1000 * u)) (JS.lit 60000)) t
                = true).
  { destruct (clock - 1000 * u) as [|v|v] eqn:Ed; [exact Ht|lia|].
    apply (SFleb_SFltb_trans _ (JS.lit 0)); [|exact Ht].
    apply div_60000_negative.
    change (2 ^ 53) with 9007199254740992. lia. }
  unfold MyWorkflow.classify. rewrite Hlt. split; reflexivity.
Qed.

Lemma update_in_the_future_is_ok_witness :
  0 <= 1700000000000 /\ 1700000000000 <= 1000 * 1700003600 /\
  1700003600 <= 8640000000000 /\ JS.lt (JS.lit 0) (JS.lit 10) = true /\
  MyWorkflow.classify
    (MyWorkflow.stalenessMinutes (JS.Number_of_bigint 1700000000000)
       (MyWorkflow.updatedAtDate 1700003600)) (JS.lit 10) = "OK".
Proof.
  assert (Hc : 0 <= 1700000000000) by lia.
  assert (Hcu : 1700000000000 <= 1000 * 1700003600) by lia.
  assert (Hu : 1700003600 <= 8640000000000) by lia.
  assert (Ht : JS.lt (JS.lit 0) (JS.lit 10) = true) by reflexivity.
  split; [exact Hc|]. split; [exact Hcu|]. split; [exact Hu|]. split; [exact Ht|].
  exact (proj1 (update_in_the_future_is_ok 1700000000000 1700003600 (JS.lit 10)
                  Hc Hcu Hu Ht)).
Defined.

(* ================================================================== *)
(** * Whole minutes *)
(* ================================================================== *)

Lemma digits_unique p k : 2 ^ (k - 1) <= Zpos p < 2 ^ k -> Zpos (digits2_pos p) = k.
Proof.
  intros [Hlo Hhi]. pose proof (digits2_bounds p) as [Hl Hh].
  assert (0 < k).
  { destruct (Z_lt_le_dec 0 k); [assumption|].
    destruct (Z.eq_dec k 0) as [->|]; [cbn in Hhi; lia|].
    rewrite Z.pow_neg_r in Hhi by lia. lia. }
  apply digits_le_of_lt in Hhi.
  assert (k - 1 < Zpos (digits2_pos p)); [|lia].
  apply pow2_lt_inv; lia.
Qed.

Lemma exact_form_digits v : Zpos (digits2_pos v) <= 53 ->
  Zpos (digits2_pos (Z.to_pos (Zpos v * 2 ^ (53 - Zpos (digits2_pos v))))) = 53.
Proof.
  intros Hd.
  rewrite (digits_mul_pow2 _ v (53 - Zpos (digits2_pos v))); [lia|lia|].
  apply exact_form_pos; assumption.
Qed.

(** The order of two positive numbers with full mantissas is the order of
    their values at a common scale. *)
Lemma lt_normal m1 e1 m2 e2 c :
  Zpos (digits2_pos m1) = 53 -> Zpos (digits2_pos m2) = 53 -> c <= e1 -> c <= e2 ->
  JS.lt (S754_finite false m1 e1) (S754_finite false m2 e2)
  = (Zpos m1 * 2 ^ (e1 - c) <? Zpos m2 * 2 ^ (e2 - c)).
Proof.
  intros H1 H2 Hc1 Hc2.
  pose proof (digits2_bounds m1) as B1. pose proof (digits2_bounds m2) as B2.
  rewrite H1 in B1. rewrite H2 in B2.
  change (2 ^ (53 - 1)) with 4503599627370496 in *.
  change (2 ^ 53) with 9007199254740992 in *.
  unfold JS.lt, SFltb. cbn [SFcompare].
  destruct (Z.compare_spec e1 e2) as [He|He|He].
  - subst e2. change (Pos.compare_cont Eq m1 m2) with (Pos.compare m1 m2).
    assert (Hp : 0 < 2 ^ (e1 - c)) by (apply pow2_pos; lia).
    destruct (Pos.compare_spec m1 m2) as [Hm|Hm|Hm]; symmetry.
    + subst. apply Z.ltb_irrefl.
    + apply Z.ltb_lt. apply Z.mul_lt_mono_pos_r; [assumption|lia].
    + apply Z.ltb_ge. apply Z.mul_le_mono_nonneg_r; lia.
  - symmetry. apply Z.ltb_lt.
    replace (e2 - c) with ((e2 - e1) + (e1 - c)) by lia.
    rewrite Z.pow_add_r by lia. rewrite Z.mul_assoc.
    apply Z.mul_lt_mono_pos_r; [apply pow2_pos; lia|].
    assert (2 ^ 1 <= 2 ^ (e2 - e1)) by (apply Z.pow_le_mono_r; lia).
    change (2 ^ 1) with 2 in *. nia.
  - symmetry. apply Z.ltb_ge.
    replace (e1 - c) with ((e1 - e2) + (e2 - c)) by lia.
    rewrite Z.pow_add_r by lia. rewrite Z.mul_assoc.
    apply Z.mul_le_mono_nonneg_r; [apply Z.pow_nonneg; lia|].
    assert (2 ^ 1 <= 2 ^ (e1 - e2)) by (apply Z.pow_le_mono_r; lia).
    change (2 ^ 1) with 2 in *. nia.
Qed.

(** Rounding of a mantissa of 53 digits or more: one shift, one increment
    and at most one more shift, leaving a full mantissa. *)
Lemma round_normal s (M : positive) E l :
  53 <= Zpos (digits2_pos M) -> -1074 <= E -> Zpos (digits2_pos M) + E <= 1000 ->
  exists m1 n2 mf,
    Zpos M / 2 ^ (Zpos (digits2_pos M) - 53) <= m1
      <= Zpos M / 2 ^ (Zpos (digits2_pos M) - 53) + 1 /\
    0 <= n2 <= 1 /\ Zpos mf = m1 / 2 ^ n2 /\ Zpos (digits2_pos mf) = 53 /\
    binary_round_aux 53 1024 s (Zpos M) E l
    = S754_finite s mf (E + (Zpos (digits2_pos M) - 53) + n2).
Proof.
  intros HD HE Hhi.
  destruct (binary_round_aux_shape s M E l) as [m1 [Hm1 Hr]].
  cbv zeta in Hr. rewrite Hr. clear Hr. rewrite !fexp_eq. rewrite fexp_eq in Hm1.
  pose proof (digits2_bounds M) as HB.
  set (D := Zpos (digits2_pos M)) in *.
  replace (Z.max (Z.max (D + E - 53) (-1074) - E) 0) with (D - 53) in * by lia.
  assert (Hm'lo : 2 ^ 52 <= Zpos M / 2 ^ (D - 53)).
  { apply Z.div_le_lower_bound; [apply pow2_pos; lia|].
    rewrite <- Z.pow_add_r by lia. replace (D - 53 + 52) with (D - 1) by lia. lia. }
  assert (Hm'hi : Zpos M / 2 ^ (D - 53) < 2 ^ 53).
  { replace 53 with (D - (D - 53)) at 2 by lia. apply div_pow2_lt; lia. }
  change (2 ^ 52) with 4503599627370496 in *.
  change (2 ^ 53) with 9007199254740992 in *.
  destruct m1 as [|p1|p1]; [lia| |lia].
  cbn [Zdigits2].
  pose proof (digits2_bounds p1) as Hd1.
  assert (Hd1lo : 53 <= Zpos (digits2_pos p1)).
  { assert (52 < Zpos (digits2_pos p1)); [|lia].
    apply pow2_lt_inv; [lia|]. change (2 ^ 52) with 4503599627370496. lia. }
  assert (Hd1hi : Zpos (digits2_pos p1) <= 54).
  { apply digits_le_of_lt. change (2 ^ 54) with 18014398509481984. lia. }
  set (d1 := Zpos (digits2_pos p1)) in *.
  replace (Z.max (Z.max (d1 + (E + (D - 53)) - 53) (-1074) - (E + (D - 53))) 0)
    with (d1 - 53) by lia.
  assert (Hflo : 2 ^ 52 <= Zpos p1 / 2 ^ (d1 - 53)).
  { apply Z.div_le_lower_bound; [apply pow2_pos; lia|].
    rewrite <- Z.pow_add_r by lia. replace (d1 - 53 + 52) with (d1 - 1) by lia. lia. }
  assert (Hfhi : Zpos p1 / 2 ^ (d1 - 53) < 2 ^ 53).
  { replace 53 with (d1 - (d1 - 53)) at 2 by lia. apply div_pow2_lt; lia. }
  destruct (Zpos p1 / 2 ^ (d1 - 53)) as [|mf|mf] eqn:Emf;
    [change (2 ^ 52) with 4503599627370496 in Hflo; lia| |lia].
  exists (Zpos p1), (d1 - 53), mf.
  split; [exact Hm1|]. split; [lia|]. split; [symmetry; exact Emf|].
  split; [apply digits_unique; change (53 - 1) with 52; lia|].
  replace (E + (D - 53) + (d1 - 53) <=? 1024 - 53) with true
    by (symmetry; apply Z.leb_le; lia).
  reflexivity.
Qed.

(** The quotient by 60000 of a positive integer of at most 53 bits, before
    rounding. *)
Lemma div_60000_core s v : Zpos (digits2_pos v) <= 53 ->
  exists q l,
    Zpos q = (Zpos v * 2 ^ (106 - Zpos (digits2_pos v))) / 8246337208320000 /\
    53 <= Zpos (digits2_pos q) <= 54 /\
    JS.div (exact_form s v) (JS.lit 60000)
    = binary_round_aux 53 1024 s (Zpos q) (Zpos (digits2_pos v) - 69) l.
Proof.
  intros Hd.
  change (JS.lit 60000) with (S754_finite false 8246337208320000 (-37)).
  unfold JS.div, JS.prec, JS.emax, exact_form. cbn [SFdiv].
  pose proof (exact_form_digits v Hd) as HD.
  pose proof (exact_form_pos v Hd) as HP.
  pose proof (digits2_bounds v) as Hb.
  set (d := Zpos (digits2_pos v)) in *.
  assert (0 < d) by (unfold d; lia).
  set (mx := Z.to_pos (Zpos v * 2 ^ (53 - d))) in *.
  pose proof (digits2_bounds mx) as Hmx. rewrite HD in Hmx.
  unfold SFdiv_core_binary. cbn [Zdigits2].
  change (Zpos (digits2_pos 8246337208320000)) with 53.
  rewrite HD, fexp_eq.
  replace (Z.min (Z.max (53 + (d - 53) - (53 + -37) - 53) (-1074)) (d - 53 - -37))
    with (d - 69) by lia.
  replace (d - 53 - -37 - (d - 69)) with 53 by lia.
  rewrite Z.shiftl_mul_pow2 by lia.
  assert (Hm' : Zpos mx * 2 ^ 53 = Zpos v * 2 ^ (106 - d)).
  { rewrite HP, <- Z.mul_assoc, <- Z.pow_add_r by lia. f_equal. f_equal. lia. }
  rewrite Hm'.
  set (m' := Zpos v * 2 ^ (106 - d)) in *.
  assert (Hm'lo : 2 ^ 105 <= m').
  { rewrite <- Hm'. change (2 ^ 105) with (2 ^ (53 - 1) * 2 ^ 53).
    apply Z.mul_le_mono_nonneg_r; lia. }
  assert (Hm'hi : m' < 2 ^ 106).
  { rewrite <- Hm'. change (2 ^ 106) with (2 ^ 53 * 2 ^ 53).
    apply Z.mul_lt_mono_pos_r; lia. }
  assert (Hq : Z.div_eucl m' 8246337208320000
               = (m' / 8246337208320000, m' mod 8246337208320000)).
  { unfold Z.div, Z.modulo. destruct (Z.div_eucl m' 8246337208320000). reflexivity. }
  rewrite Hq.
  assert (Hqlo : 2 ^ 52 <= m' / 8246337208320000).
  { apply Z.div_le_lower_bound; [lia|].
    change (2 ^ 52) with 4503599627370496.
    change (2 ^ 105) with 40564819207303340847894502572032 in Hm'lo. lia. }
  assert (Hqhi : m' / 8246337208320000 < 2 ^ 54).
  { apply Z.div_lt_upper_bound; [lia|].
    change (2 ^ 54) with 18014398509481984.
    change (2 ^ 106) with 81129638414606681695789005144064 in Hm'hi. lia. }
  destruct (m' / 8246337208320000) as [|q|q] eqn:Eq;
    [change (2 ^ 52) with 4503599627370496 in Hqlo; lia| |lia].
  exists q, (new_location 8246337208320000 (m' mod 8246337208320000)).
  split; [reflexivity|]. split.
  - split; [|apply digits_le_of_lt; assumption].
    pose proof (digits2_bounds q).
    assert (52 < Zpos (digits2_pos q)); [|lia]. apply pow2_lt_inv; lia.
  - destruct s; reflexivity.
Qed.

(** Against a whole number of minutes, the rounded quotient by 60000
    compares as the exact one: the rounding error of the division never
    crosses an integer. *)
Lemma div_60000_lt_integer v k :
  Zpos v < 2 ^ 52 -> Zpos k < 2 ^ 53 ->
  JS.lt (JS.div (JS.Number_of_bigint (Zpos v)) (JS.lit 60000)) (JS.Number_of_bigint (Zpos k))
  = (Zpos v <? 60000 * Zpos k).
Proof.
  intros Hv Hk.
  assert (Hdv : Zpos (digits2_pos v) <= 52) by (apply digits_le_of_lt; assumption).
  assert (Hdk : Zpos (digits2_pos k) <= 53) by (apply digits_le_of_lt; assumption).
  rewrite (Number_exact_pos v) by lia. rewrite (Number_exact_pos k Hdk).
  destruct (div_60000_core false v ltac:(lia)) as (q & l & Hq & Hdq & Hdiv).
  rewrite Hdiv. clear Hdiv.
  pose proof (digits2_bounds v) as Bv. pose proof (digits2_bounds k) as Bk.
  set (dv := Zpos (digits2_pos v)) in *. set (dk := Zpos (digits2_pos k)) in *.
  assert (0 < dv) by (unfold dv; lia). assert (0 < dk) by (unfold dk; lia).
  destruct (round_normal false q (dv - 69) l ltac:(lia) ltac:(lia) ltac:(lia))
    as (m1 & n2 & mf & Hm1 & Hn2 & Hmf & Hdf & Hr).
  rewrite Hr. clear Hr.
  set (n := Zpos (digits2_pos q) - 53) in *.
  assert (Hn : 0 <= n <= 1) by (unfold n; lia).
  unfold exact_form. fold dk.
  pose proof (exact_form_pos k Hdk) as HPk. fold dk in HPk.
  pose proof (exact_form_digits k Hdk) as HDk. fold dk in HDk.
  set (mk := Z.to_pos (Zpos k * 2 ^ (53 - dk))) in *.
  rewrite (lt_normal mf (dv - 69 + n + n2) mk (dk - 53) (-68) Hdf HDk) by lia.
  (* the scales *)
  set (a := 69 - dv) in *.
  set (X := 2 ^ (a - n - n2)).
  set (P := 2 ^ n) in *. set (P2 := 2 ^ n2) in *.
  assert (HX : 0 < X) by (apply pow2_pos; unfold a; lia).
  assert (HP : 1 <= P <= 2).
  { unfold P. split; [change 1 with (2 ^ 0)|change 2 with (2 ^ 1) at 2];
      apply Z.pow_le_mono_r; lia. }
  assert (HP2 : 1 <= P2 <= 2).
  { unfold P2. split; [change 1 with (2 ^ 0)|change 2 with (2 ^ 1) at 2];
      apply Z.pow_le_mono_r; lia. }
  assert (HXPP : X * P * P2 = 2 ^ a).
  { unfold X, P, P2. rewrite <- !Z.pow_add_r by (unfold a; lia). f_equal. lia. }
  assert (Ha : 131072 <= 2 ^ a).
  { change 131072 with (2 ^ 17). apply Z.pow_le_mono_r; unfold a; lia. }
  assert (HW : 2 ^ (106 - dv) = 137438953472 * 2 ^ a).
  { change 137438953472 with (2 ^ 37). rewrite <- Z.pow_add_r by (unfold a; lia).
    f_equal. unfold a. lia. }
  rewrite HW in Hq.
  set (Y := 2 ^ (dv - 69 + n + n2 - -68)).
  assert (HY : 0 < Y) by (apply pow2_pos; lia).
  assert (HK : Zpos mk * 2 ^ (dk - 53 - -68) = Zpos k * X * Y).
  { rewrite HPk. unfold X, Y.
    rewrite <- !Z.mul_assoc, <- !Z.pow_add_r by (unfold a; lia).
    f_equal. f_equal. unfold a. lia. }
  rewrite HK. clear HK.
  assert (Hcore : (Zpos v < 60000 * Zpos k -> Zpos mf < Zpos k * X) /\
                  (60000 * Zpos k <= Zpos v -> Zpos k * X <= Zpos mf)).
  { rewrite Hmf. clearbody X P P2 a. clear Y HY.
    set (Kf := Zpos k * X) in *.
    assert (HKg : P * (P2 * Kf) = Zpos k * 2 ^ a).
    { rewrite <- HXPP. unfold Kf. ring. }
    split; intros Hc.
    - apply Z.div_lt_upper_bound; [lia|].
      assert (Hq3 : Zpos q < Zpos k * 2 ^ a - 2).
      { rewrite Hq. apply Z.div_lt_upper_bound; [lia|].
        assert (Zpos v * 2 ^ a <= (60000 * Zpos k - 1) * 2 ^ a)
          by (apply Z.mul_le_mono_nonneg_r; lia).
        lia. }
      assert (Hq1 : Zpos q / P < P2 * Kf - 1).
      { apply Z.div_lt_upper_bound; [lia|].
        rewrite Z.mul_sub_distr_l, HKg. lia. }
      lia.
    - apply Z.div_le_lower_bound; [lia|].
      assert (Hq3 : Zpos k * 2 ^ a <= Zpos q).
      { rewrite Hq. apply Z.div_le_lower_bound; [lia|].
        assert (60000 * Zpos k * 2 ^ a <= Zpos v * 2 ^ a)
          by (apply Z.mul_le_mono_nonneg_r; lia).
        lia. }
      assert (Hq1 : P2 * Kf <= Zpos q / P).
      { apply Z.div_le_lower_bound; [lia|]. rewrite HKg. exact Hq3. }
      lia. }
  destruct Hcore as [Hlt Hge].
  destruct (Z.ltb_spec (Zpos v) (60000 * Zpos k)) as [Hc|Hc].
  - apply Z.ltb_lt. apply Z.mul_lt_mono_pos_r; [assumption|]. apply Hlt; assumption.
  - apply Z.ltb_ge. apply Z.mul_le_mono_nonneg_r; [lia|]. apply Hge; assumption.
Qed.

Lemma staleness_lt_integer d k :
  - 2 ^ 53 < d < 2 ^ 52 -> Zpos k < 2 ^ 53 ->
  JS.lt (JS.div (JS.Number_of_bigint d) (JS.lit 60000)) (JS.Number_of_bigint (Zpos k))
  = (d <? 60000 * Zpos k).
Proof.
  intros Hd Hk.
  assert (H0 : JS.lt (JS.lit 0) (JS.Number_of_bigint (Zpos k)) = true).
  { rewrite (Number_exact_pos k) by (apply abs_digits; assumption). reflexivity. }
  destruct d as [|v|v].
  - replace (0 <? 60000 * Zpos k) with true by (symmetry; apply Z.ltb_lt; lia).
    exact H0.
  - apply div_60000_lt_integer; lia.
  - replace (Zneg v <? 60000 * Zpos k) with true by (symmetry; apply Z.ltb_lt; lia).
    apply (SFleb_SFltb_trans _ (JS.lit 0)); [|exact H0].
    apply div_60000_negative. lia.
Qed.

(** X16. With a threshold of a whole number [T] of minutes, the rounding
    of the division never moves a feed across a boundary: the status is
    decided by the elapsed milliseconds [d = clock - 1000 * updatedAt]
    alone, OK below [60000 * T], WARN from there and below [180000 * T],
    FAIL from [180000 * T] on. *)
Theorem whole_minute_thresholds (clock u T : Z) :
  0 <= clock < 2 ^ 52 -> 0 <= u <= 8640000000000 -> 1 <= T -> 3 * T < 2 ^ 53 ->
  let d := clock - 1000 * u in
  let expected := if d <? 60000 * T then "OK"
                  else if d <? 180000 * T then "WARN" else "FAIL" in
  MyWorkflow.classify
    (MyWorkflow.stalenessMinutes (JS.Number_of_bigint clock) (MyWorkflow.updatedAtDate u))
    (JS.Number_of_bigint T) = expected /\
  Part000.classify
    (Part000.stalenessMinutes (JS.Number_of_bigint clock) (Part000.updatedAtDate u))
    (JS.Number_of_bigint T) = expected.
Proof.
  intros Hc Hu HT HT3. cbv zeta.
  change Part000.classify with MyWorkflow.classify.
  change Part000.stalenessMinutes with MyWorkflow.stalenessMinutes.
  change Part000.updatedAtDate with MyWorkflow.updatedAtDate.
  assert (H52 : 2 ^ 52 = 4503599627370496) by reflexivity.
  assert (H53 : 2 ^ 53 = 9007199254740992) by reflexivity.
  rewrite staleness_exact by lia.
  unfold MyWorkflow.classify, JS.lit.
  rewrite (mul_exact T 3) by lia.
  destruct T as [|k|k]; [lia| |lia].
  change (Zpos k * 3) with (Zpos (k * 3)).
  rewrite !staleness_lt_integer by lia.
  replace (60000 * Zpos (k * 3)) with (180000 * Zpos k) by lia.
  split; reflexivity.
Qed.

Lemma whole_minute_thresholds_witness :
  0 <= 1700000000000 < 2 ^ 52 /\ 0 <= 1699999400 <= 8640000000000 /\
  1 <= 10 /\ 3 * 10 < 2 ^ 53 /\
  MyWorkflow.classify
    (MyWorkflow.stalenessMinutes (JS.Number_of_bigint 1700000000000)
       (MyWorkflow.updatedAtDate 1699999400))
    (JS.Number_of_bigint 10) = "WARN".
Proof.
  assert (Hc : 0 <= 1700000000000 < 2 ^ 52) by (split; [lia|reflexivity]).
  assert (Hu : 0 <= 1699999400 <= 8640000000000) by lia.
  assert (HT : 1 <= 10) by lia.
  assert (HT3 : 3 * 10 < 2 ^ 53) by reflexivity.
  split; [exact Hc|]. split; [exact Hu|]. split; [exact HT|]. split; [exact HT3|].
  exact (proj1 (whole_minute_thresholds 1700000000000 1699999400 10 Hc Hu HT HT3)).
Defined.

(* ================================================================== *)
(** * The price is a finite number *)
(* ================================================================== *)

Lemma binary_round_normal s v k :
  Zpos v < 2 ^ k -> 53 <= k <= 1000 ->
  normal (binary_round 53 1024 s v 0) s (-52) (k - 52).
Proof.
  intros Hv Hk.
  pose proof (digits2_bounds v) as Bv.
  pose proof (digits_le_of_lt v k Hv) as Hd.
  destruct (Z_le_gt_dec (Zpos (digits2_pos v)) 53) as [Hs|Hs].
  - change 0 with (- 0) at 1.
    rewrite (binary_round_exact s v v 0); [|lia|rewrite Z.pow_0_r; lia|assumption].
    unfold exact_form. cbn [normal].
    split; [reflexivity|]. split; [apply exact_form_digits; assumption|lia].
  - unfold binary_round.
    pose proof (shl_align_spec v 0 (fexp 53 1024 (Zpos (digits2_pos v) + 0))) as Ha.
    destruct (shl_align v 0 _) as [mz ez].
    destruct Ha as (Hez & Hmz & Hdz). rewrite fexp_eq in Hez.
    assert (E0 : ez = 0) by lia. clear Hez. subst ez.
    destruct (round_normal s mz 0 loc_Exact ltac:(lia) ltac:(lia) ltac:(lia))
      as (m1 & n2 & mf & _ & Hn2 & _ & Hdf & Hr).
    rewrite Hr. cbn [normal]. split; [reflexivity|]. split; [assumption|lia].
Qed.

Lemma Number_normal z k :
  z <> 0 -> Z.abs z < 2 ^ k -> 53 <= k <= 1000 ->
  normal (JS.Number_of_bigint z) (z <? 0) (-52) (k - 52).
Proof.
  intros Hz Ha Hk. unfold JS.Number_of_bigint, JS.prec, JS.emax.
  destruct z as [|v|v]; [contradiction| |]; cbn [binary_normalize Z.abs] in *;
    apply binary_round_normal; assumption.
Qed.

(** The quotient of two numbers with full mantissas, away from the ends of
    the exponent range, is a finite number with the sign of the
    operands. *)
Lemma div_normal sx mx ex sy my ey :
  Zpos (digits2_pos mx) = 53 -> Zpos (digits2_pos my) = 53 ->
  -1021 <= ex - ey <= 900 ->
  signum (JS.div (S754_finite sx mx ex) (S754_finite sy my ey))
  = Some (if xorb sx sy then -1 else 1).
Proof.
  intros Hx Hy He.
  unfold JS.div, JS.prec, JS.emax. cbn [SFdiv].
  pose proof (digits2_bounds mx) as Bx. rewrite Hx in Bx.
  pose proof (digits2_bounds my) as By. rewrite Hy in By.
  unfold SFdiv_core_binary. cbn [Zdigits2]. rewrite Hx, Hy, fexp_eq.
  replace (Z.min (Z.max (53 + ex - (53 + ey) - 53) (-1074)) (ex - ey))
    with (ex - ey - 53) by lia.
  replace (ex - ey - (ex - ey - 53)) with 53 by lia.
  rewrite Z.shiftl_mul_pow2 by lia.
  change (2 ^ (53 - 1)) with 4503599627370496 in *.
  change (2 ^ 53) with 9007199254740992 in *.
  set (m' := Zpos mx * 9007199254740992) in *.
  assert (Hq : Z.div_eucl m' (Zpos my) = (m' / Zpos my, m' mod Zpos my)).
  { unfold Z.div, Z.modulo. destruct (Z.div_eucl m' (Zpos my)). reflexivity. }
  rewrite Hq.
  assert (Hqlo : 2 ^ 52 <= m' / Zpos my).
  { apply Z.div_le_lower_bound; [lia|].
    change (2 ^ 52) with 4503599627370496. unfold m'. nia. }
  assert (Hqhi : m' / Zpos my < 2 ^ 54).
  { apply Z.div_lt_upper_bound; [lia|].
    change (2 ^ 54) with 18014398509481984. unfold m'. nia. }
  destruct (m' / Zpos my) as [|q|q] eqn:Eq;
    [change (2 ^ 52) with 4503599627370496 in Hqlo; lia| |lia].
  pose proof (digits2_bounds q) as Bq.
  assert (Hdq : 53 <= Zpos (digits2_pos q) <= 54).
  { split; [|apply digits_le_of_lt; assumption].
    assert (52 < Zpos (digits2_pos q)); [|lia]. apply pow2_lt_inv; lia. }
  destruct (round_normal (xorb sx sy) q (ex - ey - 53)
              (new_location (Zpos my) (m' mod Zpos my))
              ltac:(lia) ltac:(lia) ltac:(lia))
    as (m1 & n2 & mf & _ & _ & _ & _ & Hr).
  rewrite Hr. reflexivity.
Qed.

Lemma pow10_normal (d : N) : (d <= 255)%N -> normal (JS.pow10 d) false (-52) 796.
Proof.
  intros Hd. unfold JS.pow10.
  assert (Hpos : 0 < 10 ^ Z.of_N d) by (apply Z.pow_pos_nonneg; lia).
  assert (Hle : 10 ^ Z.of_N d <= 10 ^ 255) by (apply Z.pow_le_mono_r; lia).
  assert (Hlt : 10 ^ 255 < 2 ^ 848) by reflexivity.
  pose proof (Number_normal (10 ^ Z.of_N d) 848 ltac:(lia) ltac:(lia) ltac:(lia)) as Hn.
  replace (10 ^ Z.of_N d <? 0) with false in Hn by (symmetry; apply Z.ltb_ge; lia).
  exact Hn.
Qed.

Lemma price_signum answer dec :
  - 2 ^ 255 <= answer < 2 ^ 255 -> (dec <= 255)%N ->
  signum (MyWorkflow.price answer dec) = Some (Z.sgn answer).
Proof.
  intros Ha Hd. unfold MyWorkflow.price.
  pose proof (pow10_normal dec Hd) as Hp.
  destruct (JS.pow10 dec) as [sy|sy| |sy my ey]; cbn [normal] in Hp; try contradiction.
  destruct Hp as (-> & Hdy & Hey).
  destruct (Z.eq_dec answer 0) as [->|Hnz]; [reflexivity|].
  assert (H256 : 2 ^ 255 = 57896044618658097711785492504343953926634992332820282019728792003956564819968)
    by reflexivity.
  assert (H2 : 2 ^ 256 = 2 * 2 ^ 255) by reflexivity.
  pose proof (Number_normal answer 256 Hnz ltac:(lia) ltac:(lia)) as Hn.
  destruct (JS.Number_of_bigint answer) as [sx|sx| |sx mx ex]; cbn [normal] in Hn;
    try contradiction.
  destruct Hn as (-> & Hdx & Hex).
  rewrite (div_normal _ mx ex false my ey Hdx Hdy) by lia.
  f_equal. destruct answer; [contradiction| |]; reflexivity.
Qed.

(** X17. For every answer in the range of [int256] and every number of
    decimals in the range of [uint8], the price is a finite number with
    the sign of the answer: never NaN or an infinity, and zero only for a
    zero answer. *)
Theorem price_is_finite_with_the_sign_of_the_answer (answer : Z) (dec : N) :
  - 2 ^ 255 <= answer < 2 ^ 255 -> (dec <= 255)%N ->
  signum (MyWorkflow.price answer dec) = Some (Z.sgn answer) /\
  signum (Part000.price answer dec) = Some (Z.sgn answer).
Proof.
  intros Ha Hd. split; apply price_signum; assumption.
Qed.

Lemma price_is_finite_with_the_sign_of_the_answer_witness :
  - 2 ^ 255 <= -200000000000 < 2 ^ 255 /\ (8 <= 255)%N /\
  signum (MyWorkflow.price (-200000000000) 8) = Some (-1).
Proof.
  assert (Ha : - 2 ^ 255 <= -200000000000 < 2 ^ 255) by (split; [vm_compute; discriminate|reflexivity]).
  assert (Hd : (8 <= 255)%N) by lia.
  split; [exact Ha|]. split; [exact Hd|].
  exact (proj1 (price_is_finite_with_the_sign_of_the_answer (-200000000000) 8 Ha Hd)).
Defined.
